(** * L2 dashboard (Arbitrum vs. Optimism): the script [main.py] in Rocq

    The script fetches a TVL series per chain from DefiLlama, runs one Dune
    query per chain, joins the two frames of a chain on [date] and renders
    tiles, charts, a correlation figure and the raw tables with Streamlit.

    The embedding keeps the source's shape:
    - Python values that reach the code are cells of a data frame; a frame is
      its column labels and its rows;
    - a call either returns, raises a Python exception, or is a use of
      pandas or Python that is not written out here ([Outside]): the type
      [outcome] has one constructor for each, and every statement below is
      about the first two;
    - the network, the Dune backend and [Series.corr] are the fields of a
      [World]; every call the code makes to them is logged;
    - the Streamlit calls of the page are a list of events written by a small
      writer-and-exception monad, [Script].

    [st.cache_data] memoises a function on its arguments: a hit returns the
    value an earlier run of the body stored, and the body does not run.
    [fetch_defi_llama_tvl], [query_dune_api_by_id], [query_dune_api_by_sql]
    and [merge_data] below are the bodies; [cache_data] is the memo table
    of [merge_data], [cache_data_ttl] the one of the three fetching
    functions, whose entries live 3600 seconds, and the names ending in
    [_cached] are the functions as the script calls them.  The page
    ([load_tvl], [load_dune], [main]) is written with the bodies: it is a
    run of the script in which no call finds its value in a cache. *)

From Stdlib Require Import ZArith List String Ascii Bool Lia Floats.
From Stdlib Require Import DecimalString Sorted.
Import ListNotations.

Local Open Scope string_scope.
Local Open Scope Z_scope.

(* ================================================================== *)
(** * Python: exceptions, outcomes, strings, formatting                *)
(* ================================================================== *)

Module Py.

(** The exception classes the script can meet.  [RequestException] is the
    root of the errors of [requests]: [ConnectionError], [Timeout],
    [HTTPError] (from [raise_for_status]) and, since requests 2.27,
    [JSONDecodeError] (from [response.json()]) derive from it.
    [OutOfBoundsDatetime] derives from [ValueError].  [DuneError] stands
    for the errors of the Dune client.  Everything derives from
    [Exception]. *)
Inductive exn_class : Type :=
  | Exception
  | RequestException
  | ConnectionError
  | Timeout
  | HTTPError
  | JSONDecodeError
  | KeyError
  | ValueError
  | OutOfBoundsDatetime
  | TypeError
  | OverflowError
  | IndexError
  | DuneError.

(** An exception object: its class and [str(e)]. *)
Record exn : Type := mk_exn { exn_cls : exn_class; exn_str : string }.

Definition exn_class_eqb (a b : exn_class) : bool :=
  match a, b with
  | Exception, Exception | RequestException, RequestException
  | ConnectionError, ConnectionError | Timeout, Timeout
  | HTTPError, HTTPError | JSONDecodeError, JSONDecodeError
  | KeyError, KeyError | ValueError, ValueError
  | OutOfBoundsDatetime, OutOfBoundsDatetime | TypeError, TypeError
  | OverflowError, OverflowError | IndexError, IndexError
  | DuneError, DuneError => true
  | _, _ => false
  end.

(** The direct base class ([Exception] is the root here). *)
Definition base (c : exn_class) : exn_class :=
  match c with
  | ConnectionError | Timeout | HTTPError | JSONDecodeError => RequestException
  | OutOfBoundsDatetime => ValueError
  | _ => Exception
  end.

(** [issubclass c k]: the hierarchy is two levels deep. *)
Definition issubclass (c k : exn_class) : bool :=
  exn_class_eqb c k || exn_class_eqb (base c) k || exn_class_eqb (base (base c)) k.

(** [isinstance(e, k)], the test of an [except k] clause. *)
Definition isinstance (e : exn) (k : exn_class) : bool := issubclass (exn_cls e) k.

(** What a call does: it returns a value, raises, or is a use of a library
    that this development does not write out ([Outside]). *)
Inductive outcome (A : Type) : Type :=
  | Returns (a : A)
  | Raises (e : exn)
  | Outside.
Arguments Returns {A} a.
Arguments Raises {A} e.
Arguments Outside {A}.

Definition bind {A B : Type} (m : outcome A) (k : A -> outcome B) : outcome B :=
  match m with
  | Returns a => k a
  | Raises e => Raises e
  | Outside => Outside
  end.

(** [mapM]: the calls are made from left to right, the first failure wins. *)
Fixpoint traverse {A B : Type} (f : A -> outcome B) (l : list A) : outcome (list B) :=
  match l with
  | [] => Returns []
  | a :: l' => bind (f a) (fun b => bind (traverse f l') (fun bs => Returns (b :: bs)))
  end.

(** ** Strings *)

(** [c.lower()] on an ASCII letter; other characters are kept. *)
Definition lower_ascii (c : ascii) : ascii :=
  let n := nat_of_ascii c in
  if (Nat.leb 65 n && Nat.leb n 90)%bool then ascii_of_nat (n + 32) else c.

(** [s.lower()] *)
Fixpoint lower (s : string) : string :=
  match s with
  | EmptyString => EmptyString
  | String c s' => String (lower_ascii c) (lower s')
  end.

(** [s.startswith(p)] *)
Fixpoint startswith (p s : string) : bool :=
  match p, s with
  | EmptyString, _ => true
  | String a p', String b s' => Ascii.eqb a b && startswith p' s'
  | String _ _, EmptyString => false
  end.

(** [sub in s] *)
Fixpoint contains (sub s : string) : bool :=
  startswith sub s ||
  match s with
  | EmptyString => false
  | String _ s' => contains sub s'
  end.

(** Truth value of an optional string ([None] and [''] are false). *)
Definition truthy (s : option string) : bool :=
  match s with
  | None => false
  | Some EmptyString => false
  | Some _ => true
  end.

(** ** Integers *)

(** [str(z)] *)
Definition str_int (z : Z) : string := NilZero.string_of_int (Z.to_int z).

Definition is_digit (c : ascii) : bool :=
  let n := nat_of_ascii c in (Nat.leb 48 n && Nat.leb n 57)%bool.

Definition digit_value (c : ascii) : Z := Z.of_nat (nat_of_ascii c) - 48.

(** Value of a string of decimal digits, most significant first, after the
    digits read so far. *)
Fixpoint digits_value (acc : Z) (s : string) : option Z :=
  match s with
  | EmptyString => Some acc
  | String c s' =>
      if is_digit c then digits_value (10 * acc + digit_value c) s' else None
  end.

(** A plain integer literal: an optional sign and at least one digit. *)
Definition int_literal (s : string) : option Z :=
  match s with
  | EmptyString => None
  | String "-" (String c r) => option_map Z.opp (digits_value 0 (String c r))
  | String "+" (String c r) => digits_value 0 (String c r)
  | _ => digits_value 0 s
  end.

Fixpoint all_chars (p : ascii -> bool) (s : string) : bool :=
  match s with
  | EmptyString => true
  | String c s' => p c && all_chars p s'
  end.

(** Printable ASCII other than the digits, the quote and the backslash. *)
Definition plain (c : ascii) : bool :=
  let n := nat_of_ascii c in
  (Nat.leb 32 n && Nat.leb n 126 && negb (is_digit c)
   && negb (Nat.eqb n 39) && negb (Nat.eqb n 92))%bool.

(** [int(s)].  Python also strips blanks and accepts underscores and the
    digits of other scripts: a string that is not a plain literal is an
    error when it is made of plain characters without a digit ([repr(s)]
    is then [s] between quotes), and is left [Outside] otherwise. *)
Definition int_of_str (s : string) : outcome Z :=
  match int_literal s with
  | Some z => Returns z
  | None =>
      if all_chars plain s
      then Raises (mk_exn ValueError
                     ("invalid literal for int() with base 10: '" ++ s ++ "'"))
      else Outside
  end.

(** Groups of three digits from the right, joined by commas. *)
Fixpoint group3 (fuel : nat) (n : Z) : string :=
  match fuel with
  | O => str_int n
  | S fuel' =>
      if n <? 1000 then str_int n
      else
        let r := n mod 1000 in
        let pad := if r <? 10 then "00" else if r <? 100 then "0" else "" in
        group3 fuel' (n / 1000) ++ "," ++ pad ++ str_int r
  end.

(** [f"{z:,}"] for an integer: each division by 1000 removes three of the
    digits, so the size of the number is fuel enough. *)
Definition format_thousands (z : Z) : string :=
  let s := group3 (Z.to_nat (Z.log2 (Z.abs z))) (Z.abs z) in
  if z <? 0 then "-" ++ s else s.

(** ** Floats (IEEE 754 binary64, the kernel's) *)

(** [float(z)]: the nearest double, ties to even; Python raises
    [OverflowError] when [z] is beyond the doubles. *)
Definition float_of_int (z : Z) : outcome float :=
  match binary_normalize prec emax z 0 false with
  | S754_infinity _ =>
      Raises (mk_exn OverflowError "int too large to convert to float")
  | sf => Returns (SF2Prim sf)
  end.

(** A non-negative rational [num/den] rounded to the nearest integer, ties
    to the even one. *)
Definition round_half_even (num den : Z) : Z :=
  let q := num / den in
  let r := num mod den in
  if 2 * r <? den then q
  else if den <? 2 * r then q + 1
  else if Z.even q then q else q + 1.

(** The hundredths in [m * 2^e], correctly rounded. *)
Definition hundredths (m : positive) (e : Z) : Z :=
  if 0 <=? e then Z.pos m * 2 ^ e * 100
  else round_half_even (Z.pos m * 100) (2 ^ (- e)).

Definition two_digits (n : Z) : string :=
  if n <? 10 then "0" ++ str_int n else str_int n.

(** [f"{x:.2f}"]: the exact value of the double rounded to two decimals. *)
Definition format_2f (x : float) : string :=
  match Prim2SF x with
  | S754_nan => "nan"
  | S754_infinity s => if s then "-inf" else "inf"
  | S754_zero s => if s then "-0.00" else "0.00"
  | S754_finite s m e =>
      let h := hundredths m e in
      (if s then "-" else "") ++ str_int (h / 100) ++ "." ++ two_digits (h mod 100)
  end.

End Py.

Import Py.

(* ================================================================== *)
(** * pandas: cells, frames, the constructor, [merge], dates           *)
(* ================================================================== *)

Module Pandas.

(** A value in a frame: a Python [int], a [float] (NaN is one),  a [str], a
    [datetime.date] as its number of days since 1970-01-01, or [None]. *)
Inductive cell : Type :=
  | CInt (z : Z)
  | CFloat (f : float)
  | CStr (s : string)
  | CDate (d : Z)
  | CNone.

(** A frame: the column labels, and each row's cells in the order of the
    labels (a row is as long as the labels are many, see [wf]). *)
Record DataFrame : Type := mk_frame { columns : list string; rows : list (list cell) }.

(** [pd.DataFrame()] *)
Definition pd_DataFrame : DataFrame := mk_frame [] [].

(** [pd.DataFrame(columns=cols)] *)
Definition pd_DataFrame_columns (cols : list string) : DataFrame := mk_frame cols [].

(** [df.empty]: some axis has length 0. *)
Definition empty (df : DataFrame) : bool :=
  match columns df, rows df with
  | [], _ => true
  | _, [] => true
  | _, _ => false
  end.

(** [c in df.columns] *)
Definition has_column (c : string) (df : DataFrame) : bool :=
  existsb (String.eqb c) (columns df).

(** The cell of a row under label [c]. *)
Fixpoint field (cols : list string) (row : list cell) (c : string) : option cell :=
  match cols, row with
  | k :: cols', v :: row' => if String.eqb c k then Some v else field cols' row' c
  | _, _ => None
  end.

(** Labels and cells without the column [c]. *)
Fixpoint drop_name (c : string) (cols : list string) : list string :=
  match cols with
  | [] => []
  | k :: cols' => if String.eqb c k then cols' else k :: drop_name c cols'
  end.

Fixpoint drop_field (c : string) (cols : list string) (row : list cell) : list cell :=
  match cols, row with
  | k :: cols', v :: row' =>
      if String.eqb c k then row' else v :: drop_field c cols' row'
  | _, _ => row
  end.

(** [df[c]]: the column, or [KeyError] ([str] of a [KeyError] is the [repr]
    of the key). *)
Definition getitem (df : DataFrame) (c : string) : outcome (list cell) :=
  if has_column c df
  then Returns (map (fun r => match field (columns df) r c with
                              | Some v => v
                              | None => CNone
                              end) (rows df))
  else Raises (mk_exn KeyError ("'" ++ c ++ "'")).

(** [df.rename(columns={old: new}, inplace=True)] *)
Definition rename (old new : string) (df : DataFrame) : DataFrame :=
  mk_frame (map (fun k => if String.eqb k old then new else k) (columns df)) (rows df).

(** [df.tail()]: the last five rows. *)
Definition tail (df : DataFrame) : DataFrame :=
  mk_frame (columns df) (skipn (List.length (rows df) - 5)%nat (rows df)).

(** The rows are as long as the labels are many. *)
Definition wf (df : DataFrame) : bool :=
  forallb (fun r => Nat.eqb (List.length r) (List.length (columns df))) (rows df).

Fixpoint unique (l : list string) : bool :=
  match l with
  | [] => true
  | k :: l' => negb (existsb (String.eqb k) l') && unique l'
  end.

(** ** The constructor on a list of dictionaries *)

(** A dictionary with string keys (a JSON object): its items in the order
    of insertion.  Should a key be repeated, the last value is the one
    kept, at the place of the first. *)
Definition record : Type := list (string * cell).

Fixpoint lookup (k : string) (r : record) : option cell :=
  match r with
  | [] => None
  | (k', v) :: r' =>
      match lookup k r' with
      | Some v' => Some v'
      | None => if String.eqb k k' then Some v else None
      end
  end.

(** Labels in the order of their first appearance. *)
Definition add_label (seen : list string) (k : string) : list string :=
  if existsb (String.eqb k) seen then seen else (seen ++ [k])%list.

Definition labels (data : list record) : list string :=
  fold_left (fun seen r => fold_left add_label (map fst r) seen) data [].

Definition int64 (z : Z) : bool := (- 2 ^ 63 <=? z) && (z <? 2 ^ 63).

(** The dtype pandas gives a column of JSON scalars, as far as it is written
    out here: [int64] when every value is an integer, [float64] when every
    value is a number or missing, [object] when a string or a date is
    among them.  A column with [None] in it, or with an integer beyond
    [int64], is left [Outside]. *)
Inductive dtype : Type := Int64 | Float64 | Object.

Definition is_text (v : option cell) : bool :=
  match v with Some (CStr _) | Some (CDate _) => true | _ => false end.

Definition is_int (v : option cell) : bool :=
  match v with Some (CInt _) => true | _ => false end.

Definition is_number (v : option cell) : bool :=
  match v with Some (CInt _) | Some (CFloat _) | None => true | _ => false end.

Definition in_int64 (v : option cell) : bool :=
  match v with Some (CInt z) => int64 z | _ => true end.

Definition infer_dtype (col : list (option cell)) : outcome dtype :=
  if existsb (fun v => match v with Some CNone => true | _ => false end) col then Outside
  else if negb (forallb in_int64 col) then Outside
  else if existsb is_text col then Returns Object
  else if forallb is_int col then Returns Int64
  else if forallb is_number col then Returns Float64
  else Outside.

(** [float(z)] for [z] in [int64] (no overflow there). *)
Definition float_of_int64 (z : Z) : float := SF2Prim (binary_normalize prec emax z 0 false).

(** A value as the column's dtype stores it; a missing value is NaN. *)
Definition store (t : dtype) (v : option cell) : cell :=
  match t, v with
  | Float64, Some (CInt z) => CFloat (float_of_int64 z)
  | _, Some c => c
  | _, None => CFloat nan
  end.

(** [pd.DataFrame(data)] for a list of flat dictionaries. *)
Definition DataFrame_of_records (data : list record) : outcome DataFrame :=
  let cols := labels data in
  bind (traverse (fun c => infer_dtype (map (lookup c) data)) cols) (fun types =>
  Returns (mk_frame cols
             (map (fun r => map (fun ct => store (snd ct) (lookup (fst ct) r))
                                (combine cols types)) data))).

(** ** [merge] *)

(** The join key of a row when it is a date. *)
Definition date_of (cols : list string) (row : list cell) (on : string) : option Z :=
  match field cols row on with
  | Some (CDate d) => Some d
  | _ => None
  end.

Definition dated (on : string) (df : DataFrame) : bool :=
  forallb (fun r => match date_of (columns df) r on with Some _ => true | None => false end)
          (rows df).

Definition same_date (a b : option Z) : bool :=
  match a, b with
  | Some x, Some y => x =? y
  | _, _ => false
  end.

(** Labels other than [on] that the two frames share (pandas would rename
    them with the suffixes [_x] and [_y]). *)
Definition shared_labels (on : string) (left right : DataFrame) : list string :=
  filter (fun k => negb (String.eqb k on) && existsb (String.eqb k) (columns right))
         (columns left).

(** [pd.merge(left, right, on=on, how='inner')].  The key must be a column
    of both frames.  Written out for frames with distinct labels, no label
    but the key in common, and dates as keys, which is what the script
    joins; the rest is [Outside].  The rows come in the order of the left
    frame's keys, as documented (pandas before 2.2 grouped the rows of a
    repeated left key), and for one left row in the order of the right
    frame. *)
Definition join_rows (on : string) (left right : DataFrame) : list (list cell) :=
  flat_map
    (fun l =>
       map (fun r => (l ++ drop_field on (columns right) r)%list)
           (filter (fun r => same_date (date_of (columns left) l on)
                                       (date_of (columns right) r on))
                   (rows right)))
    (rows left).

Definition merge (left right : DataFrame) (on : string) : outcome DataFrame :=
  if negb (has_column on left && has_column on right)
  then Raises (mk_exn KeyError ("'" ++ on ++ "'"))
  else if negb (unique (columns left) && unique (columns right)
                && wf left && wf right) then Outside
  else if negb (match shared_labels on left right with [] => true | _ => false end)
  then Outside
  else if negb (dated on left && dated on right) then Outside
  else Returns (mk_frame (columns left ++ drop_name on (columns right))
                         (join_rows on left right)).

(** ** Rows *)

(** The cells of a row that comes out of a frame whose columns are all
    numeric have one dtype: with a float among them the integers are
    floats too. *)
Definition upcast (row : list cell) : list cell :=
  if forallb (fun c => is_number (Some c) && in_int64 (Some c)) row
     && existsb (fun c => match c with CFloat _ => true | _ => false end) row
  then map (fun c => match c with CInt z => CFloat (float_of_int64 z) | _ => c end) row
  else row.

(** [df.iloc[-1]] *)
Definition iloc_last (df : DataFrame) : outcome (list cell) :=
  match rev (rows df) with
  | [] => Raises (mk_exn IndexError "single positional indexer is out-of-bounds")
  | r :: _ => Returns (upcast r)
  end.

(** [row[c]] on the row of a frame with labels [cols]. *)
Definition row_getitem (cols : list string) (row : list cell) (c : string) : outcome cell :=
  match field cols row c with
  | Some v => Returns v
  | None => Raises (mk_exn KeyError ("'" ++ c ++ "'"))
  end.

(** ** Equal content *)

(** Two doubles with the same bits. *)
Definition sf_eqb (a b : spec_float) : bool :=
  match a, b with
  | S754_zero s, S754_zero t => Bool.eqb s t
  | S754_infinity s, S754_infinity t => Bool.eqb s t
  | S754_nan, S754_nan => true
  | S754_finite s m e, S754_finite t n f => Bool.eqb s t && Pos.eqb m n && Z.eqb e f
  | _, _ => false
  end.

Definition cell_eqb (a b : cell) : bool :=
  match a, b with
  | CInt x, CInt y => x =? y
  | CFloat f, CFloat g => sf_eqb (Prim2SF f) (Prim2SF g)
  | CStr s, CStr t => String.eqb s t
  | CDate d, CDate e => d =? e
  | CNone, CNone => true
  | _, _ => false
  end.

Fixpoint list_eqb {X : Type} (eqb : X -> X -> bool) (l1 l2 : list X) : bool :=
  match l1, l2 with
  | [], [] => true
  | x :: l1', y :: l2' => eqb x y && list_eqb eqb l1' l2'
  | _, _ => false
  end.

(** The same labels and the same values. *)
Definition frame_eqb (A B : DataFrame) : bool :=
  list_eqb String.eqb (columns A) (columns B)
  && list_eqb (list_eqb cell_eqb) (rows A) (rows B).

(** ** Dates *)

(** Days from 1970-01-01 to the civil date [y-m-d] (proleptic Gregorian). *)
Definition days_from_civil (y m d : Z) : Z :=
  let y' := if m <=? 2 then y - 1 else y in
  let era := y' / 400 in
  let yoe := y' - era * 400 in
  let doy := (153 * (if 2 <? m then m - 3 else m + 9) + 2) / 5 + d - 1 in
  let doe := yoe * 365 + yoe / 4 - yoe / 100 + doy in
  era * 146097 + doe - 719468.

Definition leap (y : Z) : bool :=
  ((y mod 4 =? 0) && negb (y mod 100 =? 0)) || (y mod 400 =? 0).

Definition days_in_month (y m : Z) : Z :=
  if m =? 2 then (if leap y then 29 else 28)
  else if (m =? 4) || (m =? 6) || (m =? 9) || (m =? 11) then 30
  else 31.

(** Years whose every instant a [Timestamp] holds. *)
Definition valid_date (y m d : Z) : bool :=
  (1678 <=? y) && (y <=? 2261) && (1 <=? m) && (m <=? 12)
  && (1 <=? d) && (d <=? days_in_month y m).

Definition number (n : nat) (s : string) : option Z :=
  if Nat.eqb (String.length s) n then digits_value 0 s else None.

(** The day of [YYYY-MM-DD]. *)
Definition parse_day (s : string) : option Z :=
  match number 4 (substring 0 4 s), number 2 (substring 5 2 s), number 2 (substring 8 2 s) with
  | Some y, Some m, Some d =>
      if String.eqb (substring 4 1 s) "-" && String.eqb (substring 7 1 s) "-"
         && Nat.eqb (String.length s) 10 && valid_date y m d
      then Some (days_from_civil y m d) else None
  | _, _, _ => None
  end.

(** The time of day [HH:MM:SS.fff UTC], as Dune writes it. *)
Definition parse_utc_time (s : string) : bool :=
  match number 2 (substring 0 2 s), number 2 (substring 3 2 s),
        number 2 (substring 6 2 s), number 3 (substring 9 3 s) with
  | Some h, Some mi, Some sec, Some _ =>
      (h <? 24) && (mi <? 60) && (sec <? 60)
      && String.eqb (substring 2 1 s) ":" && String.eqb (substring 5 1 s) ":"
      && String.eqb (substring 8 1 s) "." && String.eqb (substring 12 4 s) " UTC"
      && Nat.eqb (String.length s) 16
  | _, _, _, _ => false
  end.

(** The shapes of date column that [to_datetime] is written out for. *)
Inductive date_shape : Type := IsoDay | DuneStamp | DateObject | Nanoseconds.

Definition shape_eqb (a b : date_shape) : bool :=
  match a, b with
  | IsoDay, IsoDay | DuneStamp, DuneStamp | DateObject, DateObject
  | Nanoseconds, Nanoseconds => true
  | _, _ => false
  end.

(** [pd.to_datetime(x).date()] for one cell, with the shape it was read in:
    a string [YYYY-MM-DD], a string [YYYY-MM-DD HH:MM:SS.fff UTC], a date
    of the years a [Timestamp] holds, or an integer count of nanoseconds
    since the epoch. *)
Definition read_date (c : cell) : option (date_shape * Z) :=
  match c with
  | CStr s =>
      match parse_day s with
      | Some d => Some (IsoDay, d)
      | None =>
          match parse_day (substring 0 10 s) with
          | Some d =>
              if String.eqb (substring 10 1 s) " "
                 && parse_utc_time (substring 11 (String.length s - 11)%nat s)
              then Some (DuneStamp, d) else None
          | None => None
          end
      end
  | CDate d => if (days_from_civil 1678 1 1 <=? d) && (d <=? days_from_civil 2261 12 31)
               then Some (DateObject, d) else None
  | CInt z => if (- 2 ^ 63 <? z) && (z <? 2 ^ 63)
              then Some (Nanoseconds, z / 86400000000000) else None
  | _ => None
  end.

(** [pd.to_datetime(col).dt.date]: every cell of the column must read in
    the shape of the first; anything else is [Outside].  A null cell is
    among what is not written out: pandas reads it as [NaT] and goes
    on. *)
Definition to_datetime_date (col : list cell) : outcome (list cell) :=
  match col with
  | [] => Returns []
  | c0 :: _ =>
      match read_date c0 with
      | None => Outside
      | Some (sh, _) =>
          traverse (fun c => match read_date c with
                             | Some (sh', d) =>
                                 if shape_eqb sh sh' then Returns (CDate d) else Outside
                             | None => Outside
                             end) col
      end
  end.

(** The row with its cell under [c] replaced by [v]. *)
Fixpoint set_field (c : string) (v : cell) (cols : list string) (row : list cell)
  : list cell :=
  match cols, row with
  | k :: cols', x :: row' =>
      if String.eqb c k then v :: row' else x :: set_field c v cols' row'
  | _, _ => row
  end.

(** [df[c] = col] for an existing column [c]. *)
Definition setitem (df : DataFrame) (c : string) (col : list cell) : DataFrame :=
  mk_frame (columns df)
           (map (fun rv => set_field c (snd rv) (columns df) (fst rv))
                (combine (rows df) col)).

(** One cell of [pd.to_numeric(col)]: a number is kept, a string that is
    the decimal writing of an integer (as [str] gives it) is that
    integer. *)
Definition to_numeric (c : cell) : outcome cell :=
  match c with
  | CInt z => if int64 z then Returns (CInt z) else Outside
  | CFloat f => Returns (CFloat f)
  | CStr s => match int_literal s with
              | Some z => if String.eqb (str_int z) s && int64 z
                          then Returns (CInt z) else Outside
              | None => Outside
              end
  | _ => Outside
  end.

(** One cell of [pd.to_datetime(col, unit='s').dt.date] for an integer
    count of seconds since the epoch: a [Timestamp] holds it when its
    nanoseconds fit [int64]; the date is the day the second falls in.
    A float is not written out: that is the column of a provider whose
    records lack some [date], where pandas turns the NaN of a missing date
    into [NaT] and goes on. *)
Definition to_datetime_s_date (c : cell) : outcome cell :=
  match c with
  | CInt z =>
      if (- 9223372036 <=? z) && (z <=? 9223372036) then Returns (CDate (z / 86400))
      else Raises (mk_exn OutOfBoundsDatetime "cannot convert input with unit 's'")
  | _ => Outside
  end.

End Pandas.

Import Pandas.

(* ================================================================== *)
(** * The world outside the script, and the script monad               *)
(* ================================================================== *)

(** What an external service answers to one call. *)
Inductive answer (A : Type) : Type :=
  | Value (a : A)
  | Error (e : exn).
Arguments Value {A} a.
Arguments Error {A} e.

Definition of_answer {A : Type} (r : answer A) : outcome A :=
  match r with
  | Value a => Returns a
  | Error e => Raises e
  end.

(** The body of an HTTP response: not JSON at all, a JSON array of flat
    objects, or another JSON document. *)
Inductive http_body : Type :=
  | NotJson (msg : string)     (* with the message of the decoder *)
  | JsonRecords (data : list record)
  | JsonOther.

(** [requests.get(url)]: it raises, or there is a response. *)
Inductive http_reply : Type :=
  | GetRaises (e : exn)
  | Response (status_code : Z) (reason : string) (body : http_body).

(** The object [dune_client.run_sql] returns.  The script probes it with
    [hasattr]: each attribute may be missing.  [result] may be there and
    false ([None]); [get_rows] is a method, with the answer of its call. *)
Record ExecutionResult : Type := mk_execution_result {
  er_rows : option (list record);        (* result.result.rows *)
  er_data_rows : option (list record)    (* result.result.data.rows *)
}.

Record ResultsResponse : Type := mk_results_response {
  r_result : option (option ExecutionResult);
  r_get_rows : option (answer (list record));
  r_rows : option (list record)
}.

Record World : Type := mk_world {
  http_get : string -> http_reply;
  run_query_dataframe : Z -> answer DataFrame;
  run_sql : string -> string -> answer ResultsResponse;  (* query_sql, name *)
  series_corr : list cell -> list cell -> answer float   (* a.corr(b) *)
}.

(** A plotly trace: its name, x and y. *)
Definition trace : Type := (string * list cell * list cell)%type.

(** What the script does that can be seen from outside, in order. *)
Inductive event : Type :=
  | Get (url : string)                          (* requests.get *)
  | RunQuery (query_id : Z)                     (* run_query_dataframe *)
  | RunSql (query_sql name : string)            (* run_sql *)
  | st_set_page_config (page_title : string)
  | st_title (body : string)
  | st_expander (label : string)
  | st_info (body : string)
  | st_toast (body : string)
  | st_error (body : string)
  | st_warning (body : string)
  | st_success (body : string)
  | st_header (body : string)
  | st_subheader (body : string)
  | st_metric (label value : string)
  | st_plotly_chart (title : string) (traces : list trace)
  | st_dataframe (df : DataFrame).

(** A run of a piece of the script: the events so far and how it ended. *)
Definition Script (A : Type) : Type := (list event * outcome A)%type.

Definition ret {A : Type} (a : A) : Script A := ([], Returns a).

Definition lift {A : Type} (o : outcome A) : Script A := ([], o).

Definition emit (e : event) : Script unit := ([e], Returns tt).

Definition raise {A : Type} (e : exn) : Script A := ([], Raises e).

Definition seq {A B : Type} (m : Script A) (k : A -> Script B) : Script B :=
  match m with
  | (l, Returns a) => let (l', r) := k a in ((l ++ l')%list, r)
  | (l, Raises e) => (l, Raises e)
  | (l, Outside) => (l, Outside)
  end.

(** [try: m  except cls as e: handler e] *)
Definition try_except {A : Type} (m : Script A) (cls : exn_class)
    (handler : exn -> Script A) : Script A :=
  match m with
  | (l, Raises e) =>
      if isinstance e cls then let (l', r) := handler e in ((l ++ l')%list, r)
      else (l, Raises e)
  | _ => m
  end.

Notation "x <- m ;; k" := (seq m (fun x => k))
  (at level 61, m at next level, right associativity).
Notation "m ;;; k" := (seq m (fun _ => k))
  (at level 61, right associativity).

(* ================================================================== *)
(** * main.py                                                          *)
(* ================================================================== *)

(** ** 1. The API key *)

(** The process environment, as far as the script reads it. *)
Record Env : Type := mk_env {
  DUNE_API_KEY : option string;
  ARBITRUM_QUERY_ID : option string;
  OPTIMISM_QUERY_ID : option string
}.

(** [dune_client]: [None] without a key, else the client made of it. *)
Definition dune_client (env : Env) : option string :=
  if truthy (DUNE_API_KEY env) then DUNE_API_KEY env else None.

(** ** 2. The SQL of the two queries *)

Definition dq : string := String (ascii_of_nat 34) EmptyString.

Definition sql_query (chain : string) : string :=
"
SELECT
    DATE_TRUNC('day', block_time) AS date,
    COUNT(DISTINCT " ++ dq ++ "from" ++ dq ++ ") AS daily_active_users,
    COUNT(hash) AS transaction_count,
    SUM(gas_used * gas_price / 1e18 * p.price) / COUNT(hash) AS avg_gas_fee_usd
FROM " ++ chain ++ ".transactions t
LEFT JOIN prices.usd p ON p.minute = DATE_TRUNC('minute', t.block_time)
    AND p.symbol = 'ETH'
WHERE
    t.block_time >= NOW() - INTERVAL '90' DAY -- Look back 90 days
GROUP BY 1
ORDER BY 1 DESC
".

Definition ARBITRUM_SQL_QUERY : string := sql_query "arbitrum".
Definition OPTIMISM_SQL_QUERY : string := sql_query "optimism".

(** ** 3. The fetching functions *)

(** [response.raise_for_status()] *)
Definition raise_for_status (url : string) (status_code : Z) (reason : string)
  : outcome unit :=
  let msg kind := str_int status_code ++ kind ++ reason ++ " for url: " ++ url in
  if (400 <=? status_code) && (status_code <? 500)
  then Raises (mk_exn HTTPError (msg " Client Error: "))
  else if (500 <=? status_code) && (status_code <? 600)
  then Raises (mk_exn HTTPError (msg " Server Error: "))
  else Returns tt.

(** [response.json()], for the bodies this development follows further: a
    JSON array of flat objects.  Another document is not written out; an
    object of arrays such as [{"date": []}] is one from which pandas builds
    a frame by columns. *)
Definition response_json (body : http_body) : outcome (list record) :=
  match body with
  | NotJson msg => Raises (mk_exn JSONDecodeError msg)
  | JsonRecords data => Returns data
  | JsonOther => Outside
  end.

(** [fetch_defi_llama_tvl(chain_slug)]: the body, which a call runs when
    the cache of the function has no live entry for [chain_slug]
    ([fetch_defi_llama_tvl_cached] below is the call). *)
Definition fetch_defi_llama_tvl (w : World) (chain_slug : string) : Script DataFrame :=
  let url := "https://api.llama.fi/charts/" ++ chain_slug in
  try_except
    (emit (Get url) ;;;
     response <- lift (match http_get w url with
                       | GetRaises e => Raises e
                       | Response status_code reason body =>
                           Returns (status_code, reason, body)
                       end) ;;
     lift (raise_for_status url (fst (fst response)) (snd (fst response))) ;;;
     data <- lift (response_json (snd response)) ;;
     df <- lift (DataFrame_of_records data) ;;
     col <- lift (getitem df "date") ;;
     seconds <- lift (traverse to_numeric col) ;;
     days <- lift (traverse to_datetime_s_date seconds) ;;
     ret (rename "totalLiquidityUSD" "tvl_usd" (setitem df "date" days)))
    RequestException
    (fun _ => ret (pd_DataFrame_columns ["date"; "tvl_usd"])).

(** The two query functions end alike:
    [if not df.empty and 'date' in df.columns:
         df['date'] = pd.to_datetime(df['date']).dt.date] *)
Definition normalize_date (results_df : DataFrame) : outcome DataFrame :=
  if negb (empty results_df) && has_column "date" results_df
  then bind (getitem results_df "date") (fun col =>
       bind (to_datetime_date col) (fun days =>
       Returns (setitem results_df "date" days)))
  else Returns results_df.

(** [query_dune_api_by_id(query_id)]: the body ([query_dune_api_by_id_cached]
    below is the call under the cache). *)
Definition query_dune_api_by_id (w : World) (client : option string) (query_id : Z)
  : Script DataFrame :=
  match client with
  | None => ret pd_DataFrame
  | Some _ =>
      try_except
        (emit (RunQuery query_id) ;;;
         results_df <- lift (of_answer (run_query_dataframe w query_id)) ;;
         lift (normalize_date results_df))
        Exception
        (fun e => raise (mk_exn Exception
                   ("Dune API error for query ID " ++ str_int query_id ++ ": " ++ exn_str e)))
  end.

(** The rows the script digs out of the object [run_sql] returned. *)
Definition extract_rows (result : ResultsResponse) : outcome (option (list record)) :=
  match r_result result with
  | Some (Some res) =>
      match er_rows res with
      | Some rows => Returns (Some rows)
      | None => Returns (er_data_rows res)
      end
  | _ =>
      match r_get_rows result with
      | Some called => bind (of_answer called) (fun rows => Returns (Some rows))
      | None => Returns (r_rows result)
      end
  end.

Definition paid_plan_message : string :=
  "Dune API requires a paid plan to create queries programmatically. " ++
  "Please create queries manually in Dune Analytics UI and use query IDs instead. " ++
  "Set ARBITRUM_QUERY_ID and OPTIMISM_QUERY_ID environment variables.".

(** [query_dune_api_by_sql(query_name, sql_query)]: the body
    ([query_dune_api_by_sql_cached] below is the call under the cache). *)
Definition query_dune_api_by_sql (w : World) (client : option string)
    (query_name sql_query : string) : Script DataFrame :=
  match client with
  | None => ret pd_DataFrame
  | Some _ =>
      try_except
        (emit (RunSql sql_query query_name) ;;;
         result <- lift (of_answer (run_sql w sql_query query_name)) ;;
         rows <- lift (extract_rows result) ;;
         match rows with
         | Some (r :: rs) =>
             results_df <- lift (DataFrame_of_records (r :: rs)) ;;
             lift (normalize_date results_df)
         | _ => ret pd_DataFrame
         end)
        Exception
        (fun e =>
           let error_msg := exn_str e in
           if contains "paid plan" (lower error_msg) || contains "upgrade" (lower error_msg)
           then raise (mk_exn Exception paid_plan_message)
           else raise (mk_exn Exception
                         ("Dune API error for " ++ query_name ++ ": " ++ error_msg)))
  end.

(** ** 4. The page *)

Definition setup_instructions : string := "
        **To use Dune API with a free account:**
        
        1. Go to [Dune Analytics](https://dune.com) and create an account
        2. Create two queries manually in the Dune UI:
           - One for Arbitrum data (use the SQL query in the code)
           - One for Optimism data (use the SQL query in the code)
        3. Copy the query IDs from the URL (e.g., if URL is `dune.com/queries/12345`, the ID is `12345`)
        4. Set environment variables:
           - `ARBITRUM_QUERY_ID=your_arbitrum_query_id`
           - `OPTIMISM_QUERY_ID=your_optimism_query_id`
        
        **Alternative:** If you have a paid Dune plan, the app will automatically use raw SQL queries.
        ".

(** [df = fetch_defi_llama_tvl(slug)], with the error shown outside the
    cached function when the frame is empty. *)
Definition load_tvl (w : World) (slug Name : string) : Script DataFrame :=
  emit (st_toast ("Fetching DefiLlama TVL data for " ++ slug ++ "...")) ;;;
  tvl_df <- fetch_defi_llama_tvl w slug ;;
  (if empty tvl_df
   then emit (st_error ("Error fetching " ++ Name ++ " TVL data from DefiLlama"))
   else ret tt) ;;;
  ret tvl_df.

(** The block that runs one chain's Dune query (the script has it twice,
    for [arbitrum] and for [optimism]): by id when [QUERY_ID] is set, else
    by SQL.  [VAR] is the name of the environment variable. *)
Definition load_dune (w : World) (client : option string)
    (slug Name VAR : string) (QUERY_ID : option string) (SQL_QUERY : string)
  : Script DataFrame :=
  emit (st_toast ("Executing Dune query for " ++ slug ++ "...")) ;;;
  try_except
    (dune_df <-
       (if truthy QUERY_ID
        then
          let id := match QUERY_ID with Some s => s | None => "" end in
          try_except
            (query_id <- lift (int_of_str id) ;;
             query_dune_api_by_id w client query_id)
            ValueError
            (fun _ =>
               emit (st_error ("Invalid " ++ VAR ++ ": " ++ id ++ ". Must be a number.")) ;;;
               ret pd_DataFrame)
        else
          emit (st_warning ("⚠️ " ++ VAR ++ " not set. Attempting to use raw SQL (requires paid Dune plan)...")) ;;;
          try_except
            (query_dune_api_by_sql w client slug SQL_QUERY)
            Exception
            (fun sql_error =>
               if contains "paid plan" (lower (exn_str sql_error))
               then
                 emit (st_error ("❌ Dune API requires a paid plan for raw SQL queries. Please set " ++ VAR ++ " environment variable. See setup instructions above.")) ;;;
                 ret pd_DataFrame
               else raise sql_error)) ;;
     (if empty dune_df
      then emit (st_warning (Name ++ " Dune query returned no data. This may be normal if the query is still executing."))
      else ret tt) ;;;
     ret dune_df)
    Exception
    (fun e =>
       emit (st_error ("Error querying Dune API for " ++ slug ++ ": " ++ exn_str e)) ;;;
       ret pd_DataFrame).

(** [merge_data(tvl_df, dune_df)] *)
Definition merge_data (tvl_df dune_df : DataFrame) : outcome DataFrame :=
  if empty tvl_df || empty dune_df then Returns pd_DataFrame
  else merge tvl_df dune_df "date".

(** [@st.cache_data]: the values a function has returned, by argument.  A
    call with an argument of the same content as an earlier one gets the
    stored value and the body does not run; a call that raises stores
    nothing. *)
Definition Memo (K V : Type) : Type := list (K * V).

Definition cache_data {K V : Type} (key_eqb : K -> K -> bool) (body : K -> outcome V)
    (memo : Memo K V) (k : K) : outcome V * Memo K V :=
  match find (fun kv => key_eqb k (fst kv)) memo with
  | Some kv => (Returns (snd kv), memo)
  | None =>
      match body k with
      | Returns v => (Returns v, (k, v) :: memo)
      | o => (o, memo)
      end
  end.

(** A run of calls, each on the memo the one before left. *)
Fixpoint replay {K V : Type} (key_eqb : K -> K -> bool) (body : K -> outcome V)
    (memo : Memo K V) (calls : list K) : list (outcome V) :=
  match calls with
  | [] => []
  | k :: calls' =>
      let (o, memo') := cache_data key_eqb body memo k in
      o :: replay key_eqb body memo' calls'
  end.

(** Every stored value is what the body returns on its argument. *)
Definition faithful {K V : Type} (body : K -> outcome V) (memo : Memo K V) : Prop :=
  Forall (fun kv => body (fst kv) = Returns (snd kv)) memo.

(** [merge_data] as the script calls it, under [@st.cache_data]: the key is
    the content of the two frames. *)
Definition merge_key_eqb (k k' : DataFrame * DataFrame) : bool :=
  frame_eqb (fst k) (fst k') && frame_eqb (snd k) (snd k').

Definition merge_data_body (k : DataFrame * DataFrame) : outcome DataFrame :=
  merge_data (fst k) (snd k).

Definition merge_data_cached
  : Memo (DataFrame * DataFrame) DataFrame -> DataFrame * DataFrame ->
    outcome DataFrame * Memo (DataFrame * DataFrame) DataFrame :=
  cache_data merge_key_eqb merge_data_body.

(** [@st.cache_data(ttl=...)] around a function that calls the outside.
    An entry is a key, the value stored and the time (in seconds) at which
    it expires; the cache of Streamlit is a [cachetools.TTLCache], which
    gives an entry while the clock is before that time.  A hit returns the
    stored value: the body does not run, so no call is made.  On a miss
    the body runs; a value it returns is stored for [ttl] seconds, an
    exception is stored nowhere.  A call is taken at one instant, [now]. *)
Definition TtlMemo (K V : Type) : Type := list (K * V * Z).

Definition cached_value {K V : Type} (key_eqb : K -> K -> bool) (now : Z)
    (memo : TtlMemo K V) (k : K) : option V :=
  match find (fun e => key_eqb k (fst (fst e)) && (now <? snd e)) memo with
  | Some e => Some (snd (fst e))
  | None => None
  end.

Definition cache_data_ttl {K V : Type} (ttl : Z) (key_eqb : K -> K -> bool)
    (body : K -> Script V) (now : Z) (memo : TtlMemo K V) (k : K)
  : Script V * TtlMemo K V :=
  match cached_value key_eqb now memo k with
  | Some v => (ret v, memo)
  | None =>
      let run := body k in
      (run, match snd run with
            | Returns v => (k, v, now + ttl) :: memo
            | _ => memo
            end)
  end.

(** The three fetching functions as the script calls them, under
    [@st.cache_data(ttl=3600)]: the key is the argument ([chain_slug], the
    [query_id], the pair of [query_name] and [sql_query]). *)
Definition fetch_defi_llama_tvl_cached (w : World)
  : Z -> TtlMemo string DataFrame -> string -> Script DataFrame * TtlMemo string DataFrame :=
  cache_data_ttl 3600 String.eqb (fetch_defi_llama_tvl w).




(** [x / 1e9] *)
Definition div_1e9 (x : cell) : outcome float :=
  let type_error (t : string) :=
    Raises (mk_exn TypeError ("unsupported operand type(s) for /: '" ++ t ++ "' and 'float'")) in
  match x with
  | CInt z => bind (float_of_int z) (fun f => Returns (f / 1e9)%float)
  | CFloat f => Returns (f / 1e9)%float
  | CStr _ => type_error "str"
  | CDate _ => type_error "datetime.date"
  | CNone => type_error "NoneType"
  end.

(** [f"{x:,}"].  A date formats with [strftime], which copies the comma; the
    digits of a float are not written out here. *)
Definition format_comma (x : cell) : outcome string :=
  match x with
  | CInt z => Returns (format_thousands z)
  | CFloat _ => Outside
  | CStr _ => Raises (mk_exn ValueError "Cannot specify ',' with 's'.")
  | CDate _ => Returns ","
  | CNone => Raises (mk_exn TypeError "unsupported format string passed to NoneType.__format__")
  end.

(** [f"${latest['tvl_usd']/1e9:.2f}B"] *)
Definition tvl_text (cols : list string) (latest : list cell) : outcome string :=
  bind (row_getitem cols latest "tvl_usd") (fun x =>
  bind (div_1e9 x) (fun b => Returns ("$" ++ format_2f b ++ "B"))).

(** [f"{latest['daily_active_users']:,}"] *)
Definition users_text (cols : list string) (latest : list cell) : outcome string :=
  bind (row_getitem cols latest "daily_active_users") format_comma.

(** Key metrics: the latest row of each chain in four tiles. *)
Definition key_metrics (arbitrum_full_df optimism_full_df : DataFrame) : Script unit :=
  emit (st_header "At-a-Glance (Latest Data)") ;;;
  arb_latest <- lift (iloc_last arbitrum_full_df) ;;
  op_latest <- lift (iloc_last optimism_full_df) ;;
  v <- lift (tvl_text (columns arbitrum_full_df) arb_latest) ;;
  emit (st_metric "Arbitrum TVL" v) ;;;
  v <- lift (tvl_text (columns optimism_full_df) op_latest) ;;
  emit (st_metric "Optimism TVL" v) ;;;
  v <- lift (users_text (columns arbitrum_full_df) arb_latest) ;;
  emit (st_metric "Arbitrum Daily Users" v) ;;;
  v <- lift (users_text (columns optimism_full_df) op_latest) ;;
  emit (st_metric "Optimism Daily Users" v).

(** One chart: a line figure with a trace per chain. *)
Definition chart (subheader title column : string)
    (arbitrum_full_df optimism_full_df : DataFrame) : Script unit :=
  emit (st_subheader subheader) ;;;
  ax <- lift (getitem arbitrum_full_df "date") ;;
  ay <- lift (getitem arbitrum_full_df column) ;;
  ox <- lift (getitem optimism_full_df "date") ;;
  oy <- lift (getitem optimism_full_df column) ;;
  emit (st_plotly_chart title [("Arbitrum", ax, ay); ("Optimism", ox, oy)]).

Definition visualizations (arbitrum_full_df optimism_full_df : DataFrame) : Script unit :=
  emit (st_header "Comparative Analysis") ;;;
  chart "Total Value Locked (TVL)" "TVL (USD) Over Time" "tvl_usd"
        arbitrum_full_df optimism_full_df ;;;
  chart "Daily Active Users (DAU)" "Daily Active Users Over Time" "daily_active_users"
        arbitrum_full_df optimism_full_df ;;;
  chart "Transaction Count" "Daily Transactions Over Time" "transaction_count"
        arbitrum_full_df optimism_full_df ;;;
  chart "Average Gas Fee (USD)" "Average Gas Fee (USD) Over Time" "avg_gas_fee_usd"
        arbitrum_full_df optimism_full_df.

(** [df['avg_gas_fee_usd'].corr(df['transaction_count'])] *)
Definition gas_corr (w : World) (df : DataFrame) : outcome float :=
  bind (getitem df "avg_gas_fee_usd") (fun gas =>
  bind (getitem df "transaction_count") (fun tx =>
  of_answer (series_corr w gas tx))).

Definition correlation_analysis (w : World) (arbitrum_full_df optimism_full_df : DataFrame)
  : Script unit :=
  emit (st_header "Correlation Analysis") ;;;
  try_except
    (arb_gas_corr <- lift (gas_corr w arbitrum_full_df) ;;
     op_gas_corr <- lift (gas_corr w optimism_full_df) ;;
     emit (st_metric "Arbitrum: Gas Fee vs. Tx Count Corr." (format_2f arb_gas_corr)) ;;;
     emit (st_metric "Optimism: Gas Fee vs. Tx Count Corr." (format_2f op_gas_corr)))
    Exception
    (fun e => emit (st_warning ("Could not calculate correlation: " ++ exn_str e))).

Definition raw_data (arbitrum_full_df optimism_full_df : DataFrame) : Script unit :=
  emit (st_expander "Show Raw Merged Dataframes") ;;;
  emit (st_subheader "Arbitrum Raw Data") ;;;
  emit (st_dataframe (tail arbitrum_full_df)) ;;;
  emit (st_subheader "Optimism Raw Data") ;;;
  emit (st_dataframe (tail optimism_full_df)).

(** What follows the two merges: the gate on empty frames, then the page. *)
Definition dashboard (w : World) (arbitrum_full_df optimism_full_df : DataFrame)
  : Script unit :=
  if empty arbitrum_full_df || empty optimism_full_df
  then emit (st_error "Data merging failed. Check if all APIs returned data.")
  else
    emit (st_success "All data loaded and merged successfully!") ;;;
    key_metrics arbitrum_full_df optimism_full_df ;;;
    visualizations arbitrum_full_df optimism_full_df ;;;
    correlation_analysis w arbitrum_full_df optimism_full_df ;;;
    raw_data arbitrum_full_df optimism_full_df.

(** The script down to the two merges. *)
Definition load_and_merge (w : World) (env : Env) : Script (DataFrame * DataFrame) :=
  emit (st_set_page_config "L2 Dashboard (Arbitrum vs. Optimism)") ;;;
  (if truthy (DUNE_API_KEY env) then ret tt
   else emit (st_error "DUNE_API_KEY environment variable not set. Please set it in your deployment settings.")) ;;;
  emit (st_title "L2 Showdown: Arbitrum vs. Optimism") ;;;
  (if negb (truthy (ARBITRUM_QUERY_ID env)) || negb (truthy (OPTIMISM_QUERY_ID env))
   then emit (st_expander "ℹ️ Dune API Setup Instructions (Free Tier)") ;;;
        emit (st_info setup_instructions)
   else ret tt) ;;;
  arbitrum_tvl_df <- load_tvl w "arbitrum" "Arbitrum" ;;
  optimism_tvl_df <- load_tvl w "optimism" "Optimism" ;;
  arbitrum_dune_df <- load_dune w (dune_client env) "arbitrum" "Arbitrum"
                        "ARBITRUM_QUERY_ID" (ARBITRUM_QUERY_ID env) ARBITRUM_SQL_QUERY ;;
  optimism_dune_df <- load_dune w (dune_client env) "optimism" "Optimism"
                        "OPTIMISM_QUERY_ID" (OPTIMISM_QUERY_ID env) OPTIMISM_SQL_QUERY ;;
  arbitrum_full_df <- lift (merge_data arbitrum_tvl_df arbitrum_dune_df) ;;
  optimism_full_df <- lift (merge_data optimism_tvl_df optimism_dune_df) ;;
  ret (arbitrum_full_df, optimism_full_df).

(** The script from top to bottom, each decorated function run by its
    body. *)
Definition main (w : World) (env : Env) : Script unit :=
  full <- load_and_merge w env ;;
  dashboard w (fst full) (snd full).

(** The events that put a part of the dashboard on the page: a header, a
    tile, a chart, a table, the success banner, the raw-data expander. *)
Definition renders_section (ev : event) : bool :=
  match ev with
  | st_header _ | st_subheader _ | st_metric _ _ | st_plotly_chart _ _
  | st_dataframe _ | st_success _ => true
  | st_expander label => String.eqb label "Show Raw Merged Dataframes"
  | _ => false
  end.

(** A run that puts no part of the dashboard on the page. *)
Definition quiet {A : Type} (m : Script A) : Prop :=
  Forall (fun ev => renders_section ev = false) (fst m).

(** A series of the data model: a frame with distinct labels, a [date]
    column, rows as long as the labels, and a [datetime.date] in every
    [date] cell. *)
Definition series (df : DataFrame) : bool :=
  has_column "date" df && unique (columns df) && wf df && dated "date" df.

(** The two frames have no label in common but [date]. *)
Definition disjoint_fields (A B : DataFrame) : bool :=
  match shared_labels "date" A B with [] => true | _ => false end.

(** A left row survives the join once for each right row of its date. *)
Definition matches (on : string) (A B : DataFrame) (l : list cell) : nat :=
  List.length (filter (fun r => same_date (date_of (columns A) l on)
                                          (date_of (columns B) r on)) (rows B)).

Definition survivors (on : string) (A B : DataFrame) : list (list cell) :=
  flat_map (fun l => repeat l (matches on A B l)) (rows A).

(** The page's and the query function's test for a failure of the plan. *)
Definition insufficient_tier (error_msg : string) : bool :=
  contains "paid plan" (lower error_msg) || contains "upgrade" (lower error_msg).

(** The text of a failure that is not one of the plan. *)
Definition by_id_error_text (query_id : Z) (error_msg : string) : string :=
  "Dune API error for query ID " ++ str_int query_id ++ ": " ++ error_msg.

Definition by_sql_error_text (query_name error_msg : string) : string :=
  "Dune API error for " ++ query_name ++ ": " ++ error_msg.

(** ** Worlds and frames of the scenarios *)

(** A backend that fails every call with one error. *)
Definition failing_backend (http : string -> http_reply) (e : exn) : World :=
  mk_world http (fun _ => Error e) (fun _ _ => Error e) (fun _ _ => Error e).

Definition unreachable : string -> http_reply :=
  fun _ => GetRaises (mk_exn ConnectionError "Connection refused").

Definition timeout_world : World :=
  failing_backend unreachable (mk_exn DuneError "timeout").

Definition paid_plan_world : World :=
  failing_backend unreachable
    (mk_exn DuneError "This API request requires a Paid Plan. Please upgrade.").

Definition only_ids : Env := mk_env (Some "key") (Some "12345") (Some "67890").
Definition only_key : Env := mk_env (Some "key") None None.
Definition no_key : Env := mk_env None (Some "12345") None.

(** ** The provider's answers *)

(** One object of the provider's array: [date] is a count of seconds (the
    number, or the digits in a string), [totalLiquidityUSD] a float. *)
Definition tvl_point (p : cell * float) : record :=
  [("date", fst p); ("totalLiquidityUSD", CFloat (snd p))].

(** The seconds a [date] value stands for, when a [Timestamp] holds them. *)
Definition seconds_of (c : cell) : option Z :=
  match to_numeric c with
  | Returns (CInt z) =>
      if (- 9223372036 <=? z) && (z <=? 9223372036) then Some z else None
  | _ => None
  end.

Definition is_seconds (c : cell) : bool :=
  match c, seconds_of c with
  | CInt _, Some _ | CStr _, Some _ => true
  | _, _ => false
  end.

(** The day of a [date] value (0 when it is not one). *)
Definition day_of (c : cell) : Z :=
  match seconds_of c with
  | Some z => z / 86400
  | None => 0
  end.

(** The request did not bring a JSON body: [requests] raised one of its
    own errors, the status is an error, or the body does not decode. *)
Definition request_failure (r : http_reply) : bool :=
  match r with
  | GetRaises e => isinstance e RequestException
  | Response status_code _ body =>
      (400 <=? status_code) && (status_code <? 600)
      || match body with NotJson _ => true | _ => false end
  end.

(** The dates of a frame (its [date] cells that are dates). *)
Definition dates (df : DataFrame) : list Z :=
  flat_map (fun r => match date_of (columns df) r "date" with
                     | Some d => [d]
                     | None => []
                     end) (rows df).

Definition provider (body : http_body) : World :=
  mk_world (fun _ => Response 200 "OK" body)
           (fun _ => Error (mk_exn DuneError "timeout"))
           (fun _ _ => Error (mk_exn DuneError "timeout"))
           (fun _ _ => Error (mk_exn DuneError "timeout")).

(** Two answers of the provider that are not an ascending series of
    days: two points of one day, and two days in descending order. *)
Definition same_day_points : list (cell * float) :=
  [(CStr "1700000000", 1%float); (CStr "1700003600", 2%float)].

Definition descending_points : list (cell * float) :=
  [(CInt 1700086400, 2%float); (CInt 1700000000, 1%float)].

(** ** [Series.corr] as numpy computes it *)

(** The number in a cell of a numeric column. *)
Definition to_float (c : cell) : float :=
  match c with
  | CInt z => float_of_int64 z
  | CFloat f => f
  | _ => nan
  end.

Definition fsum (l : list float) : float := fold_left PrimFloat.add l 0%float.

Definition fmean (l : list float) : float :=
  (fsum l / float_of_int64 (Z.of_nat (List.length l)))%float.

(** [np.corrcoef(x, y)[0, 1]]: the covariance of the centred columns over
    the two standard deviations, clipped to [-1, 1].  Sums are taken from
    left to right.  A column without spread has a deviation of 0 and the
    quotient is 0/0. *)
Definition corrcoef (x y : list float) : float :=
  let dx := map (fun v => (v - fmean x)%float) x in
  let dy := map (fun v => (v - fmean y)%float) y in
  let scale := (1 / (float_of_int64 (Z.of_nat (List.length x)) - 1))%float in
  let dot a b := fsum (map (fun p => (fst p * snd p)%float) (combine a b)) in
  let cxx := (dot dx dx * scale)%float in
  let cyy := (dot dy dy * scale)%float in
  let cxy := (dot dx dy * scale)%float in
  let r := (cxy / PrimFloat.sqrt cxx / PrimFloat.sqrt cyy)%float in
  if (r <? -1)%float then (-1)%float else if (1 <? r)%float then 1%float else r.

Definition numpy_corr (a b : list cell) : answer float :=
  Value (corrcoef (map to_float a) (map to_float b)).

(** ** The scenario of one record per chain *)

Definition scenario_tvl : list record :=
  [[("date", CInt 1700000000); ("totalLiquidityUSD", CInt 1000000000)]].

Definition scenario_analytics : DataFrame :=
  mk_frame ["date"; "daily_active_users"; "transaction_count"; "avg_gas_fee_usd"]
           [[CStr "2023-11-14 00:00:00.000 UTC"; CInt 50000; CInt 200000;
             CFloat 0x1.6666666666666p-2%float]].

Definition scenario_world : World :=
  mk_world (fun _ => Response 200 "OK" (JsonRecords scenario_tvl))
           (fun _ => Value scenario_analytics)
           (fun _ _ => Error (mk_exn DuneError "timeout"))
           numpy_corr.

Definition scenario_full_df : DataFrame :=
  mk_frame ["date"; "tvl_usd"; "daily_active_users"; "transaction_count"; "avg_gas_fee_usd"]
           [[CDate 19675; CInt 1000000000; CInt 50000; CInt 200000;
             CFloat 0x1.6666666666666p-2%float]].

(** A merged frame with a constant gas fee and a varying count. *)
Definition constant_gas_df : DataFrame :=
  mk_frame ["date"; "tvl_usd"; "daily_active_users"; "transaction_count"; "avg_gas_fee_usd"]
           [[CDate 19675; CInt 1000000000; CInt 50000; CInt 200000; CFloat 0.5%float];
            [CDate 19676; CInt 1100000000; CInt 51000; CInt 210000; CFloat 0.5%float];
            [CDate 19677; CInt 1200000000; CInt 52000; CInt 230000; CFloat 0.5%float]].

(** The two frames of the scenario as the fetcher and the query return
    them. *)
Definition scenario_tvl_df : DataFrame :=
  mk_frame ["date"; "tvl_usd"] [[CDate 19675; CInt 1000000000]].

Definition scenario_dune_df : DataFrame :=
  mk_frame ["date"; "daily_active_users"; "transaction_count"; "avg_gas_fee_usd"]
           [[CDate 19675; CInt 50000; CInt 200000; CFloat 0x1.6666666666666p-2%float]].

(** ** What a join is to satisfy *)

(** [M] is the inner join of [A] and [B] on [date]: each of its rows is made
    of a row of [A] and a row of [B] of one date, whose fields it has; and
    each such pair of rows makes one of its rows. *)
Definition combines (M : DataFrame) (m : list cell)
    (A : DataFrame) (t : list cell) (B : DataFrame) (a : list cell) (d : Z) : Prop :=
  field (columns A) t "date" = Some (CDate d) /\
  field (columns B) a "date" = Some (CDate d) /\
  field (columns M) m "date" = Some (CDate d) /\
  (forall c, In c (columns A) -> field (columns M) m c = field (columns A) t c) /\
  (forall c, In c (columns B) -> field (columns M) m c = field (columns B) a c).

Definition inner_join (A B M : DataFrame) : Prop :=
  (forall m, In m (rows M) ->
     exists t a d, In t (rows A) /\ In a (rows B) /\ combines M m A t B a d) /\
  (forall t a d, In t (rows A) -> In a (rows B) ->
     field (columns A) t "date" = Some (CDate d) ->
     field (columns B) a "date" = Some (CDate d) ->
     exists m, In m (rows M) /\ combines M m A t B a d).

(** Every row of [M] is, field by field, a row of [M']. *)
Definition records_within (M M' : DataFrame) : Prop :=
  forall m, In m (rows M) ->
  exists m', In m' (rows M') /\
             forall c, field (columns M) m c = field (columns M') m' c.

Definition same_records (M M' : DataFrame) : Prop :=
  records_within M M' /\ records_within M' M.

(** ** Calls to the outside, columns, dates *)

(** The events that are a call to the provider or to the backend. *)
Definition is_call (ev : event) : bool :=
  match ev with
  | Get _ | RunQuery _ | RunSql _ _ => true
  | _ => false
  end.

(** A run makes at most [n] calls to the outside. *)
Definition calls_at_most {A : Type} (n : nat) (m : Script A) : Prop :=
  (List.length (filter is_call (fst m)) <= n)%nat.

(** The values [df[c]] holds when [c] is a label of [df]. *)
Definition col_values (df : DataFrame) (c : string) : list cell :=
  map (fun r => match field (columns df) r c with
                | Some v => v
                | None => CNone
                end) (rows df).

Definition is_date (c : cell) : bool :=
  match c with CDate _ => true | _ => false end.

(** A frame of one chain's query whose rows have no [date]. *)
Definition dateless_df : DataFrame :=
  mk_frame ["day"; "daily_active_users"; "transaction_count"; "avg_gas_fee_usd"]
           [[CStr "2023-11-14"; CInt 50000; CInt 200000; CFloat 0.5%float]].

Definition dateless_world : World :=
  mk_world (fun _ => Response 200 "OK" (JsonRecords scenario_tvl))
           (fun _ => Value dateless_df)
           (fun _ _ => Error (mk_exn DuneError "timeout"))
           numpy_corr.

(** A merged frame without the column of the users. *)
Definition no_users_df : DataFrame :=
  mk_frame ["date"; "tvl_usd"; "transaction_count"; "avg_gas_fee_usd"]
           [[CDate 19675; CInt 1000000000; CInt 200000; CFloat 0.5%float]].

(** The object [run_sql] returns when [result.result] is there, without
    rows of its own, beside a [get_rows] and a [rows] that have some. *)
Definition bare_result : ResultsResponse :=
  mk_results_response
    (Some (Some (mk_execution_result None None)))
    (Some (Value [[("date", CStr "2023-11-14"); ("daily_active_users", CInt 1)]]))
    (Some [[("date", CStr "2023-11-14"); ("daily_active_users", CInt 1)]]).

Definition bare_result_world : World :=
  mk_world unreachable
           (fun _ => Error (mk_exn DuneError "timeout"))
           (fun _ _ => Value bare_result)
           numpy_corr.

Definition bad_id : Env := mk_env (Some "key") (Some "abc") (Some "67890").

(** The dates of a list of rows under the labels [cols]. *)
Definition row_dates (cols : list string) (rs : list (list cell)) : list Z :=
  flat_map (fun r => match date_of cols r "date" with
                     | Some d => [d]
                     | None => []
                     end) rs.

(** Two analytics rows and two TVL rows of consecutive days. *)
Definition two_day_tvl_df : DataFrame :=
  mk_frame ["date"; "tvl_usd"]
           [[CDate 19675; CInt 1000000000]; [CDate 19676; CInt 2500000000]].

Definition two_day_dune_df : DataFrame :=
  mk_frame ["date"; "daily_active_users"; "transaction_count"; "avg_gas_fee_usd"]
           [[CDate 19676; CInt 51000; CInt 210000; CFloat 0.5%float];
            [CDate 19675; CInt 50000; CInt 200000; CFloat 0.25%float]].

(** The two days merged. *)
Definition two_day_tvl_merged : DataFrame :=
  mk_frame ["date"; "tvl_usd"; "daily_active_users"; "transaction_count"; "avg_gas_fee_usd"]
           [[CDate 19675; CInt 1000000000; CInt 50000; CInt 200000; CFloat 0.25%float];
            [CDate 19676; CInt 2500000000; CInt 51000; CInt 210000; CFloat 0.5%float]].


(** An error box on the page. *)
Definition is_error (ev : event) : bool :=
  match ev with
  | st_error _ => true
  | _ => false
  end.


(** The calls a run makes to the outside, in order. *)
Definition calls {A : Type} (m : Script A) : list event := filter is_call (fst m).




(** ** Columns without spread *)

(** A double that is a zero or NaN. *)
Definition zero_or_nan (f : float) : Prop :=
  match Prim2SF f with
  | S754_zero _ | S754_nan => True
  | _ => False
  end.

(** A double that is a number: neither NaN nor an infinity. *)
Definition finite (c : float) : bool :=
  match Prim2SF c with
  | S754_zero _ | S754_finite _ _ _ => true
  | _ => false
  end.

(** A column without spread as numpy meets it: every value is at distance
    zero from the mean it computed for the column. *)
Definition no_spread (x : list float) : bool :=
  forallb (fun v => (v - fmean x =? 0)%float) x.

(** A merged frame whose gas fee is 0.1 on each of its three days: the
    mean that numpy computes for that column is not 0.1. *)
Definition tenth_gas_df : DataFrame :=
  mk_frame ["date"; "tvl_usd"; "daily_active_users"; "transaction_count"; "avg_gas_fee_usd"]
           [[CDate 19675; CInt 1000000000; CInt 50000; CInt 200000;
             CFloat 0x1.999999999999ap-4%float];
            [CDate 19676; CInt 1100000000; CInt 51000; CInt 210000;
             CFloat 0x1.999999999999ap-4%float];
            [CDate 19677; CInt 1200000000; CInt 52000; CInt 230000;
             CFloat 0x1.999999999999ap-4%float]].


(** A query that succeeds with no row: the backend's frame has the labels
    of the query and no row. *)
Definition header_only_df : DataFrame :=
  mk_frame ["date"; "daily_active_users"; "transaction_count"; "avg_gas_fee_usd"] [].

Definition header_only_world : World :=
  mk_world unreachable
           (fun _ => Value header_only_df)
           (fun _ _ => Error (mk_exn DuneError "timeout"))
           numpy_corr.


(** The call ended with an exception. *)
Definition raises {A : Type} (o : outcome A) : bool :=
  match o with
  | Raises _ => true
  | _ => false
  end.

(* ================================================================== *)
(** * Facts                                                            *)
(* ================================================================== *)

(** ** The formats and the dates on a few values *)

Example format_2f_rounds_half_even :
  format_2f 1%float = "1.00" /\ format_2f 0.125%float = "0.12" /\
  format_2f 0.375%float = "0.38" /\ format_2f (-2.5)%float = "-2.50" /\
  format_2f nan = "nan" /\ format_2f infinity = "inf".
Proof. vm_compute. repeat split. Qed.

Example format_thousands_groups :
  format_thousands 0 = "0" /\ format_thousands 999 = "999" /\
  format_thousands 1000 = "1,000" /\ format_thousands 1000001 = "1,000,001" /\
  format_thousands (-1234567) = "-1,234,567".
Proof. vm_compute. repeat split. Qed.

Example days_of_known_dates :
  days_from_civil 1970 1 1 = 0 /\ days_from_civil 2000 3 1 = 11017 /\
  days_from_civil 2023 11 14 = 19675 /\ 1700000000 / 86400 = 19675 /\
  read_date (CStr "2023-11-14 00:00:00.000 UTC") = Some (DuneStamp, 19675) /\
  read_date (CStr "2023-02-30") = None.
Proof. vm_compute. repeat split. Qed.

Example constructor_fills_and_casts :
  DataFrame_of_records [] = Returns pd_DataFrame /\
  DataFrame_of_records [[("a", CInt 1)]; [("b", CStr "x"); ("a", CFloat 0.5)]]
  = Returns (mk_frame ["a"; "b"] [[CFloat 1; CFloat nan]; [CFloat 0.5; CStr "x"]]).
Proof. vm_compute. repeat split. Qed.

(** ** Labels and fields *)

Lemma existsb_eqb_In (c : string) (l : list string) :
  existsb (String.eqb c) l = true <-> In c l.
Proof.
  rewrite existsb_exists. split.
  - intros [x [Hin Heq]]. apply String.eqb_eq in Heq. now subst.
  - intros Hin. exists c. split; [assumption | apply String.eqb_refl].
Qed.

Lemma existsb_eqb_notin (c : string) (l : list string) :
  existsb (String.eqb c) l = false <-> ~ In c l.
Proof.
  rewrite <- existsb_eqb_In. destruct (existsb (String.eqb c) l); split; intros; congruence.
Qed.

Lemma unique_NoDup (l : list string) : unique l = true -> NoDup l.
Proof.
  induction l as [|k l IH]; simpl; intros H; constructor.
  - apply andb_prop in H. destruct H as [H _].
    apply negb_true_iff in H. now apply existsb_eqb_notin.
  - apply IH. apply andb_prop in H. tauto.
Qed.

Lemma field_notin (cols : list string) (row : list cell) (c : string) :
  ~ In c cols -> field cols row c = None.
Proof.
  revert row. induction cols as [|k cols IH]; intros [|v row] Hn; simpl; try reflexivity.
  destruct (String.eqb_spec c k) as [->|Hne].
  - exfalso. apply Hn. now left.
  - apply IH. intros Hin. apply Hn. now right.
Qed.

Lemma field_in (cols : list string) (row : list cell) (c : string) :
  List.length row = List.length cols -> In c cols -> exists v, field cols row c = Some v.
Proof.
  revert row. induction cols as [|k cols IH]; intros [|v row] Hlen Hin; simpl in *;
    try contradiction; try discriminate.
  destruct (String.eqb_spec c k) as [->|Hne].
  - now exists v.
  - apply IH; [lia | destruct Hin; congruence].
Qed.

Lemma field_some_in (cols : list string) (row : list cell) (c : string) (v : cell) :
  field cols row c = Some v -> In c cols.
Proof.
  revert row. induction cols as [|k cols IH]; intros [|x row]; simpl; try discriminate.
  destruct (String.eqb_spec c k) as [->|Hne]; intros H.
  - now left.
  - right. now apply IH with row.
Qed.

Lemma field_app (cols1 cols2 : list string) (row1 row2 : list cell) (c : string) :
  List.length row1 = List.length cols1 ->
  field (cols1 ++ cols2) (row1 ++ row2) c =
  match field cols1 row1 c with
  | Some v => Some v
  | None => field cols2 row2 c
  end.
Proof.
  revert row1. induction cols1 as [|k cols1 IH]; intros [|v row1] Hlen; simpl in *;
    try discriminate; try reflexivity.
  destruct (String.eqb c k); [reflexivity | apply IH; lia].
Qed.

Lemma field_drop (on : string) (cols : list string) (row : list cell) (c : string) :
  c <> on ->
  field (drop_name on cols) (drop_field on cols row) c = field cols row c.
Proof.
  intros Hne. revert row.
  induction cols as [|k cols IH]; intros [|v row]; simpl; try reflexivity.
  - destruct (String.eqb on k); [now destruct cols | reflexivity].
  - destruct (String.eqb_spec on k) as [<-|Hk].
    + destruct (String.eqb_spec c on); [contradiction | reflexivity].
    + simpl. destruct (String.eqb c k); [reflexivity | apply IH].
Qed.

Lemma drop_name_incl (on c : string) (cols : list string) :
  In c (drop_name on cols) -> In c cols.
Proof.
  induction cols as [|k cols IH]; simpl; [tauto|].
  destruct (String.eqb on k); simpl; tauto.
Qed.

(** ** The frames the join is written out for *)

Lemma series_parts (df : DataFrame) :
  series df = true ->
  In "date" (columns df) /\ NoDup (columns df) /\
  (forall r, In r (rows df) -> List.length r = List.length (columns df)) /\
  (forall r, In r (rows df) -> exists d, field (columns df) r "date" = Some (CDate d)).
Proof.
  unfold series. intros H.
  repeat (apply andb_prop in H; destruct H as [H ?]).
  repeat split.
  - now apply existsb_eqb_In.
  - now apply unique_NoDup.
  - intros r Hr. unfold wf in *.
    match goal with W : forallb _ (rows df) = true |- _ =>
      rewrite forallb_forall in W; specialize (W r Hr); now apply Nat.eqb_eq in W end.
  - intros r Hr. unfold dated in *.
    match goal with D : forallb _ (rows df) = true |- _ =>
      rewrite forallb_forall in D; specialize (D r Hr) end.
    unfold date_of in *.
    destruct (field (columns df) r "date") as [[ | | |d| ]|]; try discriminate.
    now exists d.
Qed.

Lemma disjoint_fields_spec (A B : DataFrame) :
  disjoint_fields A B = true ->
  forall c, In c (columns A) -> In c (columns B) -> c = "date".
Proof.
  unfold disjoint_fields, shared_labels. intros H c HA HB.
  destruct (filter _ (columns A)) eqn:E; [|discriminate].
  destruct (String.eqb_spec c "date") as [|Hne]; [assumption|].
  assert (Hin : In c (@nil string)); [|destruct Hin].
  rewrite <- E. apply filter_In. split; [assumption|].
  apply andb_true_intro. split.
  - apply negb_true_iff. now apply String.eqb_neq.
  - now apply existsb_eqb_In.
Qed.

Lemma disjoint_fields_sym (A B : DataFrame) :
  disjoint_fields A B = true -> disjoint_fields B A = true.
Proof.
  intros H. pose proof (disjoint_fields_spec A B H) as Hs.
  unfold disjoint_fields, shared_labels.
  destruct (filter _ (columns B)) as [|c l] eqn:E; [reflexivity|].
  assert (Hin : In c (c :: l)) by now left.
  rewrite <- E in Hin. apply filter_In in Hin. destruct Hin as [HB Hc].
  apply andb_prop in Hc. destruct Hc as [Hne HA].
  apply negb_true_iff, String.eqb_neq in Hne.
  apply existsb_eqb_In in HA. exfalso. apply Hne. now apply Hs.
Qed.

(** On series with disjoint fields [merge] returns the joined frame. *)
Lemma merge_series (A B : DataFrame) :
  series A = true -> series B = true -> disjoint_fields A B = true ->
  merge A B "date" =
  Returns (mk_frame (columns A ++ drop_name "date" (columns B)) (join_rows "date" A B)).
Proof.
  unfold series, disjoint_fields, merge. intros HA HB HD.
  repeat (apply andb_prop in HA; destruct HA as [HA ?]).
  repeat (apply andb_prop in HB; destruct HB as [HB ?]).
  repeat match goal with H : _ = true |- _ => rewrite H; clear H end.
  reflexivity.
Qed.

(** The rows of the joined frame, whether or not a side is empty. *)
Lemma merge_data_series (A B : DataFrame) :
  series A = true -> series B = true -> disjoint_fields A B = true ->
  exists M, merge_data A B = Returns M /\
            rows M = join_rows "date" A B /\
            (rows M <> [] -> columns M = (columns A ++ drop_name "date" (columns B))%list).
Proof.
  intros HA HB HD. unfold merge_data.
  destruct (empty A || empty B) eqn:E.
  - exists pd_DataFrame. split; [reflexivity|]. split; [|intros C; now elim C].
    pose proof (series_parts A HA) as [InA _]. pose proof (series_parts B HB) as [InB _].
    unfold empty in E. unfold join_rows. simpl.
    destruct (columns A) as [|ka ca]; [destruct InA|].
    destruct (rows A) as [|ra rsa]; [reflexivity|].
    destruct (columns B) as [|kb cb]; [destruct InB|].
    destruct (rows B) as [|rb rsb]; [|discriminate].
    simpl. clear. induction rsa; simpl; auto.
  - rewrite (merge_series A B HA HB HD). eexists. split; [reflexivity|]. simpl. auto.
Qed.

(** ** The join *)

Lemma in_join_rows (on : string) (A B : DataFrame) (m : list cell) :
  In m (join_rows on A B) <->
  exists l r, In l (rows A) /\ In r (rows B) /\
              same_date (date_of (columns A) l on) (date_of (columns B) r on) = true /\
              m = (l ++ drop_field on (columns B) r)%list.
Proof.
  unfold join_rows. rewrite in_flat_map. split.
  - intros [l [Hl Hm]]. apply in_map_iff in Hm. destruct Hm as [r [Hm Hr]].
    apply filter_In in Hr. destruct Hr as [Hr Hd]. exists l, r. auto.
  - intros [l [r [Hl [Hr [Hd Hm]]]]]. exists l. split; [assumption|].
    apply in_map_iff. exists r. split; [now symmetry|].
    apply filter_In. auto.
Qed.

Lemma same_date_true (a b : option Z) :
  same_date a b = true <-> exists d, a = Some d /\ b = Some d.
Proof.
  destruct a as [x|], b as [y|]; simpl; split; try discriminate;
    try (intros [d [H1 H2]]; discriminate).
  - intros H. apply Z.eqb_eq in H. subst. now exists y.
  - intros [d [H1 H2]]. inversion H1; inversion H2; subst. apply Z.eqb_refl.
Qed.

Lemma date_of_some (cols : list string) (row : list cell) (on : string) (d : Z) :
  date_of cols row on = Some d <-> field cols row on = Some (CDate d).
Proof.
  unfold date_of. destruct (field cols row on) as [[ | | |x| ]|]; split; intros H;
    try discriminate; inversion H; reflexivity.
Qed.

(** A joined row read under a label of the left frame, and under a label
    that only the right frame has. *)
Lemma field_joined_left (on : string) (colsA colsB : list string) (l r : list cell) (c : string) :
  List.length l = List.length colsA -> In c colsA ->
  field (colsA ++ drop_name on colsB) (l ++ drop_field on colsB r) c = field colsA l c.
Proof.
  intros Hlen Hin. rewrite field_app by assumption.
  destruct (field_in colsA l c Hlen Hin) as [v ->]. reflexivity.
Qed.

Lemma field_joined_right (on : string) (colsA colsB : list string) (l r : list cell) (c : string) :
  List.length l = List.length colsA -> ~ In c colsA -> c <> on ->
  field (colsA ++ drop_name on colsB) (l ++ drop_field on colsB r) c = field colsB r c.
Proof.
  intros Hlen Hn Hne. rewrite field_app by assumption.
  rewrite (field_notin colsA l c Hn). now apply field_drop.
Qed.

Lemma joined_combines (A B : DataFrame) (t a : list cell) (d : Z) :
  series A = true -> series B = true -> disjoint_fields A B = true ->
  In t (rows A) ->
  field (columns A) t "date" = Some (CDate d) ->
  field (columns B) a "date" = Some (CDate d) ->
  combines (mk_frame (columns A ++ drop_name "date" (columns B)) (join_rows "date" A B))
           (t ++ drop_field "date" (columns B) a) A t B a d.
Proof.
  intros HA HB HD Ht Hdt Hda.
  destruct (series_parts A HA) as [InA [_ [LenA _]]].
  pose proof (disjoint_fields_spec A B HD) as Hdis.
  assert (Hleft : forall c, In c (columns A) ->
            field (columns A ++ drop_name "date" (columns B))
                  (t ++ drop_field "date" (columns B) a) c = field (columns A) t c).
  { intros c Hc. apply field_joined_left; auto. }
  unfold combines. simpl. repeat split; auto.
  - rewrite Hleft; assumption.
  - intros c Hc. destruct (String.eqb_spec c "date") as [->|Hne].
    + rewrite Hleft by assumption. congruence.
    + apply field_joined_right; [apply LenA; assumption | | assumption].
      intros Hin. apply Hne. now apply Hdis.
Qed.

Lemma merge_data_is_inner_join (A B M : DataFrame) :
  series A = true -> series B = true -> disjoint_fields A B = true ->
  rows M = join_rows "date" A B ->
  (rows M <> [] -> columns M = (columns A ++ drop_name "date" (columns B))%list) ->
  inner_join A B M.
Proof.
  intros HA HB HD Hrows Hcols.
  assert (Hframe : forall m, In m (rows M) ->
            M = mk_frame (columns A ++ drop_name "date" (columns B)) (join_rows "date" A B)).
  { intros m Hm. destruct M as [cs rs]. simpl in *. f_equal; [|assumption].
    apply Hcols. intros E. rewrite E in Hm. destruct Hm. }
  split.
  - intros m Hm. pose proof (Hframe m Hm) as EM.
    rewrite Hrows in Hm. apply in_join_rows in Hm.
    destruct Hm as [t [a [Ht [Ha [Hd ->]]]]].
    apply same_date_true in Hd. destruct Hd as [d [Hdt Hda]].
    apply date_of_some in Hdt. apply date_of_some in Hda.
    exists t, a, d. split; [assumption | split; [assumption|]].
    rewrite EM. now apply joined_combines.
  - intros t a d Ht Ha Hdt Hda.
    assert (Hm : In (t ++ drop_field "date" (columns B) a)%list (rows M)).
    { rewrite Hrows. apply in_join_rows. exists t, a.
      split; [assumption | split; [assumption | split; [|reflexivity]]].
      apply same_date_true. exists d. split; now apply date_of_some. }
    exists (t ++ drop_field "date" (columns B) a)%list. split; [assumption|].
    rewrite (Hframe _ Hm). now apply joined_combines.
Qed.

(** C1.  [merge_data] is an inner join on [date].  When a frame is empty
    (no row or no column) the result is the empty frame.  On a TVL series
    and an analytics series (frames keyed by dates, with no other label in
    common) it returns a frame each of whose rows has the date and the
    fields of a TVL row and of an analytics row of that date, and which
    has such a row for every pair of rows of one date. *)
Theorem merge_data_inner_join (tvl_df dune_df : DataFrame) :
  (empty tvl_df = true \/ empty dune_df = true ->
   merge_data tvl_df dune_df = Returns pd_DataFrame /\ empty pd_DataFrame = true) /\
  (series tvl_df = true -> series dune_df = true ->
   disjoint_fields tvl_df dune_df = true ->
   exists full_df, merge_data tvl_df dune_df = Returns full_df /\
                   inner_join tvl_df dune_df full_df).
Proof.
  split.
  - intros H. split; [|reflexivity]. unfold merge_data.
    destruct H as [-> | ->]; [reflexivity | now rewrite orb_true_r].
  - intros HA HB HD.
    destruct (merge_data_series _ _ HA HB HD) as [M [HM [Hrows Hcols]]].
    exists M. split; [assumption|]. now apply merge_data_is_inner_join.
Qed.

Lemma merge_data_inner_join_witness :
  series scenario_tvl_df = true /\ series scenario_dune_df = true /\
  disjoint_fields scenario_tvl_df scenario_dune_df = true /\
  exists full_df, merge_data scenario_tvl_df scenario_dune_df = Returns full_df /\
                  inner_join scenario_tvl_df scenario_dune_df full_df.
Proof.
  repeat (split; [reflexivity|]).
  exact (proj2 (merge_data_inner_join scenario_tvl_df scenario_dune_df)
               eq_refl eq_refl eq_refl).
Defined.

(** ** Order and content of the join *)

Lemma field_outside_join (on : string) (colsA colsB : list string) (m : list cell) (c : string) :
  ~ In c colsA -> ~ In c colsB ->
  field (colsA ++ drop_name on colsB) m c = None.
Proof.
  intros HA HB. apply field_notin. intros Hin. apply in_app_or in Hin.
  destruct Hin as [Hin|Hin]; [now apply HA | apply HB; now apply drop_name_incl with on].
Qed.

Lemma join_records_within (A B M M' : DataFrame) :
  series A = true -> series B = true -> disjoint_fields A B = true ->
  rows M = join_rows "date" A B ->
  (rows M <> [] -> columns M = (columns A ++ drop_name "date" (columns B))%list) ->
  rows M' = join_rows "date" B A ->
  (rows M' <> [] -> columns M' = (columns B ++ drop_name "date" (columns A))%list) ->
  records_within M M'.
Proof.
  intros HA HB HD Hrows Hcols Hrows' Hcols' m Hm.
  pose proof (disjoint_fields_sym A B HD) as HD'.
  destruct (merge_data_is_inner_join A B M HA HB HD Hrows Hcols) as [Sound _].
  destruct (merge_data_is_inner_join B A M' HB HA HD' Hrows' Hcols') as [_ Complete].
  destruct (Sound m Hm) as [t [a [d [Ht [Ha [Ht_date [Ha_date [_ [HtM HaM]]]]]]]]].
  destruct (Complete a t d Ha Ht Ha_date Ht_date) as [m' [Hm' [_ [_ [_ [HaM' HtM']]]]]].
  exists m'. split; [assumption|]. intros c.
  destruct (in_dec string_dec c (columns A)) as [InA|OutA].
  - rewrite (HtM c InA). symmetry. now apply HtM'.
  - destruct (in_dec string_dec c (columns B)) as [InB|OutB].
    + rewrite (HaM c InB). symmetry. now apply HaM'.
    + rewrite Hcols, Hcols'.
      * rewrite (field_outside_join "date" _ _ m c OutA OutB).
        now rewrite (field_outside_join "date" _ _ m' c OutB OutA).
      * intros E. rewrite E in Hm'. destruct Hm'.
      * intros E. rewrite E in Hm. destruct Hm.
Qed.

Lemma firstn_length_app {X : Type} (l x : list X) :
  firstn (List.length l) (l ++ x) = l.
Proof. induction l as [|v l IH]; simpl; [now destruct x | now rewrite IH]. Qed.

Lemma join_rows_order (on : string) (A B : DataFrame) :
  (forall l, In l (rows A) -> List.length l = List.length (columns A)) ->
  map (firstn (List.length (columns A))) (join_rows on A B) = survivors on A B.
Proof.
  unfold join_rows, survivors, matches. intros Hlen.
  induction (rows A) as [|l ls IH]; simpl; [reflexivity|].
  rewrite map_app. rewrite IH by (intros; apply Hlen; now right). f_equal.
  rewrite <- (Hlen l) by now left.
  induction (filter _ (rows B)) as [|r rs IHr]; simpl; [reflexivity|].
  now rewrite firstn_length_app, IHr.
Qed.

(** When the right frame has one row per date, the survivors are the left
    rows whose date the right frame has, in the left frame's order. *)
Lemma filter_same_date_unique (cols : list string) (d : option Z) (rs : list (list cell)) :
  NoDup (map (fun r => date_of cols r "date") rs) ->
  (List.length (filter (fun r => same_date d (date_of cols r "date")) rs) <= 1)%nat.
Proof.
  induction rs as [|r rs IH]; simpl; intros ND; [lia|].
  inversion ND as [|x xs Hnotin ND']; subst.
  destruct (same_date d (date_of cols r "date")) eqn:E; [|now apply IH].
  simpl. apply same_date_true in E. destruct E as [z [-> Er]].
  assert (Hnone : filter (fun r0 => same_date (Some z) (date_of cols r0 "date")) rs = []).
  { clear IH ND ND'. induction rs as [|r' rs IH]; [reflexivity|]. cbn [filter].
    destruct (same_date (Some z) (date_of cols r' "date")) eqn:E'.
    - exfalso. apply Hnotin. simpl. left.
      apply same_date_true in E'. destruct E' as [z' [Ez ->]]. congruence.
    - apply IH. intros Hin. apply Hnotin. now right. }
  rewrite Hnone. simpl. lia.
Qed.

Lemma survivors_filter (A B : DataFrame) :
  NoDup (map (fun r => date_of (columns B) r "date") (rows B)) ->
  survivors "date" A B =
  filter (fun l => existsb (fun r => same_date (date_of (columns A) l "date")
                                               (date_of (columns B) r "date")) (rows B))
         (rows A).
Proof.
  intros ND. unfold survivors, matches.
  induction (rows A) as [|l ls IH]; simpl; [reflexivity|]. rewrite IH. clear IH.
  pose proof (filter_same_date_unique (columns B) (date_of (columns A) l "date") (rows B) ND) as Hle.
  assert (Hex : existsb (fun r => same_date (date_of (columns A) l "date")
                                   (date_of (columns B) r "date")) (rows B)
                = negb (Nat.eqb (List.length (filter (fun r => same_date (date_of (columns A) l "date")
                                   (date_of (columns B) r "date")) (rows B))) 0)).
  { clear. induction (rows B) as [|r rs IHr]; simpl; [reflexivity|].
    destruct (same_date _ _); simpl; [reflexivity | assumption]. }
  rewrite Hex.
  destruct (List.length (filter _ (rows B))) as [|[|n]]; simpl; [reflexivity | reflexivity | lia].
Qed.

(** ** The memo *)

Lemma sf_eqb_eq (a b : spec_float) : sf_eqb a b = true -> a = b.
Proof.
  destruct a as [s|s| |s m e], b as [t|t| |t n f]; simpl; try discriminate; intros H.
  - apply Bool.eqb_prop in H. now subst.
  - apply Bool.eqb_prop in H. now subst.
  - reflexivity.
  - apply andb_prop in H. destruct H as [H He]. apply andb_prop in H. destruct H as [Hs Hm].
    apply Bool.eqb_prop in Hs. apply Pos.eqb_eq in Hm. apply Z.eqb_eq in He. now subst.
Qed.

Lemma cell_eqb_eq (a b : cell) : cell_eqb a b = true -> a = b.
Proof.
  destruct a, b; simpl; try discriminate; intros H.
  - apply Z.eqb_eq in H. now subst.
  - apply sf_eqb_eq, Prim2SF_inj in H. now subst.
  - apply String.eqb_eq in H. now subst.
  - apply Z.eqb_eq in H. now subst.
  - reflexivity.
Qed.

Lemma list_eqb_eq {X : Type} (eqb : X -> X -> bool) :
  (forall x y, eqb x y = true -> x = y) ->
  forall l1 l2, list_eqb eqb l1 l2 = true -> l1 = l2.
Proof.
  intros Heq. induction l1 as [|x l1 IH]; intros [|y l2]; simpl; try discriminate.
  - reflexivity.
  - intros H. apply andb_prop in H. destruct H as [Hx Hl].
    rewrite (Heq x y Hx), (IH l2 Hl). reflexivity.
Qed.

Lemma frame_eqb_eq (A B : DataFrame) : frame_eqb A B = true -> A = B.
Proof.
  unfold frame_eqb. intros H. apply andb_prop in H. destruct H as [Hc Hr].
  apply (list_eqb_eq String.eqb) in Hc; [|intros x y E; now apply String.eqb_eq].
  apply (list_eqb_eq (list_eqb cell_eqb)) in Hr;
    [|apply list_eqb_eq; exact cell_eqb_eq].
  destruct A, B. simpl in *. now subst.
Qed.

Section Memo.

Context {K V : Type}.
Variable key_eqb : K -> K -> bool.
Variable body : K -> outcome V.
Hypothesis key_eqb_eq : forall k k', key_eqb k k' = true -> k = k'.

Lemma cache_data_pure (memo : Memo K V) (k : K) :
  faithful body memo ->
  fst (cache_data key_eqb body memo k) = body k /\
  faithful body (snd (cache_data key_eqb body memo k)).
Proof.
  intros Hm. unfold cache_data.
  destruct (find (fun kv => key_eqb k (fst kv)) memo) as [kv|] eqn:E.
  - apply find_some in E. destruct E as [Hin Hk]. apply key_eqb_eq in Hk. subst k.
    simpl. split; [|assumption].
    unfold faithful in Hm. rewrite Forall_forall in Hm. symmetry. now apply Hm.
  - destruct (body k) as [v| |] eqn:B; simpl; split; try reflexivity; try assumption.
    constructor; assumption.
Qed.

Lemma replay_pure (calls : list K) (memo : Memo K V) :
  faithful body memo -> replay key_eqb body memo calls = map body calls.
Proof.
  revert memo. induction calls as [|k calls IH]; intros memo Hm; simpl; [reflexivity|].
  destruct (cache_data_pure memo k Hm) as [Ho Hm'].
  destruct (cache_data key_eqb body memo k) as [o memo']. simpl in *.
  now rewrite Ho, (IH memo' Hm').
Qed.

End Memo.

(** C4.  [merge_data] is deterministic, commutative in content and ordered
    by its first argument.  Under [st.cache_data] a run of calls returns,
    call by call, what the body returns on the arguments, whatever was
    called before.  With an empty frame on either side both orders return
    the empty frame.  On a TVL series and an analytics series both orders
    return a frame, every row of the one is field by field a row of the
    other, and the rows of [merge_data A B] cut to the columns of [A] are
    the rows of [A] in the order of [A], each as many times as [B] has its
    date: with one row per date in [B], the rows of [A] whose date [B]
    has. *)
Theorem merge_data_commutative_in_content (A B : DataFrame) :
  (forall calls,
     replay merge_key_eqb merge_data_body [] calls = map merge_data_body calls) /\
  (fst (merge_data_cached [] (A, B)) = merge_data A B) /\
  (empty A = true \/ empty B = true ->
   merge_data A B = Returns pd_DataFrame /\ merge_data B A = Returns pd_DataFrame) /\
  (series A = true -> series B = true -> disjoint_fields A B = true ->
   exists M M', merge_data A B = Returns M /\ merge_data B A = Returns M' /\
                same_records M M' /\
                map (firstn (List.length (columns A))) (rows M) = survivors "date" A B /\
                (NoDup (map (fun r => date_of (columns B) r "date") (rows B)) ->
                 survivors "date" A B
                 = filter (fun l => existsb
                                      (fun r => same_date (date_of (columns A) l "date")
                                                          (date_of (columns B) r "date"))
                                      (rows B))
                          (rows A))).
Proof.
  assert (Hkey : forall k k', merge_key_eqb k k' = true -> k = k').
  { intros [a b] [a' b'] H. unfold merge_key_eqb in H. simpl in H.
    apply andb_prop in H. destruct H as [Ha Hb].
    now rewrite (frame_eqb_eq _ _ Ha), (frame_eqb_eq _ _ Hb). }
  split; [|split; [|split]].
  - intros calls. apply replay_pure; [exact Hkey | constructor].
  - apply (cache_data_pure merge_key_eqb merge_data_body Hkey [] (A, B)). constructor.
  - unfold merge_data. intros [-> | ->]; rewrite ?orb_true_r; simpl; auto.
  - intros HA HB HD.
    pose proof (disjoint_fields_sym A B HD) as HD'.
    destruct (merge_data_series A B HA HB HD) as [M [HM [Hrows Hcols]]].
    destruct (merge_data_series B A HB HA HD') as [M' [HM' [Hrows' Hcols']]].
    exists M, M'. repeat split; try assumption.
    + now apply (join_records_within A B M M').
    + now apply (join_records_within B A M' M).
    + rewrite Hrows. apply join_rows_order.
      now destruct (series_parts A HA) as [_ [_ [Len _]]].
    + apply survivors_filter.
Qed.

Lemma merge_data_commutative_in_content_witness :
  series scenario_tvl_df = true /\ series scenario_dune_df = true /\
  disjoint_fields scenario_tvl_df scenario_dune_df = true /\
  exists M M', merge_data scenario_tvl_df scenario_dune_df = Returns M /\
               merge_data scenario_dune_df scenario_tvl_df = Returns M' /\
               same_records M M' /\
               map (firstn (List.length (columns scenario_tvl_df))) (rows M)
               = survivors "date" scenario_tvl_df scenario_dune_df.
Proof.
  repeat (split; [reflexivity|]).
  destruct (proj2 (proj2 (proj2
              (merge_data_commutative_in_content scenario_tvl_df scenario_dune_df)))
              eq_refl eq_refl eq_refl) as [M [M' [H1 [H2 [H3 [H4 _]]]]]].
  exists M, M'. exact (conj H1 (conj H2 (conj H3 H4))).
Defined.

(** ** Strings *)

Lemma startswith_app (p s : string) : startswith p (p ++ s) = true.
Proof.
  induction p as [|c p IH]; simpl; [reflexivity|].
  now rewrite Ascii.eqb_refl, IH.
Qed.

Lemma contains_here (sub s : string) : startswith sub s = true -> contains sub s = true.
Proof. intros H. destruct s; simpl in *; now rewrite H. Qed.

Lemma contains_later (sub a s : string) :
  contains sub s = true -> contains sub (a ++ s) = true.
Proof.
  intros H. induction a as [|c a IH]; simpl; [assumption|].
  rewrite IH. apply orb_true_r.
Qed.

(** [sub in a + sub + b] *)
Lemma contains_middle (sub a b : string) : contains sub (a ++ sub ++ b) = true.
Proof. apply contains_later, contains_here, startswith_app. Qed.

(** The text of a generic failure of the two chains' SQL queries is not
    taken for a paid-plan failure by the page's test. *)
Lemma generic_text_not_tagged (slug msg : string) :
  slug = "arbitrum" \/ slug = "optimism" ->
  contains "paid plan" (lower msg) = false ->
  contains "paid plan" (lower ("Dune API error for " ++ slug ++ ": " ++ msg)) = false.
Proof.
  intros [-> | ->] H; cbn; exact H.
Qed.

(** ** The query functions *)

Lemma isinstance_Exception (e : exn) : isinstance e Exception = true.
Proof. destruct e as [[] msg]; reflexivity. Qed.

Lemma paid_plan_message_tagged : contains "paid plan" (lower paid_plan_message) = true.
Proof. vm_compute. reflexivity. Qed.

Lemma by_id_backend_error (w : World) (key : string) (query_id : Z) (e : exn) :
  run_query_dataframe w query_id = Error e ->
  query_dune_api_by_id w (Some key) query_id =
  ([RunQuery query_id], Raises (mk_exn Exception (by_id_error_text query_id (exn_str e)))).
Proof.
  intros H. unfold query_dune_api_by_id, try_except, seq, emit, lift, raise.
  rewrite H. simpl. now rewrite isinstance_Exception.
Qed.

Lemma by_sql_backend_error (w : World) (key query_name sql : string) (e : exn) :
  run_sql w sql query_name = Error e ->
  query_dune_api_by_sql w (Some key) query_name sql =
  ([RunSql sql query_name],
   Raises (mk_exn Exception
             (if insufficient_tier (exn_str e) then paid_plan_message
              else by_sql_error_text query_name (exn_str e)))).
Proof.
  intros H. unfold query_dune_api_by_sql, try_except, seq, emit, lift, raise.
  rewrite H. simpl. rewrite isinstance_Exception.
  unfold insufficient_tier. now destruct (contains "paid plan" _ || contains "upgrade" _).
Qed.

(** C10, as the code has it.  Without an API key the client is [None], and
    both query functions return the empty frame [pd.DataFrame()] at once:
    no call reaches the backend, nothing is raised.  A query that succeeds
    with nothing gives an empty frame too, and an empty frame is all the
    page asks about: [merge_data] makes the same of both.  By SQL the two
    frames are the same one.  By id the backend's empty frame is returned
    as it came, so the two are the same only when that frame has no label
    either. *)
Theorem missing_api_key_returns_empty
    (w : World) (env : Env) (query_id : Z) (query_name sql : string) :
  truthy (DUNE_API_KEY env) = false ->
  dune_client env = None /\
  query_dune_api_by_id w (dune_client env) query_id = ([], Returns pd_DataFrame) /\
  query_dune_api_by_sql w (dune_client env) query_name sql = ([], Returns pd_DataFrame) /\
  empty pd_DataFrame = true /\
  (forall w' key df,
     run_query_dataframe w' query_id = Value df -> empty df = true ->
     query_dune_api_by_id w' (Some key) query_id = ([RunQuery query_id], Returns df) /\
     (forall tvl_df, merge_data tvl_df df = merge_data tvl_df pd_DataFrame) /\
     (snd (query_dune_api_by_id w' (Some key) query_id)
      = snd (query_dune_api_by_id w (dune_client env) query_id) <-> df = pd_DataFrame)) /\
  (forall w' key result,
     run_sql w' sql query_name = Value result ->
     extract_rows result = Returns None \/ extract_rows result = Returns (Some []) ->
     snd (query_dune_api_by_sql w' (Some key) query_name sql)
     = snd (query_dune_api_by_sql w (dune_client env) query_name sql)).
Proof.
  intros Hkey.
  assert (Hclient : dune_client env = None) by (unfold dune_client; now rewrite Hkey).
  rewrite Hclient. split; [reflexivity|]. split; [reflexivity|]. split; [reflexivity|].
  split; [reflexivity|]. split.
  - intros w' key df Hrun Hempty.
    assert (Hcall : query_dune_api_by_id w' (Some key) query_id
                    = ([RunQuery query_id], Returns df)).
    { unfold query_dune_api_by_id, try_except, seq, emit, lift.
      rewrite Hrun. cbn [of_answer fst snd]. unfold normalize_date.
      rewrite Hempty. reflexivity. }
    split; [exact Hcall|]. split.
    + intros tvl_df. unfold merge_data. rewrite Hempty.
      change (empty pd_DataFrame) with true. now rewrite orb_true_r.
    + rewrite Hcall. cbn [snd query_dune_api_by_id ret]. split; intros H.
      * now inversion H.
      * now rewrite H.
  - intros w' key result Hrun Hrows.
    unfold query_dune_api_by_sql, try_except, seq, emit, lift.
    rewrite Hrun. simpl. destruct Hrows as [-> | ->]; reflexivity.
Qed.

Lemma missing_api_key_returns_empty_witness :
  truthy (DUNE_API_KEY no_key) = false /\
  dune_client no_key = None /\
  query_dune_api_by_id timeout_world (dune_client no_key) 12345 = ([], Returns pd_DataFrame) /\
  query_dune_api_by_sql timeout_world (dune_client no_key) "arbitrum" ARBITRUM_SQL_QUERY
  = ([], Returns pd_DataFrame) /\
  query_dune_api_by_id header_only_world (Some "key") 12345
  = ([RunQuery 12345], Returns header_only_df) /\
  (forall tvl_df, merge_data tvl_df header_only_df = merge_data tvl_df pd_DataFrame) /\
  snd (query_dune_api_by_sql bare_result_world (Some "key") "arbitrum" ARBITRUM_SQL_QUERY)
  = Returns pd_DataFrame.
Proof.
  destruct (missing_api_key_returns_empty timeout_world no_key 12345 "arbitrum"
              ARBITRUM_SQL_QUERY eq_refl) as [H1 [H2 [H3 [_ [Hid Hsql]]]]].
  destruct (Hid header_only_world "key" header_only_df eq_refl eq_refl) as [Hcall [Hmerge _]].
  split; [reflexivity|]. split; [exact H1|]. split; [exact H2|]. split; [exact H3|].
  split; [exact Hcall|]. split; [exact Hmerge|].
  exact (Hsql bare_result_world "key" bare_result eq_refl (or_introl eq_refl)).
Defined.

(** A query by id that succeeds with no row, against a missing key: both
    frames are empty, but the one of the query has the labels the backend
    sent and the one of the missing key has none. *)
Lemma missing_key_differs_from_empty_result :
  query_dune_api_by_id header_only_world (dune_client no_key) 12345
  = ([], Returns pd_DataFrame) /\
  query_dune_api_by_id header_only_world (Some "key") 12345
  = ([RunQuery 12345], Returns header_only_df) /\
  empty pd_DataFrame = true /\ empty header_only_df = true /\
  frame_eqb header_only_df pd_DataFrame = false /\
  has_column "date" header_only_df = true /\ has_column "date" pd_DataFrame = false.
Proof. vm_compute. repeat split. Qed.

(** The remediation text is none of the generic texts. *)
Lemma paid_plan_message_not_generic (query_name error_msg : string) :
  paid_plan_message <> by_sql_error_text query_name error_msg.
Proof. unfold paid_plan_message, by_sql_error_text. simpl. discriminate. Qed.

(** C3.  With no query id set for a chain the page runs the chain's SQL
    ([RunSql], and no [RunQuery]).  When the backend's failure mentions a
    paid plan or an upgrade, [query_dune_api_by_sql] raises an exception
    whose text is the fixed remediation text: it tells to use query ids,
    it is the text of no generic failure, and it does not depend on the
    backend's words.  The page recognises it and shows its own remediation
    message instead of the error. *)
Theorem capability_error_on_sql_fallback
    (w : World) (key slug Name VAR SQL : string) (QUERY_ID : option string) (e : exn) :
  truthy QUERY_ID = false ->
  run_sql w SQL slug = Error e ->
  insufficient_tier (exn_str e) = true ->
  query_dune_api_by_sql w (Some key) slug SQL
  = ([RunSql SQL slug], Raises (mk_exn Exception paid_plan_message)) /\
  contains "use query IDs instead" paid_plan_message = true /\
  contains "Set ARBITRUM_QUERY_ID and OPTIMISM_QUERY_ID" paid_plan_message = true /\
  (forall query_name error_msg,
     paid_plan_message <> by_sql_error_text query_name error_msg) /\
  load_dune w (Some key) slug Name VAR QUERY_ID SQL
  = ([st_toast ("Executing Dune query for " ++ slug ++ "...");
      st_warning ("⚠️ " ++ VAR ++ " not set. Attempting to use raw SQL (requires paid Dune plan)...");
      RunSql SQL slug;
      st_error ("❌ Dune API requires a paid plan for raw SQL queries. Please set " ++ VAR ++ " environment variable. See setup instructions above.");
      st_warning (Name ++ " Dune query returned no data. This may be normal if the query is still executing.")],
     Returns pd_DataFrame).
Proof.
  intros Hid Hrun Htier.
  assert (Hsql : query_dune_api_by_sql w (Some key) slug SQL
                 = ([RunSql SQL slug], Raises (mk_exn Exception paid_plan_message))).
  { rewrite (by_sql_backend_error w key slug SQL e Hrun). now rewrite Htier. }
  split; [exact Hsql|].
  split; [vm_compute; reflexivity|].
  split; [vm_compute; reflexivity|].
  split; [exact paid_plan_message_not_generic|].
  unfold load_dune. rewrite Hid, Hsql.
  unfold try_except, seq, emit, raise, ret.
  cbn [isinstance exn_cls issubclass exn_class_eqb base orb exn_str].
  rewrite paid_plan_message_tagged. reflexivity.
Qed.

Lemma capability_error_on_sql_fallback_witness :
  truthy (ARBITRUM_QUERY_ID only_key) = false /\
  query_dune_api_by_sql paid_plan_world (Some "key") "arbitrum" ARBITRUM_SQL_QUERY
  = ([RunSql ARBITRUM_SQL_QUERY "arbitrum"], Raises (mk_exn Exception paid_plan_message)).
Proof.
  split; [reflexivity|].
  exact (proj1 (capability_error_on_sql_fallback paid_plan_world "key" "arbitrum" "Arbitrum"
                  "ARBITRUM_QUERY_ID" ARBITRUM_SQL_QUERY (ARBITRUM_QUERY_ID only_key)
                  (mk_exn DuneError "This API request requires a Paid Plan. Please upgrade.")
                  eq_refl eq_refl eq_refl)).
Defined.

Lemma int_of_str_truthy (id : string) (z : Z) :
  int_of_str id = Returns z -> truthy (Some id) = true.
Proof. destruct id; [discriminate | reflexivity]. Qed.

Lemma insufficient_tier_false (msg : string) :
  insufficient_tier msg = false -> contains "paid plan" (lower msg) = false.
Proof. unfold insufficient_tier. intros H. now apply orb_false_elim in H. Qed.

(** C9, as the code has it.  A failure of the backend comes out of
    [query_dune_api_by_id] with the query id and the words [query ID]
    before the backend's message, and out of [query_dune_api_by_sql] (when
    it is not a failure of the plan) with the query name before the
    backend's message.  The page then shows either under the chain's name:
    [Error querying Dune API for <chain>: ...]. *)
Theorem generic_failure_context (w : World) (key SQL : string) (e : exn) :
  (forall query_id,
     run_query_dataframe w query_id = Error e ->
     query_dune_api_by_id w (Some key) query_id
     = ([RunQuery query_id],
        Raises (mk_exn Exception (by_id_error_text query_id (exn_str e)))) /\
     contains ("query ID " ++ str_int query_id) (by_id_error_text query_id (exn_str e)) = true) /\
  (forall query_name,
     run_sql w SQL query_name = Error e -> insufficient_tier (exn_str e) = false ->
     query_dune_api_by_sql w (Some key) query_name SQL
     = ([RunSql SQL query_name],
        Raises (mk_exn Exception (by_sql_error_text query_name (exn_str e)))) /\
     contains query_name (by_sql_error_text query_name (exn_str e)) = true) /\
  (forall slug Name VAR id query_id,
     int_of_str id = Returns query_id ->
     run_query_dataframe w query_id = Error e ->
     load_dune w (Some key) slug Name VAR (Some id) SQL
     = ([st_toast ("Executing Dune query for " ++ slug ++ "...");
         RunQuery query_id;
         st_error ("Error querying Dune API for " ++ slug ++ ": "
                   ++ by_id_error_text query_id (exn_str e))],
        Returns pd_DataFrame)) /\
  (forall slug Name VAR QUERY_ID,
     slug = "arbitrum" \/ slug = "optimism" ->
     truthy QUERY_ID = false ->
     run_sql w SQL slug = Error e -> insufficient_tier (exn_str e) = false ->
     load_dune w (Some key) slug Name VAR QUERY_ID SQL
     = ([st_toast ("Executing Dune query for " ++ slug ++ "...");
         st_warning ("⚠️ " ++ VAR ++ " not set. Attempting to use raw SQL (requires paid Dune plan)...");
         RunSql SQL slug;
         st_error ("Error querying Dune API for " ++ slug ++ ": "
                   ++ by_sql_error_text slug (exn_str e))],
        Returns pd_DataFrame)).
Proof.
  repeat split.
  - now apply by_id_backend_error.
  - unfold by_id_error_text.
    change ("Dune API error for query ID " ++ str_int query_id ++ ": " ++ exn_str e)
      with ("Dune API error for " ++ ("query ID " ++ str_int query_id) ++ ": " ++ exn_str e).
    apply contains_middle.
  - rewrite (by_sql_backend_error w key query_name SQL e H). now rewrite H0.
  - apply contains_middle.
  - intros slug Name VAR id query_id Hint Hrun.
    unfold load_dune. rewrite (int_of_str_truthy id query_id Hint).
    unfold try_except at 2. unfold seq at 3. unfold lift at 1. rewrite Hint.
    rewrite (by_id_backend_error w key query_id e Hrun).
    unfold try_except, seq, emit, raise, ret. cbn. reflexivity.
  - intros slug Name VAR QUERY_ID Hslug Hid Hrun Htier.
    unfold load_dune. rewrite Hid.
    rewrite (by_sql_backend_error w key slug SQL e Hrun), Htier.
    unfold try_except, seq, emit, raise, ret.
    cbn [isinstance exn_cls issubclass exn_class_eqb base orb exn_str].
    unfold by_sql_error_text.
    rewrite (generic_text_not_tagged slug (exn_str e) Hslug (insufficient_tier_false _ Htier)).
    reflexivity.
Qed.

Lemma generic_failure_context_witness :
  run_query_dataframe timeout_world 12345 = Error (mk_exn DuneError "timeout") /\
  query_dune_api_by_id timeout_world (Some "key") 12345
  = ([RunQuery 12345], Raises (mk_exn Exception "Dune API error for query ID 12345: timeout")) /\
  load_dune timeout_world (Some "key") "arbitrum" "Arbitrum" "ARBITRUM_QUERY_ID" None
            ARBITRUM_SQL_QUERY
  = ([st_toast "Executing Dune query for arbitrum...";
      st_warning "⚠️ ARBITRUM_QUERY_ID not set. Attempting to use raw SQL (requires paid Dune plan)...";
      RunSql ARBITRUM_SQL_QUERY "arbitrum";
      st_error "Error querying Dune API for arbitrum: Dune API error for arbitrum: timeout"],
     Returns pd_DataFrame).
Proof.
  destruct (generic_failure_context timeout_world "key" ARBITRUM_SQL_QUERY
              (mk_exn DuneError "timeout")) as [Hid [_ [_ Hpage]]].
  split; [reflexivity|].
  split; [exact (proj1 (Hid 12345 eq_refl))|].
  exact (Hpage "arbitrum" "Arbitrum" "ARBITRUM_QUERY_ID" None
               (or_introl eq_refl) eq_refl eq_refl eq_refl).
Defined.

(** The error [query_dune_api_by_id] raises for Arbitrum's query does not
    name the chain; the one [query_dune_api_by_sql] raises does not tell
    that SQL was tried. *)
Lemma query_errors_lack_context :
  ARBITRUM_QUERY_ID only_ids = Some "12345" /\
  query_dune_api_by_id timeout_world (dune_client only_ids) 12345
  = ([RunQuery 12345], Raises (mk_exn Exception "Dune API error for query ID 12345: timeout")) /\
  contains "arbitrum" (lower "Dune API error for query ID 12345: timeout") = false /\
  query_dune_api_by_sql timeout_world (dune_client only_key) "arbitrum" ARBITRUM_SQL_QUERY
  = ([RunSql ARBITRUM_SQL_QUERY "arbitrum"],
     Raises (mk_exn Exception "Dune API error for arbitrum: timeout")) /\
  contains "sql" (lower "Dune API error for arbitrum: timeout") = false /\
  contains "query" (lower "Dune API error for arbitrum: timeout") = false.
Proof. vm_compute. repeat split. Qed.

(** ** The TVL fetcher *)

Lemma seq_returns {A B : Type} (a : A) (k : A -> Script B) :
  (x <- lift (Returns a) ;; k x) = k a.
Proof. unfold seq, lift. now destruct (k a). Qed.

Lemma seq_ret {A B : Type} (a : A) (k : A -> Script B) : (x <- ret a ;; k x) = k a.
Proof. apply seq_returns. Qed.

Lemma seq_emit {B : Type} (ev : event) (m : Script B) :
  (emit ev ;;; m) = (ev :: fst m, snd m).
Proof. unfold seq, emit. now destruct m. Qed.

Lemma raise_for_status_200 (url reason : string) : raise_for_status url 200 reason = Returns tt.
Proof. reflexivity. Qed.

Lemma seq_events {A B : Type} (ev : event) (o : outcome A) (k : A -> Script B) :
  (forall a, fst (k a) = []) ->
  fst (emit ev ;;; (x <- lift o ;; k x)) = [ev].
Proof.
  intros Hk. unfold seq, emit, lift. destruct o as [a| |]; try reflexivity.
  specialize (Hk a). destruct (k a) as [l r]. simpl in *. now subst.
Qed.

Lemma lift_seq_events {A B : Type} (o : outcome A) (k : A -> Script B) :
  (forall a, fst (k a) = []) -> fst (x <- lift o ;; k x) = [].
Proof.
  intros Hk. unfold seq, lift. destruct o as [a| |]; try reflexivity.
  specialize (Hk a). destruct (k a) as [l r]. simpl in *. now subst.
Qed.

Lemma try_except_events {A : Type} (m : Script A) (cls : exn_class) (h : exn -> Script A) :
  (forall e, fst (h e) = []) -> fst (try_except m cls h) = fst m.
Proof.
  intros Hh. unfold try_except. destruct m as [l [a|e|]]; try reflexivity.
  destruct (isinstance e cls); [|reflexivity].
  specialize (Hh e). destruct (h e) as [l' r]. simpl in *. subst. apply app_nil_r.
Qed.

(** One call of [fetch_defi_llama_tvl] makes one request, whatever comes
    back. *)
Lemma fetch_one_request (w : World) (chain_slug : string) :
  fst (fetch_defi_llama_tvl w chain_slug) = [Get ("https://api.llama.fi/charts/" ++ chain_slug)].
Proof.
  unfold fetch_defi_llama_tvl.
  rewrite try_except_events by reflexivity.
  apply seq_events. intros response.
  repeat (apply lift_seq_events; intros ?). reflexivity.
Qed.

Lemma fetch_request_failure (w : World) (chain_slug : string) :
  request_failure (http_get w ("https://api.llama.fi/charts/" ++ chain_slug)) = true ->
  fetch_defi_llama_tvl w chain_slug
  = ([Get ("https://api.llama.fi/charts/" ++ chain_slug)],
     Returns (pd_DataFrame_columns ["date"; "tvl_usd"])).
Proof.
  unfold fetch_defi_llama_tvl, request_failure.
  destruct (http_get w _) as [e | status_code reason body]; intros H.
  - unfold try_except, seq, emit, lift, ret. simpl. now rewrite H.
  - unfold try_except, seq, emit, lift, ret, raise_for_status. simpl.
    destruct ((400 <=? status_code) && (status_code <? 500)) eqn:E4; [reflexivity|].
    destruct ((500 <=? status_code) && (status_code <? 600)) eqn:E5; [reflexivity|].
    assert (Hs : (400 <=? status_code) && (status_code <? 600) = false).
    { destruct (400 <=? status_code) eqn:A; [|reflexivity]. simpl in *.
      destruct (500 <=? status_code) eqn:B; simpl in *; [assumption|].
      apply Z.ltb_ge in E4. apply Z.leb_gt in B. lia. }
    rewrite Hs in H. simpl in H. destruct body; try discriminate. reflexivity.
Qed.

(** A call that finds nothing in the cache is a run of the body, and what
    the body returns is stored. *)
Lemma cache_data_ttl_miss {K V : Type} (ttl : Z) (key_eqb : K -> K -> bool)
    (body : K -> Script V) (now : Z) (memo : TtlMemo K V) (k : K) :
  cached_value key_eqb now memo k = None ->
  cache_data_ttl ttl key_eqb body now memo k
  = (body k, match snd (body k) with
             | Returns v => (k, v, now + ttl) :: memo
             | _ => memo
             end).
Proof. unfold cache_data_ttl. now intros ->. Qed.

Lemma cache_data_ttl_hit {K V : Type} (ttl : Z) (key_eqb : K -> K -> bool)
    (body : K -> Script V) (now : Z) (memo : TtlMemo K V) (k : K) (v : V) :
  cached_value key_eqb now memo k = Some v ->
  cache_data_ttl ttl key_eqb body now memo k = (([], Returns v), memo).
Proof. unfold cache_data_ttl. now intros ->. Qed.

(** C2, as the code has it.  A run of the body makes one request and no
    other; when the request fails inside [requests] (the connection, a
    timeout, an error status, a body that is not JSON) it returns the
    frame with the columns [date] and [tvl_usd] and no row, and raises
    nothing.  A call of the function, which is under
    [@st.cache_data(ttl=3600)], makes no request when the cache holds a
    live entry for the slug and returns the stored frame; otherwise it is a
    run of the body, and the frame of a failed request is stored like any
    other. *)
Theorem fetch_tvl_request_failures
    (w : World) (now : Z) (memo : TtlMemo string DataFrame) (chain_slug : string) :
  let url := "https://api.llama.fi/charts/" ++ chain_slug in
  let call := fetch_defi_llama_tvl_cached w now memo chain_slug in
  let no_rows := mk_frame ["date"; "tvl_usd"] [] in
  fst (fetch_defi_llama_tvl w chain_slug) = [Get url] /\
  (request_failure (http_get w url) = true ->
   fetch_defi_llama_tvl w chain_slug = ([Get url], Returns no_rows) /\
   empty no_rows = true) /\
  (fst (fst call) = [] \/ fst (fst call) = [Get url]) /\
  (forall df, cached_value String.eqb now memo chain_slug = Some df ->
              call = (([], Returns df), memo)) /\
  (cached_value String.eqb now memo chain_slug = None ->
   fst call = fetch_defi_llama_tvl w chain_slug /\
   fst (fst call) = [Get url] /\
   (request_failure (http_get w url) = true ->
    call = (([Get url], Returns no_rows), (chain_slug, no_rows, now + 3600) :: memo))).
Proof.
  intros url call no_rows. unfold call, fetch_defi_llama_tvl_cached.
  split; [apply fetch_one_request|].
  split; [intros H; split; [now apply fetch_request_failure | reflexivity]|].
  split.
  { destruct (cached_value String.eqb now memo chain_slug) as [df|] eqn:E.
    - left. now rewrite (cache_data_ttl_hit _ _ _ _ _ _ df E).
    - right. rewrite (cache_data_ttl_miss _ _ _ _ _ _ E). apply fetch_one_request. }
  split; [intros df E; now apply cache_data_ttl_hit|].
  intros E. rewrite (cache_data_ttl_miss _ _ _ _ _ _ E). cbn [fst].
  split; [reflexivity|]. split; [apply fetch_one_request|].
  intros H. now rewrite (fetch_request_failure w chain_slug H).
Qed.

Lemma fetch_tvl_request_failures_witness :
  request_failure (http_get timeout_world "https://api.llama.fi/charts/arbitrum") = true /\
  fetch_defi_llama_tvl timeout_world "arbitrum"
  = ([Get "https://api.llama.fi/charts/arbitrum"], Returns (mk_frame ["date"; "tvl_usd"] [])) /\
  fetch_defi_llama_tvl_cached timeout_world 0 [] "arbitrum"
  = (([Get "https://api.llama.fi/charts/arbitrum"], Returns (mk_frame ["date"; "tvl_usd"] [])),
     [("arbitrum", mk_frame ["date"; "tvl_usd"] [], 3600)]) /\
  fetch_defi_llama_tvl_cached timeout_world 3599
    [("arbitrum", scenario_tvl_df, 3600)] "arbitrum"
  = (([], Returns scenario_tvl_df), [("arbitrum", scenario_tvl_df, 3600)]).
Proof.
  split; [reflexivity|].
  split; [exact (proj1 (proj1 (proj2 (fetch_tvl_request_failures timeout_world 0 []
                                        "arbitrum")) eq_refl))|].
  split.
  - exact (proj2 (proj2 (proj2 (proj2 (proj2 (proj2 (fetch_tvl_request_failures
             timeout_world 0 [] "arbitrum")))) eq_refl)) eq_refl).
  - exact (proj1 (proj2 (proj2 (proj2 (fetch_tvl_request_failures timeout_world 3599
             [("arbitrum", scenario_tvl_df, 3600)] "arbitrum")))) scenario_tvl_df eq_refl).
Defined.

(** A body that is JSON but not a series of the provider: the empty array.
    [pd.DataFrame([])] has no column, [df['date']] raises [KeyError], which
    is no [RequestException]: the call raises. *)
Lemma fetch_tvl_raises_on_empty_array :
  fetch_defi_llama_tvl (provider (JsonRecords [])) "arbitrum"
  = ([Get "https://api.llama.fi/charts/arbitrum"], Raises (mk_exn KeyError "'date'")) /\
  fetch_defi_llama_tvl (provider (JsonRecords [[("error", CStr "chain not found")]])) "arbitrum"
  = ([Get "https://api.llama.fi/charts/arbitrum"], Raises (mk_exn KeyError "'date'")) /\
  snd (main (provider (JsonRecords [])) only_ids) = Raises (mk_exn KeyError "'date'").
Proof. vm_compute. repeat split. Qed.

(** ** The provider's series through the fetcher *)

Lemma traverse_map {W X Y : Type} (f : X -> outcome Y) (h : W -> X) (g : W -> Y)
    (l : list W) :
  (forall x, In x l -> f (h x) = Returns (g x)) ->
  traverse f (map h l) = Returns (map g l).
Proof.
  induction l as [|x l IH]; intros H; simpl; [reflexivity|].
  rewrite (H x) by now left. simpl. rewrite IH by (intros; apply H; now right).
  reflexivity.
Qed.

Lemma is_seconds_spec (c : cell) :
  is_seconds c = true ->
  exists z, to_numeric c = Returns (CInt z) /\ seconds_of c = Some z /\
            to_datetime_s_date (CInt z) = Returns (CDate (z / 86400)) /\
            is_text (Some c) || is_int (Some c) = true /\ in_int64 (Some c) = true /\
            c <> CNone.
Proof.
  unfold is_seconds, seconds_of, to_datetime_s_date.
  destruct c as [z|f|s|d|]; try discriminate; unfold to_numeric, in_int64.
  - destruct (int64 z) eqn:I; [|discriminate].
    destruct ((-9223372036 <=? z) && (z <=? 9223372036)) eqn:B; [|discriminate].
    intros _. exists z. rewrite B. repeat split. discriminate.
  - destruct (int_literal s) as [z|]; [|discriminate].
    destruct (String.eqb (str_int z) s && int64 z) eqn:I; [|discriminate].
    destruct ((-9223372036 <=? z) && (z <=? 9223372036)) eqn:B; [|discriminate].
    intros _. exists z. rewrite B. repeat split. discriminate.
Qed.

Lemma set_dates (l : list (cell * float)) :
  map (fun rv : list cell * cell =>
         set_field "date" (snd rv) ["date"; "totalLiquidityUSD"] (fst rv))
      (combine (map (fun p : cell * float => [fst p; CFloat (snd p)]) l)
               (map (fun p : cell * float => CDate (day_of (fst p))) l))
  = map (fun p => [CDate (day_of (fst p)); CFloat (snd p)]) l.
Proof.
  induction l as [|p l IH]; [reflexivity|].
  cbn [map combine]. rewrite IH. reflexivity.
Qed.

Section ProviderSeries.

Variable pts : list (cell * float).
Hypothesis some : pts <> [].
Hypothesis seconds : forallb (fun p => is_seconds (fst p)) pts = true.

Let data : list record := map tvl_point pts.

Lemma seconds_in (p : cell * float) : In p pts -> is_seconds (fst p) = true.
Proof. intros H. rewrite forallb_forall in seconds. now apply seconds. Qed.

Lemma provider_labels : labels data = ["date"; "totalLiquidityUSD"].
Proof.
  unfold labels, data. destruct pts as [|p rest]; [now elim some|]. simpl.
  clear. induction rest as [|q rest IH]; simpl; [reflexivity | exact IH].
Qed.

Lemma provider_date_column : map (lookup "date") data = map (fun p => Some (fst p)) pts.
Proof. unfold data. rewrite map_map. reflexivity. Qed.

Lemma provider_tvl_column :
  map (lookup "totalLiquidityUSD") data = map (fun p => Some (CFloat (snd p))) pts.
Proof. unfold data. rewrite map_map. reflexivity. Qed.

Lemma provider_date_dtype :
  exists t, infer_dtype (map (lookup "date") data) = Returns t /\ t <> Float64.
Proof.
  rewrite provider_date_column. unfold infer_dtype.
  assert (H1 : existsb (fun v => match v with Some CNone => true | _ => false end)
                 (map (fun p : cell * float => Some (fst p)) pts) = false).
  { clear some. induction pts as [|p l IH]; cbn [map existsb forallb]; [reflexivity|].
    cbn [map existsb forallb] in seconds. apply andb_prop in seconds. destruct seconds as [Hp Hl].
    destruct (is_seconds_spec _ Hp) as [z [_ [_ [_ [_ [_ Hn]]]]]].
    rewrite IH by assumption. destruct (fst p); try reflexivity. now elim Hn. }
  assert (H2 : forallb in_int64 (map (fun p : cell * float => Some (fst p)) pts) = true).
  { clear some H1. induction pts as [|p l IH]; cbn [map existsb forallb]; [reflexivity|].
    cbn [map existsb forallb] in seconds. apply andb_prop in seconds. destruct seconds as [Hp Hl].
    destruct (is_seconds_spec _ Hp) as [z [_ [_ [_ [_ [Hi _]]]]]].
    rewrite Hi. now apply IH. }
  rewrite H1, H2. simpl.
  destruct (existsb is_text _) eqn:T; [exists Object; split; [reflexivity | discriminate]|].
  assert (H3 : forallb is_int (map (fun p : cell * float => Some (fst p)) pts) = true).
  { clear some H1 H2. induction pts as [|p l IH]; cbn [map existsb forallb]; [reflexivity|].
    cbn [map existsb forallb] in seconds, T. apply andb_prop in seconds. destruct seconds as [Hp Hl].
    apply orb_false_elim in T. destruct T as [Tp Tl].
    destruct (is_seconds_spec _ Hp) as [z [_ [_ [_ [Hk _]]]]].
    rewrite Tp in Hk. cbn [orb] in Hk. rewrite Hk. now apply IH. }
  rewrite H3. exists Int64. split; [reflexivity | discriminate].
Qed.

Lemma provider_tvl_dtype :
  infer_dtype (map (lookup "totalLiquidityUSD") data) = Returns Float64.
Proof.
  rewrite provider_tvl_column. unfold infer_dtype.
  assert (H1 : existsb (fun v => match v with Some CNone => true | _ => false end)
                 (map (fun p : cell * float => Some (CFloat (snd p))) pts) = false)
    by (clear; induction pts; simpl; auto).
  assert (H2 : forallb in_int64 (map (fun p : cell * float => Some (CFloat (snd p))) pts) = true)
    by (clear; induction pts; simpl; auto).
  assert (H3 : existsb is_text (map (fun p : cell * float => Some (CFloat (snd p))) pts) = false)
    by (clear; induction pts; simpl; auto).
  assert (H4 : forallb is_number (map (fun p : cell * float => Some (CFloat (snd p))) pts) = true)
    by (clear; induction pts; simpl; auto).
  rewrite H1, H2, H3, H4. simpl.
  destruct pts as [|p l]; [now elim some | reflexivity].
Qed.

Lemma provider_frame :
  DataFrame_of_records data
  = Returns (mk_frame ["date"; "totalLiquidityUSD"]
               (map (fun p => [fst p; CFloat (snd p)]) pts)).
Proof.
  unfold DataFrame_of_records. rewrite provider_labels.
  destruct provider_date_dtype as [t [Ht Hne]].
  cbn [traverse]. rewrite Ht, provider_tvl_dtype. cbn [bind combine].
  do 2 f_equal. unfold data. rewrite map_map.
  apply map_ext_in. intros p Hp. cbn.
  destruct (is_seconds_spec _ (seconds_in p Hp)) as [z [_ [_ [_ [Hk _]]]]].
  destruct t; [reflexivity | now elim Hne | reflexivity].
Qed.

Let sec (c : cell) : Z := match seconds_of c with Some z => z | None => 0 end.

Lemma provider_seconds :
  traverse to_numeric (map fst pts) = Returns (map (fun p => CInt (sec (fst p))) pts).
Proof.
  apply traverse_map. intros p Hp.
  destruct (is_seconds_spec _ (seconds_in p Hp)) as [z [Hn [Hs _]]].
  unfold sec. now rewrite Hs, Hn.
Qed.

Lemma provider_days :
  traverse to_datetime_s_date (map (fun p : cell * float => CInt (sec (fst p))) pts)
  = Returns (map (fun p => CDate (day_of (fst p))) pts).
Proof.
  apply traverse_map. intros p Hp.
  destruct (is_seconds_spec _ (seconds_in p Hp)) as [z [_ [Hs [Ht _]]]].
  unfold sec, day_of. rewrite Hs. exact Ht.
Qed.

Lemma provider_fetch (w : World) (chain_slug reason : string) :
  http_get w ("https://api.llama.fi/charts/" ++ chain_slug)
  = Response 200 reason (JsonRecords data) ->
  fetch_defi_llama_tvl w chain_slug
  = ([Get ("https://api.llama.fi/charts/" ++ chain_slug)],
     Returns (mk_frame ["date"; "tvl_usd"]
                (map (fun p => [CDate (day_of (fst p)); CFloat (snd p)]) pts))).
Proof.
  intros Hget. unfold fetch_defi_llama_tvl. rewrite Hget, seq_emit.
  rewrite seq_returns. cbn [fst snd]. rewrite raise_for_status_200, seq_returns.
  cbn [response_json]. rewrite seq_returns, provider_frame, seq_returns.
  assert (Hcol : getitem (mk_frame ["date"; "totalLiquidityUSD"]
                            (map (fun p : cell * float => [fst p; CFloat (snd p)]) pts)) "date"
                 = Returns (map fst pts)).
  { unfold getitem. cbn [has_column columns existsb rows]. rewrite String.eqb_refl.
    cbn [orb]. rewrite map_map. reflexivity. }
  rewrite Hcol, seq_returns, provider_seconds, seq_returns, provider_days, seq_returns.
  unfold ret, try_except, setitem, rename. cbn [fst snd columns rows map].
  now rewrite set_dates.
Qed.

End ProviderSeries.

Lemma dates_of_tvl_frame (pts : list (cell * float)) :
  dates (mk_frame ["date"; "tvl_usd"]
           (map (fun p => [CDate (day_of (fst p)); CFloat (snd p)]) pts))
  = map (fun p => day_of (fst p)) pts.
Proof.
  unfold dates. cbn [rows columns].
  induction pts as [|p l IH]; [reflexivity|].
  cbn [map flat_map]. rewrite IH. reflexivity.
Qed.

Lemma ascending_NoDup (l : list Z) : StronglySorted Z.lt l -> NoDup l.
Proof.
  induction 1 as [|x l Hs IH Hall]; constructor; [|assumption].
  intros Hin. rewrite Forall_forall in Hall. specialize (Hall x Hin). lia.
Qed.

(** C5, as the code has it.  The fetcher neither sorts nor removes
    duplicates: on an answer of the provider (an array of objects with a
    count of seconds under [date] and a float under [totalLiquidityUSD])
    it returns one row per object, in the provider's order, with the day
    each second falls in.  The dates are ascending without duplicates when
    the days of the answer are. *)
Theorem fetch_tvl_keeps_provider_order
    (w : World) (chain_slug reason : string) (pts : list (cell * float)) :
  pts <> [] ->
  forallb (fun p => is_seconds (fst p)) pts = true ->
  http_get w ("https://api.llama.fi/charts/" ++ chain_slug)
  = Response 200 reason (JsonRecords (map tvl_point pts)) ->
  exists df,
    fetch_defi_llama_tvl w chain_slug
    = ([Get ("https://api.llama.fi/charts/" ++ chain_slug)], Returns df) /\
    columns df = ["date"; "tvl_usd"] /\
    dates df = map (fun p => day_of (fst p)) pts /\
    (StronglySorted Z.lt (map (fun p => day_of (fst p)) pts) ->
     StronglySorted Z.lt (dates df) /\ NoDup (dates df)).
Proof.
  intros Hsome Hsec Hget. eexists. split; [|split; [|split]].
  - exact (provider_fetch pts Hsome Hsec w chain_slug reason Hget).
  - reflexivity.
  - apply dates_of_tvl_frame.
  - rewrite dates_of_tvl_frame. intros Hs. split; [assumption | now apply ascending_NoDup].
Qed.

Lemma fetch_tvl_keeps_provider_order_witness :
  exists df,
    fetch_defi_llama_tvl
      (provider (JsonRecords (map tvl_point [(CStr "1700000000", 1%float);
                                             (CInt 1700086400, 2%float)]))) "arbitrum"
    = ([Get "https://api.llama.fi/charts/arbitrum"], Returns df) /\
    dates df = [19675; 19676].
Proof.
  destruct (fetch_tvl_keeps_provider_order
              (provider (JsonRecords (map tvl_point [(CStr "1700000000", 1%float);
                                                     (CInt 1700086400, 2%float)])))
              "arbitrum" "OK" [(CStr "1700000000", 1%float); (CInt 1700086400, 2%float)]
              ltac:(discriminate) eq_refl eq_refl) as [df [Hf [_ [Hd _]]]].
  exists df. split; [exact Hf | exact Hd].
Defined.

(** The provider's order and days are kept as they come: two points of one
    day give a duplicate date, two days in descending order stay so. *)
Lemma fetch_tvl_unsorted_or_duplicate :
  (exists df,
     fetch_defi_llama_tvl (provider (JsonRecords (map tvl_point same_day_points))) "arbitrum"
     = ([Get "https://api.llama.fi/charts/arbitrum"], Returns df) /\
     dates df = [19675; 19675] /\ ~ NoDup (dates df)) /\
  (exists df,
     fetch_defi_llama_tvl (provider (JsonRecords (map tvl_point descending_points))) "arbitrum"
     = ([Get "https://api.llama.fi/charts/arbitrum"], Returns df) /\
     dates df = [19676; 19675] /\ ~ StronglySorted Z.le (dates df)).
Proof.
  split; eexists; (split; [vm_compute; reflexivity | split; [reflexivity|]]).
  - intros H. inversion H as [|x l Hn _]; subst. apply Hn. now left.
  - intros H. inversion H as [|x l _ Hall]; subst.
    inversion Hall as [|y l' Hle _]; subst. now apply Hle.
Qed.

(** ** What the page shows before the gate *)

Lemma quiet_ret {A : Type} (a : A) : quiet (ret a).
Proof. constructor. Qed.

Lemma quiet_lift {A : Type} (o : outcome A) : quiet (lift o).
Proof. constructor. Qed.

Lemma quiet_raise {A : Type} (e : exn) : quiet (@raise A e).
Proof. constructor. Qed.

Lemma quiet_emit (ev : event) : renders_section ev = false -> quiet (emit ev).
Proof. intros H. constructor; [assumption | constructor]. Qed.

Lemma quiet_seq {A B : Type} (m : Script A) (k : A -> Script B) :
  quiet m -> (forall a, quiet (k a)) -> quiet (seq m k).
Proof.
  unfold quiet, seq. intros Hm Hk. destruct m as [l [a|e|]]; try assumption.
  specialize (Hk a). destruct (k a) as [l' r]. simpl in *. apply Forall_app. now split.
Qed.

Lemma quiet_try {A : Type} (m : Script A) (cls : exn_class) (h : exn -> Script A) :
  quiet m -> (forall e, quiet (h e)) -> quiet (try_except m cls h).
Proof.
  unfold quiet, try_except. intros Hm Hh. destruct m as [l [a|e|]]; try assumption.
  destruct (isinstance e cls); [|assumption].
  specialize (Hh e). destruct (h e) as [l' r]. simpl in *. apply Forall_app. now split.
Qed.

Ltac quiet_step :=
  first
    [ apply quiet_ret
    | apply quiet_lift
    | apply quiet_raise
    | apply quiet_emit; reflexivity
    | apply quiet_seq; [|intros ?]
    | apply quiet_try; [|intros ?]
    | match goal with
      | |- quiet (if ?b then _ else _) => destruct b
      | |- quiet (match ?x with _ => _ end) => destruct x
      end ].

Lemma quiet_fetch (w : World) (chain_slug : string) : quiet (fetch_defi_llama_tvl w chain_slug).
Proof. unfold fetch_defi_llama_tvl. repeat quiet_step. Qed.

Lemma quiet_by_id (w : World) (client : option string) (query_id : Z) :
  quiet (query_dune_api_by_id w client query_id).
Proof. unfold query_dune_api_by_id. repeat quiet_step. Qed.

Lemma quiet_by_sql (w : World) (client : option string) (query_name sql : string) :
  quiet (query_dune_api_by_sql w client query_name sql).
Proof. unfold query_dune_api_by_sql. repeat quiet_step. Qed.

Lemma quiet_load_tvl (w : World) (slug Name : string) : quiet (load_tvl w slug Name).
Proof.
  unfold load_tvl. apply quiet_seq; [apply quiet_emit; reflexivity | intros _].
  apply quiet_seq; [apply quiet_fetch | intros df]. repeat quiet_step.
Qed.

Lemma quiet_load_dune (w : World) (client : option string)
    (slug Name VAR : string) (QUERY_ID : option string) (SQL : string) :
  quiet (load_dune w client slug Name VAR QUERY_ID SQL).
Proof.
  unfold load_dune. apply quiet_seq; [apply quiet_emit; reflexivity | intros _].
  apply quiet_try; [|intros e; repeat quiet_step].
  apply quiet_seq; [|intros df; repeat quiet_step].
  destruct (truthy QUERY_ID).
  - apply quiet_try; [|intros e; repeat quiet_step].
    apply quiet_seq; [apply quiet_lift | intros id; apply quiet_by_id].
  - apply quiet_seq; [apply quiet_emit; reflexivity | intros _].
    apply quiet_try; [apply quiet_by_sql | intros e; repeat quiet_step].
Qed.

Lemma quiet_load_and_merge (w : World) (env : Env) : quiet (load_and_merge w env).
Proof.
  unfold load_and_merge.
  repeat first
    [ apply quiet_load_tvl | apply quiet_load_dune
    | apply quiet_emit; reflexivity | apply quiet_ret | apply quiet_lift
    | apply quiet_seq; [|intros ?]
    | match goal with |- quiet (if ?b then _ else _) => destruct b end ].
Qed.

Lemma dashboard_gate (w : World) (arbitrum_full_df optimism_full_df : DataFrame) :
  empty arbitrum_full_df = true \/ empty optimism_full_df = true ->
  dashboard w arbitrum_full_df optimism_full_df
  = ([st_error "Data merging failed. Check if all APIs returned data."], Returns tt).
Proof.
  unfold dashboard. intros [-> | ->]; rewrite ?orb_true_r; reflexivity.
Qed.

(** C6.  When a merged frame is empty the part of the script after the
    merges shows the one error and nothing else, and ends normally.  A run
    of the whole script that reaches the gate with an empty frame ends
    with that error and has put no header, tile, chart, table or success
    banner on the page. *)
Theorem empty_merge_blocks_dashboard
    (w : World) (env : Env) (arbitrum_full_df optimism_full_df : DataFrame) :
  empty arbitrum_full_df = true \/ empty optimism_full_df = true ->
  dashboard w arbitrum_full_df optimism_full_df
  = ([st_error "Data merging failed. Check if all APIs returned data."], Returns tt) /\
  (forall evs,
     load_and_merge w env = (evs, Returns (arbitrum_full_df, optimism_full_df)) ->
     main w env
     = ((evs ++ [st_error "Data merging failed. Check if all APIs returned data."])%list,
        Returns tt) /\
     quiet (main w env)).
Proof.
  intros Hempty. split; [now apply dashboard_gate|].
  intros evs Hload. unfold main.
  pose proof (quiet_load_and_merge w env) as Hq.
  rewrite Hload in *. unfold seq. cbn [fst snd].
  rewrite (dashboard_gate w _ _ Hempty). split; [reflexivity|].
  unfold quiet in *. cbn [fst] in *. apply Forall_app. split; [assumption|].
  constructor; [reflexivity | constructor].
Qed.

Lemma empty_merge_blocks_dashboard_witness :
  empty pd_DataFrame = true /\
  dashboard timeout_world pd_DataFrame pd_DataFrame
  = ([st_error "Data merging failed. Check if all APIs returned data."], Returns tt) /\
  snd (load_and_merge timeout_world no_key) = Returns (pd_DataFrame, pd_DataFrame) /\
  quiet (main timeout_world no_key).
Proof.
  destruct (empty_merge_blocks_dashboard timeout_world no_key pd_DataFrame
              pd_DataFrame (or_introl eq_refl)) as [Hgate Hmain].
  split; [reflexivity|]. split; [exact Hgate|]. split; [reflexivity|].
  exact (proj2 (Hmain (fst (load_and_merge timeout_world no_key)) eq_refl)).
Defined.

(** ** The tiles *)

Lemma iloc_last_spec (df : DataFrame) (rs : list (list cell)) (r : list cell) :
  rows df = (rs ++ [r])%list -> iloc_last df = Returns (upcast r).
Proof.
  intros H. unfold iloc_last. rewrite H, rev_app_distr. reflexivity.
Qed.

Lemma field_In (cols : list string) (row : list cell) (c : string) (v : cell) :
  field cols row c = Some v -> In v row.
Proof.
  revert row. induction cols as [|k cols IH]; intros [|x row]; simpl; try discriminate.
  destruct (String.eqb c k); intros H.
  - inversion H. now left.
  - right. now apply IH.
Qed.

(** The row of a frame that has a date in it is read as it is. *)
Lemma upcast_dated_row (cols : list string) (row : list cell) (d : Z) :
  field cols row "date" = Some (CDate d) -> upcast row = row.
Proof.
  intros H. apply field_In in H. unfold upcast.
  assert (Hf : forallb (fun c => is_number (Some c) && in_int64 (Some c)) row = false).
  { induction row as [|x row IH]; [destruct H|]. cbn [forallb].
    destruct H as [-> | H]; [reflexivity|]. rewrite (IH H). apply andb_false_r. }
  now rewrite Hf.
Qed.

Lemma iloc_last_dated (df : DataFrame) (rs : list (list cell)) (r : list cell) (d : Z) :
  rows df = (rs ++ [r])%list -> field (columns df) r "date" = Some (CDate d) ->
  iloc_last df = Returns r.
Proof.
  intros Hrows Hd. unfold iloc_last. rewrite Hrows, rev_app_distr. cbn [rev app].
  now rewrite (upcast_dated_row _ _ _ Hd).
Qed.

(** C7.  The scenario of one record per side.  The provider answers
    [[{date: 1700000000, totalLiquidityUSD: 1000000000}]], the query one row
    of that day (2023-11-14) with 50000 users.  The fetcher and the query
    return one row each, [merge_data] one row with the fields of both, and
    the tiles read "$1.00B" and "50,000"; the script as a whole shows them.
    The tiles are made of the last row of each frame: whatever rows come
    before the record of the scenario in the two merged frames, the tiles
    read the same. *)
Theorem scenario_latest_tiles :
  (exists tvl_df dune_df,
     fetch_defi_llama_tvl scenario_world "arbitrum"
     = ([Get "https://api.llama.fi/charts/arbitrum"], Returns tvl_df) /\
     query_dune_api_by_id scenario_world (Some "key") 12345
     = ([RunQuery 12345], Returns dune_df) /\
     rows tvl_df = [[CDate 19675; CInt 1000000000]] /\
     rows dune_df = [[CDate 19675; CInt 50000; CInt 200000; CFloat 0x1.6666666666666p-2%float]] /\
     merge_data tvl_df dune_df = Returns scenario_full_df) /\
  List.length (rows scenario_full_df) = 1%nat /\
  key_metrics scenario_full_df scenario_full_df
  = ([st_header "At-a-Glance (Latest Data)";
      st_metric "Arbitrum TVL" "$1.00B";
      st_metric "Optimism TVL" "$1.00B";
      st_metric "Arbitrum Daily Users" "50,000";
      st_metric "Optimism Daily Users" "50,000"], Returns tt) /\
  In (st_metric "Arbitrum TVL" "$1.00B") (fst (main scenario_world only_ids)) /\
  In (st_metric "Arbitrum Daily Users" "50,000") (fst (main scenario_world only_ids)) /\
  snd (main scenario_world only_ids) = Returns tt /\
  (forall df rs r, rows df = (rs ++ [r])%list -> iloc_last df = Returns (upcast r)) /\
  (forall arb_rows op_rows : list (list cell),
     key_metrics
       (mk_frame (columns scenario_full_df) (arb_rows ++ rows scenario_full_df))
       (mk_frame (columns scenario_full_df) (op_rows ++ rows scenario_full_df))
     = ([st_header "At-a-Glance (Latest Data)";
         st_metric "Arbitrum TVL" "$1.00B";
         st_metric "Optimism TVL" "$1.00B";
         st_metric "Arbitrum Daily Users" "50,000";
         st_metric "Optimism Daily Users" "50,000"], Returns tt)).
Proof.
  split.
  { do 2 eexists. repeat split; vm_compute; reflexivity. }
  split; [reflexivity|].
  split; [vm_compute; reflexivity|].
  split; [vm_compute; tauto|].
  split; [vm_compute; tauto|].
  split; [vm_compute; reflexivity|].
  split; [exact iloc_last_spec|].
  intros arb_rows op_rows. unfold key_metrics.
  pose (latest := [CDate 19675; CInt 1000000000; CInt 50000; CInt 200000;
                   CFloat 0x1.6666666666666p-2%float]).
  rewrite (iloc_last_dated
             (mk_frame (columns scenario_full_df) (arb_rows ++ rows scenario_full_df))
             arb_rows latest 19675 eq_refl eq_refl).
  rewrite (iloc_last_dated
             (mk_frame (columns scenario_full_df) (op_rows ++ rows scenario_full_df))
             op_rows latest 19675 eq_refl eq_refl).
  vm_compute. reflexivity.
Qed.

Lemma scenario_latest_tiles_witness :
  rows scenario_full_df
  = ([] ++ [[CDate 19675; CInt 1000000000; CInt 50000; CInt 200000;
             CFloat 0x1.6666666666666p-2%float]])%list /\
  iloc_last scenario_full_df
  = Returns [CDate 19675; CInt 1000000000; CInt 50000; CInt 200000;
             CFloat 0x1.6666666666666p-2%float] /\
  key_metrics
    (mk_frame ["date"; "tvl_usd"; "daily_active_users"; "transaction_count"; "avg_gas_fee_usd"]
       [[CDate 19674; CInt 2500000000; CInt 51000; CInt 210000; CFloat 0.5%float];
        [CDate 19675; CInt 1000000000; CInt 50000; CInt 200000;
         CFloat 0x1.6666666666666p-2%float]])
    scenario_full_df
  = ([st_header "At-a-Glance (Latest Data)";
      st_metric "Arbitrum TVL" "$1.00B";
      st_metric "Optimism TVL" "$1.00B";
      st_metric "Arbitrum Daily Users" "50,000";
      st_metric "Optimism Daily Users" "50,000"], Returns tt).
Proof.
  split; [reflexivity|].
  destruct scenario_latest_tiles as [_ [_ [_ [_ [_ [_ [Hlast Htiles]]]]]]].
  split; [exact (Hlast scenario_full_df [] _ eq_refl)|].
  exact (Htiles [[CDate 19674; CInt 2500000000; CInt 51000; CInt 210000; CFloat 0.5%float]]
                []).
Defined.

(** ** The correlation *)

Lemma gas_corr_cases (w : World) (df : DataFrame) :
  (exists x, gas_corr w df = Returns x) \/ (exists e, gas_corr w df = Raises e).
Proof.
  unfold gas_corr, getitem.
  destruct (has_column "avg_gas_fee_usd" df); [|right; eexists; reflexivity].
  destruct (has_column "transaction_count" df); [|right; eexists; reflexivity].
  cbn [bind]. destruct (series_corr w _ _); [left | right]; eexists; reflexivity.
Qed.

Lemma correlation_values (w : World) (arb op : DataFrame) (x y : float) :
  gas_corr w arb = Returns x -> gas_corr w op = Returns y ->
  correlation_analysis w arb op
  = ([st_header "Correlation Analysis";
      st_metric "Arbitrum: Gas Fee vs. Tx Count Corr." (format_2f x);
      st_metric "Optimism: Gas Fee vs. Tx Count Corr." (format_2f y)], Returns tt).
Proof.
  intros Hx Hy. unfold correlation_analysis. now rewrite Hx, Hy.
Qed.

Lemma correlation_raises (w : World) (arb op : DataFrame) (e : exn) :
  gas_corr w arb = Raises e \/ (exists x, gas_corr w arb = Returns x /\ gas_corr w op = Raises e) ->
  correlation_analysis w arb op
  = ([st_header "Correlation Analysis";
      st_warning ("Could not calculate correlation: " ++ exn_str e)], Returns tt).
Proof.
  unfold correlation_analysis. intros [H | [x [Hx H]]].
  - rewrite H. unfold try_except, seq, emit, lift. cbn [fst snd].
    now rewrite isinstance_Exception.
  - rewrite Hx, H. unfold try_except, seq, emit, lift. cbn [fst snd].
    now rewrite isinstance_Exception.
Qed.

(** Doubles: a zero or NaN stays one under the sums and products of
    numpy's formula, and its quotient by another is NaN. *)
Lemma zero_or_nan_mul (a b : float) : zero_or_nan a -> zero_or_nan (a * b)%float.
Proof.
  unfold zero_or_nan. rewrite mul_spec. unfold SF64mul, SFmul.
  destruct (Prim2SF a), (Prim2SF b); simpl; tauto.
Qed.

Lemma zero_or_nan_add (a b : float) :
  zero_or_nan a -> zero_or_nan b -> zero_or_nan (a + b)%float.
Proof.
  unfold zero_or_nan. rewrite add_spec. unfold SF64add, SFadd.
  destruct (Prim2SF a) as [s| | |], (Prim2SF b) as [s'| | |]; simpl; try tauto.
  destruct s, s'; tauto.
Qed.

Lemma zero_or_nan_sqrt (a : float) : zero_or_nan a -> zero_or_nan (PrimFloat.sqrt a).
Proof.
  unfold zero_or_nan. rewrite sqrt_spec. unfold SF64sqrt, SFsqrt.
  destruct (Prim2SF a); simpl; tauto.
Qed.

Lemma zero_or_nan_div (a b : float) :
  zero_or_nan a -> zero_or_nan b -> (a / b)%float = nan.
Proof.
  unfold zero_or_nan. intros Ha Hb. apply Prim2SF_inj. rewrite div_spec.
  unfold SF64div, SFdiv. destruct (Prim2SF a), (Prim2SF b); simpl; tauto || reflexivity.
Qed.

Lemma nan_div (b : float) : (nan / b)%float = nan.
Proof.
  apply Prim2SF_inj. rewrite div_spec. unfold SF64div, SFdiv.
  change (Prim2SF nan) with S754_nan. reflexivity.
Qed.

Lemma nan_ltb_l (b : float) : (nan <? b)%float = false.
Proof. rewrite ltb_spec. reflexivity. Qed.

Lemma nan_ltb_r (a : float) : (a <? nan)%float = false.
Proof.
  rewrite ltb_spec. change (Prim2SF nan) with S754_nan. unfold SFltb, SFcompare.
  destruct (Prim2SF a); reflexivity.
Qed.

Lemma eqb_zero (a : float) : (a =? 0)%float = true -> zero_or_nan a.
Proof.
  unfold zero_or_nan. rewrite eqb_spec. change (Prim2SF 0) with (S754_zero false).
  unfold SFeqb, SFcompare. destruct (Prim2SF a) as [s|s| |s m e]; try discriminate; trivial.
  - destruct s; discriminate.
  - destruct s; discriminate.
Qed.

Lemma sub_diag (c : float) : finite c = true -> (c - c)%float = 0%float.
Proof.
  unfold finite. intros H. apply Prim2SF_inj. rewrite sub_spec.
  unfold SF64sub, SFsub. destruct (Prim2SF c) as [s| | |s m e]; try discriminate.
  - destruct s; reflexivity.
  - rewrite Z.sub_diag. reflexivity.
Qed.

Lemma fold_add_zero_or_nan (l : list float) (acc : float) :
  Forall zero_or_nan l -> zero_or_nan acc -> zero_or_nan (fold_left PrimFloat.add l acc).
Proof.
  intros H. revert acc. induction H as [|v l Hv _ IH]; intros acc Hacc; simpl;
    [assumption|].
  apply IH. now apply zero_or_nan_add.
Qed.

Lemma dot_zero_or_nan (a b : list float) :
  Forall zero_or_nan a ->
  zero_or_nan (fsum (map (fun p => (fst p * snd p)%float) (combine a b))).
Proof.
  intros H. unfold fsum. apply fold_add_zero_or_nan; [|exact I].
  revert b. induction H as [|v a Hv _ IH]; intros [|y b]; simpl; constructor.
  - now apply zero_or_nan_mul.
  - apply IH.
Qed.

(** The correlation of a column without spread with any other is NaN. *)
Lemma corrcoef_no_spread (x y : list float) : no_spread x = true -> corrcoef x y = nan.
Proof.
  unfold no_spread. intros H.
  assert (Hdx : Forall zero_or_nan (map (fun v => (v - fmean x)%float) x)).
  { rewrite forallb_forall in H. apply Forall_forall. intros d Hd.
    apply in_map_iff in Hd. destruct Hd as [v [<- Hv]]. apply eqb_zero. now apply H. }
  unfold corrcoef. cbv zeta.
  set (dx := map (fun v => (v - fmean x)%float) x) in *.
  set (dy := map (fun v => (v - fmean y)%float) y).
  set (scale := (1 / (float_of_int64 (Z.of_nat (List.length x)) - 1))%float).
  assert (Hq : (fsum (map (fun p => (fst p * snd p)%float) (combine dx dy)) * scale
                / PrimFloat.sqrt
                    (fsum (map (fun p => (fst p * snd p)%float) (combine dx dx)) * scale)
               )%float = nan).
  { apply zero_or_nan_div.
    - apply zero_or_nan_mul. now apply dot_zero_or_nan.
    - apply zero_or_nan_sqrt. apply zero_or_nan_mul. now apply dot_zero_or_nan. }
  rewrite Hq, nan_div, nan_ltb_l, nan_ltb_r. reflexivity.
Qed.

(** A constant column has no spread when the mean computed for it is the
    constant. *)
Lemma constant_no_spread (c : float) (n : nat) :
  finite c = true -> fmean (repeat c n) = c -> no_spread (repeat c n) = true.
Proof.
  intros Hc Hmean. unfold no_spread. rewrite Hmean. apply forallb_forall.
  intros v Hv. apply repeat_spec in Hv. subst v. now rewrite sub_diag.
Qed.

(** C8, as the code has it.  The section never raises: when the
    computation raises (a missing column, an error of pandas) the exception
    is caught and shown as the warning, and otherwise the two tiles show
    the two numbers.  A column without spread raises nothing, so nothing is
    caught and there is no warning: with numpy's formula its correlation is
    NaN, and the tile shows "nan".  A constant column is without spread
    when the mean computed for it is the constant, as it is for 0.5; it is
    not for three days of 0.1, whose tile shows "0.00".  Either way the
    dashboard goes on to the raw data. *)
Theorem correlation_never_aborts (w : World) (arbitrum_full_df optimism_full_df : DataFrame) :
  (exists evs, correlation_analysis w arbitrum_full_df optimism_full_df = (evs, Returns tt)) /\
  (forall x y,
     gas_corr w arbitrum_full_df = Returns x -> gas_corr w optimism_full_df = Returns y ->
     correlation_analysis w arbitrum_full_df optimism_full_df
     = ([st_header "Correlation Analysis";
         st_metric "Arbitrum: Gas Fee vs. Tx Count Corr." (format_2f x);
         st_metric "Optimism: Gas Fee vs. Tx Count Corr." (format_2f y)], Returns tt)) /\
  format_2f nan = "nan" /\
  (forall e,
     gas_corr w arbitrum_full_df = Raises e \/
     (exists x, gas_corr w arbitrum_full_df = Returns x /\
                gas_corr w optimism_full_df = Raises e) ->
     correlation_analysis w arbitrum_full_df optimism_full_df
     = ([st_header "Correlation Analysis";
         st_warning ("Could not calculate correlation: " ++ exn_str e)], Returns tt)) /\
  ((forall a b, series_corr w a b = numpy_corr a b) ->
   forall df,
     has_column "avg_gas_fee_usd" df = true -> has_column "transaction_count" df = true ->
     no_spread (map to_float (col_values df "avg_gas_fee_usd")) = true ->
     gas_corr w df = Returns nan) /\
  (forall c n, finite c = true -> fmean (repeat c n) = c -> no_spread (repeat c n) = true) /\
  (exists x, gas_corr scenario_world tenth_gas_df = Returns x /\
             (x =? x)%float = true /\ format_2f x = "0.00" /\
             no_spread (map to_float (col_values tenth_gas_df "avg_gas_fee_usd")) = false) /\
  (forall key_metrics_events visualizations_events,
     empty arbitrum_full_df = false -> empty optimism_full_df = false ->
     key_metrics arbitrum_full_df optimism_full_df = (key_metrics_events, Returns tt) ->
     visualizations arbitrum_full_df optimism_full_df = (visualizations_events, Returns tt) ->
     dashboard w arbitrum_full_df optimism_full_df
     = ((st_success "All data loaded and merged successfully!"
         :: key_metrics_events ++ visualizations_events
         ++ fst (correlation_analysis w arbitrum_full_df optimism_full_df)
         ++ fst (raw_data arbitrum_full_df optimism_full_df))%list, Returns tt)).
Proof.
  assert (Hends : exists evs,
            correlation_analysis w arbitrum_full_df optimism_full_df = (evs, Returns tt)).
  { destruct (gas_corr_cases w arbitrum_full_df) as [[x Hx] | [e He]].
    - destruct (gas_corr_cases w optimism_full_df) as [[y Hy] | [e He]].
      + eexists. exact (correlation_values w _ _ x y Hx Hy).
      + eexists. apply (correlation_raises w _ _ e). right. now exists x.
    - eexists. apply (correlation_raises w _ _ e). now left. }
  split; [exact Hends|].
  split; [intros x y; apply correlation_values|].
  split; [vm_compute; reflexivity|].
  split; [intros e; apply correlation_raises|].
  split.
  { intros Hnumpy df Hgas Htx Hflat. unfold gas_corr, getitem. rewrite Hgas, Htx.
    cbn [bind]. rewrite Hnumpy. unfold numpy_corr. cbn [of_answer]. f_equal.
    now apply corrcoef_no_spread. }
  split; [exact constant_no_spread|].
  split.
  { eexists. split; [vm_compute; reflexivity|]. repeat split; vm_compute; reflexivity. }
  intros e1 e2 Ha Ho Hk Hv. destruct Hends as [evs Hc].
  unfold dashboard. rewrite Ha, Ho. cbn [orb]. rewrite Hk, Hv, Hc.
  unfold raw_data, seq, emit. cbn [fst snd app]. reflexivity.
Qed.

Lemma correlation_never_aborts_witness :
  gas_corr scenario_world constant_gas_df = Returns nan /\
  correlation_analysis scenario_world constant_gas_df constant_gas_df
  = ([st_header "Correlation Analysis";
      st_metric "Arbitrum: Gas Fee vs. Tx Count Corr." (format_2f nan);
      st_metric "Optimism: Gas Fee vs. Tx Count Corr." (format_2f nan)], Returns tt) /\
  correlation_analysis timeout_world scenario_full_df scenario_full_df
  = ([st_header "Correlation Analysis";
      st_warning "Could not calculate correlation: timeout"], Returns tt) /\
  no_spread (repeat 0.5%float 3) = true /\
  snd (dashboard scenario_world constant_gas_df constant_gas_df) = Returns tt.
Proof.
  pose proof (correlation_never_aborts scenario_world constant_gas_df constant_gas_df)
    as [_ [Hvalues [_ [_ [Hflat [Hconstant [_ Hgoes_on]]]]]]].
  pose proof (correlation_never_aborts timeout_world scenario_full_df scenario_full_df)
    as [_ [_ [_ [Hraises _]]]].
  assert (Hnan : gas_corr scenario_world constant_gas_df = Returns nan).
  { exact (Hflat (fun a b => eq_refl) constant_gas_df eq_refl eq_refl eq_refl). }
  split; [exact Hnan|].
  split; [exact (Hvalues nan nan Hnan Hnan)|].
  split; [exact (Hraises (mk_exn DuneError "timeout") (or_introl eq_refl))|].
  split; [exact (Hconstant 0.5%float 3%nat eq_refl eq_refl)|].
  rewrite (Hgoes_on _ _ eq_refl eq_refl eq_refl eq_refl). reflexivity.
Defined.

(** A constant gas fee against a varying count: the correlation is NaN, the
    two tiles show "nan", and no warning is shown. *)
Lemma constant_gas_fee_shows_nan :
  gas_corr scenario_world constant_gas_df = Returns nan /\
  correlation_analysis scenario_world constant_gas_df constant_gas_df
  = ([st_header "Correlation Analysis";
      st_metric "Arbitrum: Gas Fee vs. Tx Count Corr." "nan";
      st_metric "Optimism: Gas Fee vs. Tx Count Corr." "nan"], Returns tt) /\
  existsb (fun ev => match ev with st_warning _ => true | _ => false end)
          (fst (correlation_analysis scenario_world constant_gas_df constant_gas_df)) = false.
Proof. vm_compute. repeat split. Qed.

(* ================================================================== *)
(** * More of the script                                               *)
(* ================================================================== *)

(** ** How a run ends *)

Lemma seq_snd {A B : Type} (m : Script A) (k : A -> Script B) :
  snd (seq m k) = bind (snd m) (fun a => snd (k a)).
Proof. destruct m as [l [a|e|]]; simpl; try reflexivity. now destruct (k a). Qed.

Lemma seq_fst {A B : Type} (m : Script A) (k : A -> Script B) :
  fst (seq m k)
  = (fst m ++ match snd m with Returns a => fst (k a) | _ => [] end)%list.
Proof.
  destruct m as [l [a|e|]]; simpl; try (now rewrite app_nil_r). now destruct (k a).
Qed.

Lemma try_snd {A : Type} (m : Script A) (cls : exn_class) (h : exn -> Script A) :
  snd (try_except m cls h)
  = match snd m with
    | Raises e => if isinstance e cls then snd (h e) else Raises e
    | o => o
    end.
Proof.
  destruct m as [l [a|e|]]; simpl; try reflexivity.
  destruct (isinstance e cls); [now destruct (h e) | reflexivity].
Qed.

Lemma try_fst {A : Type} (m : Script A) (cls : exn_class) (h : exn -> Script A) :
  fst (try_except m cls h)
  = (fst m ++ match snd m with
              | Raises e => if isinstance e cls then fst (h e) else []
              | _ => []
              end)%list.
Proof.
  destruct m as [l [a|e|]]; simpl; try (now rewrite app_nil_r).
  destruct (isinstance e cls); [now destruct (h e) | now rewrite app_nil_r].
Qed.

(** X1.  No error of [requests] leaves [fetch_defi_llama_tvl]: what it
    raises, if anything, is not a [RequestException]. *)
Theorem fetch_tvl_lets_no_request_exception_out (w : World) (chain_slug : string) (e : exn) :
  snd (fetch_defi_llama_tvl w chain_slug) = Raises e ->
  isinstance e RequestException = false.
Proof.
  unfold fetch_defi_llama_tvl. rewrite try_snd.
  destruct (snd _) as [df|e0|]; try discriminate.
  destruct (isinstance e0 RequestException) eqn:I; [discriminate|].
  intros H. inversion H. now subst.
Qed.

Lemma fetch_tvl_lets_no_request_exception_out_witness :
  snd (fetch_defi_llama_tvl (provider (JsonRecords [])) "arbitrum")
  = Raises (mk_exn KeyError "'date'") /\
  isinstance (mk_exn KeyError "'date'") RequestException = false.
Proof.
  split; [reflexivity|].
  exact (fetch_tvl_lets_no_request_exception_out (provider (JsonRecords [])) "arbitrum"
           (mk_exn KeyError "'date'") eq_refl).
Defined.

(** X3.  Whatever goes wrong inside [query_dune_api_by_id] (the backend,
    the reading of the dates) comes out as an [Exception] whose text is
    [Dune API error for query ID <id>: <the error's text>]. *)
Theorem by_id_raises_only_wrapped
    (w : World) (client : option string) (query_id : Z) (e : exn) :
  snd (query_dune_api_by_id w client query_id) = Raises e ->
  exists cause, e = mk_exn Exception (by_id_error_text query_id (exn_str cause)).
Proof.
  unfold query_dune_api_by_id. destruct client as [key|]; [|discriminate].
  rewrite try_snd. destruct (snd _) as [df|cause|]; try discriminate.
  rewrite isinstance_Exception. simpl. intros H. inversion H. now exists cause.
Qed.

Lemma by_id_raises_only_wrapped_witness :
  snd (query_dune_api_by_id timeout_world (Some "key") 12345)
  = Raises (mk_exn Exception "Dune API error for query ID 12345: timeout") /\
  exists cause,
    mk_exn Exception "Dune API error for query ID 12345: timeout"
    = mk_exn Exception (by_id_error_text 12345 (exn_str cause)).
Proof.
  split; [reflexivity|].
  exact (by_id_raises_only_wrapped timeout_world (Some "key") 12345 _ eq_refl).
Defined.

(** X4.  What [query_dune_api_by_sql] raises is an [Exception] with one of
    two texts: the remediation text, or [Dune API error for <name>: <msg>]
    with a message that mentions neither a paid plan nor an upgrade. *)
Theorem by_sql_raises_only_wrapped
    (w : World) (client : option string) (query_name sql : string) (e : exn) :
  snd (query_dune_api_by_sql w client query_name sql) = Raises e ->
  e = mk_exn Exception paid_plan_message \/
  exists error_msg, insufficient_tier error_msg = false /\
                    e = mk_exn Exception (by_sql_error_text query_name error_msg).
Proof.
  unfold query_dune_api_by_sql. destruct client as [key|]; [|discriminate].
  rewrite try_snd. destruct (snd _) as [df|cause|]; try discriminate.
  rewrite isinstance_Exception.
  change (contains "paid plan" (lower (exn_str cause))
          || contains "upgrade" (lower (exn_str cause)))
    with (insufficient_tier (exn_str cause)).
  destruct (insufficient_tier (exn_str cause)) eqn:T; simpl; intros H; inversion H.
  - now left.
  - right. now exists (exn_str cause).
Qed.

Lemma by_sql_raises_only_wrapped_witness :
  snd (query_dune_api_by_sql paid_plan_world (Some "key") "arbitrum" ARBITRUM_SQL_QUERY)
  = Raises (mk_exn Exception paid_plan_message) /\
  (mk_exn Exception paid_plan_message = mk_exn Exception paid_plan_message \/
   exists error_msg, insufficient_tier error_msg = false /\
     mk_exn Exception paid_plan_message
     = mk_exn Exception (by_sql_error_text "arbitrum" error_msg)).
Proof.
  split; [reflexivity|].
  exact (by_sql_raises_only_wrapped paid_plan_world (Some "key") "arbitrum"
           ARBITRUM_SQL_QUERY _ eq_refl).
Defined.

(** X7.  No exception leaves the block that loads a chain's Dune data,
    whatever the environment holds and the backend does: what is raised
    inside the [try] is caught by [except Exception]. *)
Theorem load_dune_never_raises
    (w : World) (client : option string) (slug Name VAR : string)
    (QUERY_ID : option string) (SQL : string) :
  raises (snd (load_dune w client slug Name VAR QUERY_ID SQL)) = false.
Proof.
  unfold load_dune. rewrite seq_snd. cbn [snd emit bind]. rewrite try_snd.
  destruct (snd _) as [df|e0|]; [reflexivity | | reflexivity].
  rewrite isinstance_Exception. rewrite seq_snd. reflexivity.
Qed.

(** X8.  A query id that is not a number (here: plain characters without
    a digit) is reported as invalid and the chain goes on with an empty
    frame: the backend is not called, and the warning of an empty result
    follows the error. *)
Theorem load_dune_invalid_query_id
    (w : World) (client : option string) (slug Name VAR id SQL : string) :
  id <> "" -> all_chars plain id = true ->
  load_dune w client slug Name VAR (Some id) SQL
  = ([st_toast ("Executing Dune query for " ++ slug ++ "...");
      st_error ("Invalid " ++ VAR ++ ": " ++ id ++ ". Must be a number.");
      st_warning (Name ++ " Dune query returned no data. This may be normal if the query is still executing.")],
     Returns pd_DataFrame).
Proof.
  intros Hne Hplain.
  assert (Hlit : int_literal id = None).
  { destruct id as [|c r]; [now elim Hne|].
    assert (Hd : forall s acc, all_chars plain s = true -> s <> "" -> digits_value acc s = None).
    { intros [|c0 r0] acc Hp Hs; [now elim Hs|]. simpl in *.
      apply andb_prop in Hp. destruct Hp as [Hc _]. unfold plain in Hc.
      destruct (is_digit c0); [|reflexivity].
      rewrite !andb_false_r in Hc. simpl in Hc.
      repeat rewrite ?andb_false_r, ?andb_false_l in Hc. discriminate. }
    pose proof (Hd (String c r) 0 Hplain Hne) as H0.
    cbn [all_chars] in Hplain. apply andb_prop in Hplain. destruct Hplain as [Hc Hr].
    unfold int_literal.
    destruct r as [|c' r'].
    - destruct c as [[] [] [] [] [] [] [] []]; exact H0.
    - assert (H1 : digits_value 0 (String c' r') = None) by (apply Hd; [exact Hr | discriminate]).
      destruct c as [[] [] [] [] [] [] [] []]; try exact H0; rewrite H1; reflexivity. }
  unfold load_dune, int_of_str. rewrite Hlit, Hplain.
  assert (Ht : truthy (Some id) = true) by (destruct id; [now elim Hne | reflexivity]).
  rewrite Ht. reflexivity.
Qed.

Lemma load_dune_invalid_query_id_witness :
  ARBITRUM_QUERY_ID bad_id = Some "abc" /\
  load_dune timeout_world (dune_client bad_id) "arbitrum" "Arbitrum" "ARBITRUM_QUERY_ID"
            (Some "abc") ARBITRUM_SQL_QUERY
  = ([st_toast "Executing Dune query for arbitrum...";
      st_error "Invalid ARBITRUM_QUERY_ID: abc. Must be a number.";
      st_warning "Arbitrum Dune query returned no data. This may be normal if the query is still executing."],
     Returns pd_DataFrame).
Proof.
  split; [reflexivity|].
  exact (load_dune_invalid_query_id timeout_world (dune_client bad_id) "arbitrum" "Arbitrum"
           "ARBITRUM_QUERY_ID" "abc" ARBITRUM_SQL_QUERY ltac:(discriminate) eq_refl).
Defined.

(** X6.  When the object [run_sql] returns has a truthy [result] that has
    neither [rows] nor [data.rows], the function does not look at
    [get_rows()] or [rows]: it returns the empty frame, and raises
    nothing. *)
Theorem by_sql_ignores_other_rows_under_result
    (w : World) (key query_name sql : string) (result : ResultsResponse) :
  run_sql w sql query_name = Value result ->
  r_result result = Some (Some (mk_execution_result None None)) ->
  query_dune_api_by_sql w (Some key) query_name sql
  = ([RunSql sql query_name], Returns pd_DataFrame).
Proof.
  intros Hrun Hres. unfold query_dune_api_by_sql.
  rewrite seq_emit, Hrun. cbn [of_answer]. rewrite seq_returns.
  unfold extract_rows. rewrite Hres. reflexivity.
Qed.

Lemma by_sql_ignores_other_rows_under_result_witness :
  r_get_rows bare_result
  = Some (Value [[("date", CStr "2023-11-14"); ("daily_active_users", CInt 1)]]) /\
  query_dune_api_by_sql bare_result_world (Some "key") "arbitrum" ARBITRUM_SQL_QUERY
  = ([RunSql ARBITRUM_SQL_QUERY "arbitrum"], Returns pd_DataFrame).
Proof.
  split; [reflexivity|].
  exact (by_sql_ignores_other_rows_under_result bare_result_world "key" "arbitrum"
           ARBITRUM_SQL_QUERY bare_result eq_refl eq_refl).
Defined.

(** ** Calls to the outside *)

Lemma calls_ret {A : Type} (a : A) : calls_at_most 0 (ret a).
Proof. unfold calls_at_most. simpl. lia. Qed.

Lemma calls_lift {A : Type} (o : outcome A) : calls_at_most 0 (lift o).
Proof. unfold calls_at_most. simpl. lia. Qed.

Lemma calls_raise {A : Type} (e : exn) : calls_at_most 0 (@raise A e).
Proof. unfold calls_at_most. simpl. lia. Qed.

Lemma calls_emit (ev : event) : is_call ev = false -> calls_at_most 0 (emit ev).
Proof. unfold calls_at_most. simpl. intros ->. simpl. lia. Qed.

Lemma calls_emit_one (ev : event) : calls_at_most 1 (emit ev).
Proof. unfold calls_at_most. simpl. destruct (is_call ev); simpl; lia. Qed.

Lemma calls_le {A : Type} (n n' : nat) (m : Script A) :
  (n <= n')%nat -> calls_at_most n m -> calls_at_most n' m.
Proof. unfold calls_at_most. lia. Qed.

Lemma calls_seq {A B : Type} (a b : nat) (m : Script A) (k : A -> Script B) :
  calls_at_most a m -> (forall x, calls_at_most b (k x)) ->
  calls_at_most (a + b) (seq m k).
Proof.
  unfold calls_at_most. intros Hm Hk. rewrite seq_fst, filter_app, length_app.
  destruct (snd m) as [x| |]; [specialize (Hk x) | simpl | simpl]; lia.
Qed.

Lemma calls_try {A : Type} (a b : nat) (m : Script A) (cls : exn_class) (h : exn -> Script A) :
  calls_at_most a m -> (forall e, calls_at_most b (h e)) ->
  calls_at_most (a + b) (try_except m cls h).
Proof.
  unfold calls_at_most. intros Hm Hh. rewrite try_fst, filter_app, length_app.
  destruct (snd m) as [x|e|]; simpl; try lia.
  destruct (isinstance e cls); [specialize (Hh e) | simpl]; lia.
Qed.

Ltac calls_0 :=
  repeat first
    [ apply calls_ret | apply calls_lift | apply calls_raise
    | apply calls_emit; reflexivity
    | apply (calls_seq 0 0); [|intros ?]
    | apply (calls_try 0 0); [|intros ?]
    | match goal with
      | |- calls_at_most _ (if ?b then _ else _) => destruct b
      | |- calls_at_most _ (match ?x with _ => _ end) => destruct x
      end ].

Lemma calls_fetch (w : World) (chain_slug : string) :
  calls_at_most 1 (fetch_defi_llama_tvl w chain_slug).
Proof.
  unfold fetch_defi_llama_tvl. apply (calls_try 1 0); [|intros e; calls_0].
  apply (calls_seq 1 0); [apply calls_emit_one | intros _]. calls_0.
Qed.

Lemma calls_by_id (w : World) (client : option string) (query_id : Z) :
  calls_at_most 1 (query_dune_api_by_id w client query_id).
Proof.
  unfold query_dune_api_by_id. destruct client as [key|].
  - apply (calls_try 1 0); [|intros e; calls_0].
    apply (calls_seq 1 0); [apply calls_emit_one | intros _]. calls_0.
  - apply (calls_le 0); [lia | apply calls_ret].
Qed.

Lemma calls_by_sql (w : World) (client : option string) (query_name sql : string) :
  calls_at_most 1 (query_dune_api_by_sql w client query_name sql).
Proof.
  unfold query_dune_api_by_sql. destruct client as [key|].
  - apply (calls_try 1 0); [|intros e; calls_0].
    apply (calls_seq 1 0); [apply calls_emit_one | intros _]. calls_0.
  - apply (calls_le 0); [lia | apply calls_ret].
Qed.

Lemma calls_load_tvl (w : World) (slug Name : string) :
  calls_at_most 1 (load_tvl w slug Name).
Proof.
  unfold load_tvl. apply (calls_seq 0 1); [apply calls_emit; reflexivity | intros _].
  apply (calls_seq 1 0); [apply calls_fetch | intros df]. calls_0.
Qed.

Lemma calls_load_dune (w : World) (client : option string)
    (slug Name VAR : string) (QUERY_ID : option string) (SQL : string) :
  calls_at_most 1 (load_dune w client slug Name VAR QUERY_ID SQL).
Proof.
  unfold load_dune. apply (calls_seq 0 1); [apply calls_emit; reflexivity | intros _].
  apply (calls_try 1 0); [|intros e; calls_0].
  apply (calls_seq 1 0); [|intros df; calls_0].
  destruct (truthy QUERY_ID).
  - apply (calls_try 1 0); [|intros e; calls_0].
    apply (calls_seq 0 1); [apply calls_lift | intros id; apply calls_by_id].
  - apply (calls_seq 0 1); [apply calls_emit; reflexivity | intros _].
    apply (calls_try 1 0); [apply calls_by_sql | intros e; calls_0].
Qed.

Lemma calls_dashboard (w : World) (arb op : DataFrame) : calls_at_most 0 (dashboard w arb op).
Proof.
  unfold dashboard, key_metrics, visualizations, chart, correlation_analysis, raw_data.
  calls_0.
Qed.

(** X16.  No retry anywhere: a run of the whole script makes at most four
    calls to the outside (a GET and a query per chain), and each loading
    block at most one. *)
Theorem main_makes_at_most_four_calls (w : World) (env : Env) :
  calls_at_most 4 (main w env) /\
  (forall slug Name, calls_at_most 1 (load_tvl w slug Name)) /\
  (forall client slug Name VAR QUERY_ID SQL,
     calls_at_most 1 (load_dune w client slug Name VAR QUERY_ID SQL)).
Proof.
  split; [|split; [intros; apply calls_load_tvl | intros; apply calls_load_dune]].
  unfold main. apply (calls_seq 4 0); [|intros full; apply calls_dashboard].
  unfold load_and_merge.
  apply (calls_seq 0 4); [apply calls_emit; reflexivity | intros _].
  apply (calls_seq 0 4); [calls_0 | intros _].
  apply (calls_seq 0 4); [apply calls_emit; reflexivity | intros _].
  apply (calls_seq 0 4); [calls_0 | intros _].
  apply (calls_seq 1 3); [apply calls_load_tvl | intros tvlA].
  apply (calls_seq 1 2); [apply calls_load_tvl | intros tvlO].
  apply (calls_seq 1 1); [apply calls_load_dune | intros duneA].
  apply (calls_seq 1 0); [apply calls_load_dune | intros duneO].
  calls_0.
Qed.

(** ** The script down to the gate *)

Lemma load_and_merge_snd (w : World) (env : Env) :
  snd (load_and_merge w env)
  = bind (snd (load_tvl w "arbitrum" "Arbitrum")) (fun arbitrum_tvl_df =>
    bind (snd (load_tvl w "optimism" "Optimism")) (fun optimism_tvl_df =>
    bind (snd (load_dune w (dune_client env) "arbitrum" "Arbitrum" "ARBITRUM_QUERY_ID"
                         (ARBITRUM_QUERY_ID env) ARBITRUM_SQL_QUERY)) (fun arbitrum_dune_df =>
    bind (snd (load_dune w (dune_client env) "optimism" "Optimism" "OPTIMISM_QUERY_ID"
                         (OPTIMISM_QUERY_ID env) OPTIMISM_SQL_QUERY)) (fun optimism_dune_df =>
    bind (merge_data arbitrum_tvl_df arbitrum_dune_df) (fun arbitrum_full_df =>
    bind (merge_data optimism_tvl_df optimism_dune_df) (fun optimism_full_df =>
    Returns (arbitrum_full_df, optimism_full_df))))))).
Proof.
  unfold load_and_merge.
  destruct (truthy (DUNE_API_KEY env));
    destruct (negb (truthy (ARBITRUM_QUERY_ID env)) || negb (truthy (OPTIMISM_QUERY_ID env)));
    repeat (rewrite seq_snd; cbn [snd emit ret bind]).
  all: destruct (snd (load_tvl w "arbitrum" "Arbitrum")) as [tvlA| |]; cbn [bind];
    try reflexivity.
  all: rewrite seq_snd.
  all: destruct (snd (load_tvl w "optimism" "Optimism")) as [tvlO| |]; cbn [bind];
    try reflexivity.
  all: rewrite seq_snd.
  all: destruct (snd (load_dune w (dune_client env) "arbitrum" _ _ _ _)) as [dA| |];
    cbn [bind]; try reflexivity.
  all: rewrite seq_snd.
  all: destruct (snd (load_dune w (dune_client env) "optimism" _ _ _ _)) as [dO| |];
    cbn [bind]; try reflexivity.
  all: rewrite seq_snd; cbn [snd lift].
  all: destruct (merge_data tvlA dA) as [arb| |]; cbn [bind]; try reflexivity.
  all: rewrite seq_snd; cbn [snd lift].
  all: destruct (merge_data tvlO dO) as [op| |]; reflexivity.
Qed.

Lemma load_tvl_snd (w : World) (slug Name : string) :
  snd (load_tvl w slug Name) = snd (fetch_defi_llama_tvl w slug).
Proof.
  unfold load_tvl. rewrite seq_snd. cbn [snd emit bind]. rewrite seq_snd.
  destruct (snd (fetch_defi_llama_tvl w slug)) as [df| |]; cbn [bind]; try reflexivity.
  rewrite seq_snd. destruct (empty df); reflexivity.
Qed.

(** A run whose merged frames cannot both have rows shows no part of the
    dashboard, and when it ends normally its last word is the error of the
    gate. *)
Lemma main_blocked (w : World) (env : Env) :
  (forall arb op, snd (load_and_merge w env) = Returns (arb, op) ->
                  empty arb = true \/ empty op = true) ->
  quiet (main w env) /\
  (snd (main w env) = Returns tt ->
   exists before,
     fst (main w env)
     = (before ++ [st_error "Data merging failed. Check if all APIs returned data."])%list).
Proof.
  intros Hempty. pose proof (quiet_load_and_merge w env) as Hq. unfold main.
  destruct (load_and_merge w env) as [evs [[arb op]| |]] eqn:E; unfold seq.
  - cbn [fst snd] in *. rewrite (dashboard_gate w arb op (Hempty arb op eq_refl)).
    split; [|intros _; now exists evs].
    unfold quiet in *. cbn [fst] in *. apply Forall_app. split; [assumption|].
    constructor; [reflexivity | constructor].
  - split; [exact Hq | discriminate].
  - split; [exact Hq | discriminate].
Qed.

Lemma load_dune_without_client
    (w : World) (slug Name VAR : string) (QUERY_ID : option string) (SQL : string) :
  snd (load_dune w None slug Name VAR QUERY_ID SQL) = Returns pd_DataFrame \/
  snd (load_dune w None slug Name VAR QUERY_ID SQL) = Outside.
Proof.
  unfold load_dune, query_dune_api_by_id, query_dune_api_by_sql.
  destruct (truthy QUERY_ID).
  - destruct (int_of_str _) as [z|e|].
    + left. reflexivity.
    + left. unfold try_except, seq, emit, lift, ret, raise. cbn [fst snd].
      destruct (isinstance e ValueError); cbn; [reflexivity|].
      rewrite isinstance_Exception. reflexivity.
    + right. reflexivity.
  - left. reflexivity.
Qed.

Lemma merge_data_empty_left (tvl_df dune_df : DataFrame) :
  empty tvl_df = true -> merge_data tvl_df dune_df = Returns pd_DataFrame.
Proof. unfold merge_data. now intros ->. Qed.

Lemma merge_data_empty_right (tvl_df dune_df : DataFrame) :
  empty dune_df = true -> merge_data tvl_df dune_df = Returns pd_DataFrame.
Proof. unfold merge_data. intros ->. now rewrite orb_true_r. Qed.

(** X9.  Without an API key the page never shows the dashboard, whatever
    the provider and the query ids are: the error about the key comes
    first, no header, tile, chart or table is shown, and a run that ends
    normally ends with the error of the gate. *)
Theorem no_api_key_blocks_dashboard (w : World) (env : Env) :
  truthy (DUNE_API_KEY env) = false ->
  quiet (main w env) /\
  (snd (main w env) = Returns tt ->
   exists before,
     fst (main w env)
     = (before ++ [st_error "Data merging failed. Check if all APIs returned data."])%list) /\
  (exists rest,
     fst (main w env)
     = st_set_page_config "L2 Dashboard (Arbitrum vs. Optimism)"
       :: st_error "DUNE_API_KEY environment variable not set. Please set it in your deployment settings."
       :: st_title "L2 Showdown: Arbitrum vs. Optimism" :: rest).
Proof.
  intros Hkey.
  assert (Hclient : dune_client env = None) by (unfold dune_client; now rewrite Hkey).
  assert (Hblocked : forall arb op, snd (load_and_merge w env) = Returns (arb, op) ->
                                    empty arb = true \/ empty op = true).
  { intros arb op. rewrite load_and_merge_snd, Hclient.
    destruct (snd (load_tvl w "arbitrum" "Arbitrum")) as [tvlA| |]; try discriminate.
    destruct (snd (load_tvl w "optimism" "Optimism")) as [tvlO| |]; try discriminate.
    cbn [bind].
    destruct (load_dune_without_client w "arbitrum" "Arbitrum" "ARBITRUM_QUERY_ID"
                (ARBITRUM_QUERY_ID env) ARBITRUM_SQL_QUERY) as [-> | ->]; [|discriminate].
    destruct (load_dune_without_client w "optimism" "Optimism" "OPTIMISM_QUERY_ID"
                (OPTIMISM_QUERY_ID env) OPTIMISM_SQL_QUERY) as [-> | ->]; [|discriminate].
    cbn [bind]. rewrite !merge_data_empty_right by reflexivity. cbn [bind].
    intros H. inversion H. now left. }
  destruct (main_blocked w env Hblocked) as [Hq Hend].
  split; [exact Hq|]. split; [exact Hend|].
  unfold main. rewrite seq_fst. unfold load_and_merge.
  rewrite seq_fst. cbn [fst snd emit app]. rewrite seq_fst, Hkey. cbn [fst snd emit app].
  rewrite seq_fst. cbn [fst snd emit app]. eexists. reflexivity.
Qed.

Lemma no_api_key_blocks_dashboard_witness :
  truthy (DUNE_API_KEY no_key) = false /\
  quiet (main scenario_world no_key) /\
  snd (main scenario_world no_key) = Returns tt.
Proof.
  split; [reflexivity|].
  split; [exact (proj1 (no_api_key_blocks_dashboard scenario_world no_key eq_refl))
         | reflexivity].
Defined.

(** X10.  When the request for a chain's TVL fails inside [requests], the
    page never shows the dashboard, whatever Dune answers. *)
Theorem tvl_request_failure_blocks_dashboard (w : World) (env : Env) :
  request_failure (http_get w "https://api.llama.fi/charts/arbitrum") = true \/
  request_failure (http_get w "https://api.llama.fi/charts/optimism") = true ->
  quiet (main w env) /\
  (snd (main w env) = Returns tt ->
   exists before,
     fst (main w env)
     = (before ++ [st_error "Data merging failed. Check if all APIs returned data."])%list).
Proof.
  intros Hfail. apply main_blocked. intros arb op.
  rewrite load_and_merge_snd, !load_tvl_snd.
  destruct Hfail as [Hf | Hf].
  - pose proof (fetch_request_failure w "arbitrum" Hf) as Hfetch. cbn [append] in Hfetch.
    rewrite Hfetch. cbn [snd bind].
    destruct (snd (fetch_defi_llama_tvl w "optimism")) as [tvlO| |]; try discriminate.
    cbn [bind].
    destruct (snd (load_dune w (dune_client env) "arbitrum" _ _ _ _)) as [dA| |];
      try discriminate.
    cbn [bind].
    destruct (snd (load_dune w (dune_client env) "optimism" _ _ _ _)) as [dO| |];
      try discriminate.
    cbn [bind]. rewrite merge_data_empty_left by reflexivity. cbn [bind].
    destruct (merge_data tvlO dO) as [m| |]; try discriminate.
    intros H. inversion H. now left.
  - pose proof (fetch_request_failure w "optimism" Hf) as Hfetch. cbn [append] in Hfetch.
    destruct (snd (fetch_defi_llama_tvl w "arbitrum")) as [tvlA| |]; try discriminate.
    cbn [bind]. rewrite Hfetch. cbn [snd bind].
    destruct (snd (load_dune w (dune_client env) "arbitrum" _ _ _ _)) as [dA| |];
      try discriminate.
    cbn [bind].
    destruct (snd (load_dune w (dune_client env) "optimism" _ _ _ _)) as [dO| |];
      try discriminate.
    cbn [bind].
    destruct (merge_data tvlA dA) as [m| |]; try discriminate. cbn [bind].
    rewrite merge_data_empty_left by reflexivity. cbn [bind].
    intros H. inversion H. now right.
Qed.

Lemma tvl_request_failure_blocks_dashboard_witness :
  request_failure (http_get timeout_world "https://api.llama.fi/charts/arbitrum") = true /\
  quiet (main timeout_world only_ids).
Proof.
  split; [reflexivity|].
  exact (proj1 (tvl_request_failure_blocks_dashboard timeout_world only_ids
                  (or_introl eq_refl))).
Defined.

(** X13.  A Dune frame that has rows but no [date] column stops the
    script: against a TVL frame that has rows, [merge_data] raises
    [KeyError('date')], which nothing catches.  The run ends there,
    with neither the error of the gate nor any part of the dashboard. *)
Theorem dateless_query_result_stops_script
    (w : World) (env : Env) (tvlA tvlO duneA duneO : DataFrame) :
  snd (load_tvl w "arbitrum" "Arbitrum") = Returns tvlA ->
  snd (load_tvl w "optimism" "Optimism") = Returns tvlO ->
  snd (load_dune w (dune_client env) "arbitrum" "Arbitrum" "ARBITRUM_QUERY_ID"
                 (ARBITRUM_QUERY_ID env) ARBITRUM_SQL_QUERY) = Returns duneA ->
  snd (load_dune w (dune_client env) "optimism" "Optimism" "OPTIMISM_QUERY_ID"
                 (OPTIMISM_QUERY_ID env) OPTIMISM_SQL_QUERY) = Returns duneO ->
  empty tvlA = false -> empty duneA = false -> has_column "date" duneA = false ->
  merge_data tvlA duneA = Raises (mk_exn KeyError "'date'") /\
  snd (main w env) = Raises (mk_exn KeyError "'date'") /\
  fst (main w env) = fst (load_and_merge w env) /\
  quiet (main w env).
Proof.
  intros HtA HtO HdA HdO EtA EdA Hno.
  assert (Hmerge : merge_data tvlA duneA = Raises (mk_exn KeyError "'date'")).
  { unfold merge_data, merge. rewrite EtA, EdA, Hno. now rewrite andb_false_r. }
  assert (Hload : snd (load_and_merge w env) = Raises (mk_exn KeyError "'date'")).
  { rewrite load_and_merge_snd, HtA, HtO, HdA, HdO. cbn [bind]. now rewrite Hmerge. }
  pose proof (quiet_load_and_merge w env) as Hq.
  split; [exact Hmerge|]. unfold main.
  destruct (load_and_merge w env) as [evs o]. cbn [snd] in Hload. subst o.
  unfold seq. cbn [fst snd]. repeat split. exact Hq.
Qed.

Lemma dateless_query_result_stops_script_witness :
  has_column "date" dateless_df = false /\
  snd (main dateless_world only_ids) = Raises (mk_exn KeyError "'date'").
Proof.
  split; [reflexivity|].
  exact (proj1 (proj2 (dateless_query_result_stops_script dateless_world only_ids
                         scenario_tvl_df scenario_tvl_df dateless_df dateless_df
                         eq_refl eq_refl eq_refl eq_refl eq_refl eq_refl eq_refl))).
Defined.

(** ** Frames that come out of the fetching functions *)

Lemma traverse_length {X Y : Type} (f : X -> outcome Y) (l : list X) (l' : list Y) :
  traverse f l = Returns l' -> List.length l' = List.length l.
Proof.
  revert l'. induction l as [|x l IH]; simpl; intros l' H.
  - inversion H. reflexivity.
  - destruct (f x) as [y| |]; try discriminate. simpl in H.
    destruct (traverse f l) as [ys| |]; try discriminate. simpl in H.
    inversion H. simpl. now rewrite (IH ys).
Qed.

Lemma traverse_each {X Y : Type} (f : X -> outcome Y) (l : list X) (l' : list Y) :
  traverse f l = Returns l' -> forall x, In x l -> exists y, f x = Returns y.
Proof.
  revert l'. induction l as [|x0 l IH]; simpl; intros l' H x Hin; [destruct Hin|].
  destruct (f x0) as [y0| |] eqn:E; try discriminate. simpl in H.
  destruct (traverse f l) as [ys| |]; try discriminate.
  destruct Hin as [<- | Hin]; [now exists y0 | now apply (IH ys)].
Qed.

Lemma traverse_results {X Y : Type} (f : X -> outcome Y) (P : Y -> Prop)
    (l : list X) (l' : list Y) :
  (forall x y, f x = Returns y -> P y) -> traverse f l = Returns l' -> Forall P l'.
Proof.
  intros HP. revert l'. induction l as [|x l IH]; simpl; intros l' H.
  - inversion H. constructor.
  - destruct (f x) as [y| |] eqn:E; try discriminate. simpl in H.
    destruct (traverse f l) as [ys| |]; try discriminate. simpl in H.
    inversion H. constructor; [now apply (HP x) | now apply IH].
Qed.

Lemma field_set_field (c : string) (v : cell) (cols : list string) (row : list cell) :
  field cols row c <> None -> field cols (set_field c v cols row) c = Some v.
Proof.
  revert row. induction cols as [|k cols IH]; intros [|x row]; cbn [field set_field];
    try congruence.
  destruct (String.eqb c k) eqn:E; cbn [field]; rewrite ?E; [reflexivity | apply IH].
Qed.

Lemma set_field_length (c : string) (v : cell) (cols : list string) (row : list cell) :
  List.length (set_field c v cols row) = List.length row.
Proof.
  revert row. induction cols as [|k cols IH]; intros [|x row]; simpl; try reflexivity.
  destruct (String.eqb c k); simpl; [reflexivity | now rewrite IH].
Qed.

Lemma field_renamed (old new c : string) (cols : list string) (row : list cell) :
  c <> old -> c <> new ->
  field (map (fun k => if String.eqb k old then new else k) cols) row c = field cols row c.
Proof.
  intros Ho Hn. revert row. induction cols as [|k cols IH]; intros [|x row]; simpl;
    try reflexivity.
  destruct (String.eqb_spec k old) as [->|Hk].
  - apply String.eqb_neq in Ho, Hn. rewrite Ho, Hn. apply IH.
  - destruct (String.eqb c k); [reflexivity | apply IH].
Qed.

(** After [df[c] = days] with a date for every row, where every row had a
    cell under [c], the column holds dates only. *)
Lemma setitem_dated (df : DataFrame) (c : string) (days : list cell) :
  (forall r, In r (rows df) -> field (columns df) r c <> None) ->
  Forall (fun v => is_date v = true) days ->
  dated c (setitem df c days) = true.
Proof.
  intros Hfield Hdays. unfold dated, setitem. cbn [rows columns].
  apply forallb_forall. intros row Hrow.
  apply in_map_iff in Hrow. destruct Hrow as [[r v] [<- Hin]]. cbn [fst snd].
  pose proof (in_combine_l _ _ _ _ Hin) as Hr. pose proof (in_combine_r _ _ _ _ Hin) as Hv.
  rewrite Forall_forall in Hdays. specialize (Hdays v Hv).
  unfold date_of. rewrite (field_set_field c v _ r (Hfield r Hr)).
  destruct v; try discriminate. reflexivity.
Qed.

Lemma setitem_rows (df : DataFrame) (c : string) (col : list cell) :
  List.length col = List.length (rows df) ->
  List.length (rows (setitem df c col)) = List.length (rows df).
Proof.
  intros H. unfold setitem. cbn [rows]. rewrite length_map, length_combine. lia.
Qed.

Lemma setitem_wf (df : DataFrame) (c : string) (col : list cell) :
  wf df = true -> wf (setitem df c col) = true.
Proof.
  unfold wf, setitem. cbn [rows columns]. intros H. rewrite forallb_forall in *.
  intros row Hrow. apply in_map_iff in Hrow. destruct Hrow as [[r v] [<- Hin]].
  cbn [fst snd]. rewrite set_field_length. apply H. now apply in_combine_l in Hin.
Qed.

Lemma DataFrame_of_records_wf (data : list record) (df : DataFrame) :
  DataFrame_of_records data = Returns df -> wf df = true.
Proof.
  unfold DataFrame_of_records.
  destruct (traverse _ (labels data)) as [types| |] eqn:T; try discriminate.
  cbn [bind]. intros H. inversion H. unfold wf. cbn [rows columns].
  apply forallb_forall. intros row Hrow. apply in_map_iff in Hrow.
  destruct Hrow as [r [<- _]]. apply Nat.eqb_eq.
  rewrite length_map, length_combine, (traverse_length _ _ _ T). lia.
Qed.

Lemma getitem_returns (df : DataFrame) (c : string) (col : list cell) :
  getitem df c = Returns col -> has_column c df = true /\ col = col_values df c.
Proof.
  unfold getitem. destruct (has_column c df); [|discriminate].
  intros H. inversion H. split; reflexivity.
Qed.

(** When every cell of [df[c]] passes a reader that refuses [None], every
    row has a cell under [c]. *)
Lemma col_values_read {Y : Type} (f : cell -> outcome Y) (df : DataFrame) (c : string)
    (out : list Y) :
  (forall y, f CNone <> Returns y) ->
  traverse f (col_values df c) = Returns out ->
  forall r, In r (rows df) -> field (columns df) r c <> None.
Proof.
  intros Hnone Hread r Hr Hfield.
  destruct (traverse_each f _ _ Hread
              (match field (columns df) r c with Some v => v | None => CNone end))
    as [y Hy].
  - unfold col_values. apply in_map_iff. now exists r.
  - rewrite Hfield in Hy. now apply (Hnone y).
Qed.

(** X2.  Whatever the provider sends, a frame that [fetch_defi_llama_tvl]
    returns has a [date] column, has no [totalLiquidityUSD] column left,
    and has rows as long as its labels. *)
Theorem fetch_tvl_frame_has_date_column (w : World) (chain_slug : string) (df : DataFrame) :
  snd (fetch_defi_llama_tvl w chain_slug) = Returns df ->
  has_column "date" df = true /\
  has_column "totalLiquidityUSD" df = false /\ wf df = true.
Proof.
  unfold fetch_defi_llama_tvl. rewrite try_snd.
  destruct (snd _) as [df0|e| ] eqn:B; try discriminate.
  - intros H. inversion H. subst df0. clear H.
    rewrite seq_snd in B. cbn [snd emit bind] in B.
    rewrite seq_snd in B. cbn [snd lift] in B.
    destruct (http_get w _) as [e|status_code reason body]; try discriminate.
    cbn [bind fst snd] in B. rewrite seq_snd in B. cbn [snd lift] in B.
    destruct (raise_for_status _ _ _) as [[]| |]; try discriminate. cbn [bind] in B.
    rewrite seq_snd in B. cbn [snd lift] in B.
    destruct (response_json body) as [data| |]; try discriminate. cbn [bind] in B.
    rewrite seq_snd in B. cbn [snd lift] in B.
    destruct (DataFrame_of_records data) as [df0| |] eqn:Hframe; try discriminate.
    cbn [bind] in B. rewrite seq_snd in B. cbn [snd lift] in B.
    destruct (getitem df0 "date") as [col| |] eqn:Hcol; try discriminate.
    cbn [bind] in B. rewrite seq_snd in B. cbn [snd lift] in B.
    destruct (traverse to_numeric col) as [seconds| |] eqn:Hnum; try discriminate.
    cbn [bind] in B. rewrite seq_snd in B. cbn [snd lift] in B.
    destruct (traverse to_datetime_s_date seconds) as [days| |] eqn:Hdays; try discriminate.
    cbn [bind snd ret] in B. inversion B. clear B.
    destruct (getitem_returns _ _ _ Hcol) as [Hhas ->].
    pose proof (setitem_wf df0 "date" days (DataFrame_of_records_wf _ _ Hframe)) as Hwf.
    unfold rename. split; [|split].
    + unfold has_column in *. cbn [columns setitem]. rewrite existsb_exists in *.
      destruct Hhas as [k [Hin Hk]]. apply String.eqb_eq in Hk. subst k.
      exists "date". split; [|reflexivity].
      apply in_map_iff. exists "date". split; [reflexivity | assumption].
    + unfold has_column. cbn [columns setitem]. apply existsb_eqb_notin.
      intros Hin. apply in_map_iff in Hin. destruct Hin as [k [Hk _]].
      destruct (String.eqb_spec k "totalLiquidityUSD"); [discriminate | congruence].
    + unfold wf in *. cbn [rows columns] in *. now rewrite length_map.
  - destruct (isinstance e RequestException); [|discriminate].
    intros H. inversion H. repeat split.
Qed.

Lemma fetch_tvl_frame_has_date_column_witness :
  snd (fetch_defi_llama_tvl scenario_world "arbitrum") = Returns scenario_tvl_df /\
  has_column "date" scenario_tvl_df = true /\
  has_column "totalLiquidityUSD" scenario_tvl_df = false /\ wf scenario_tvl_df = true.
Proof.
  split; [reflexivity|].
  exact (fetch_tvl_frame_has_date_column scenario_world "arbitrum" scenario_tvl_df eq_refl).
Defined.

Lemma to_datetime_date_returns (col days : list cell) :
  to_datetime_date col = Returns days ->
  List.length days = List.length col /\ Forall (fun v => is_date v = true) days /\
  exists f : cell -> outcome cell,
    (forall y, f CNone <> Returns y) /\ traverse f col = Returns days.
Proof.
  unfold to_datetime_date. destruct col as [|c0 col].
  - intros H. inversion H. repeat split; [constructor|].
    exists (fun _ => Outside). split; [discriminate | reflexivity].
  - destruct (read_date c0) as [[sh d0]|]; [|discriminate]. intros H.
    split; [exact (traverse_length _ _ _ H)|]. split.
    + apply (traverse_results _ (fun v => is_date v = true) _ _) with (2 := H).
      intros x y Hy. cbn beta in Hy. destruct (read_date x) as [[sh' d]|]; [|discriminate].
      destruct (shape_eqb sh sh'); [|discriminate]. inversion Hy. reflexivity.
    + eexists. split; [|exact H]. intros y. simpl. discriminate.
Qed.

Lemma field_set_field_other (c k : string) (v : cell) (cols : list string)
    (row : list cell) :
  k <> c -> field cols (set_field c v cols row) k = field cols row k.
Proof.
  intros Hne. revert row. induction cols as [|x cols IH]; intros [|y row];
    cbn [field set_field]; try reflexivity.
  destruct (String.eqb_spec c x) as [->|Hcx]; cbn [field].
  - destruct (String.eqb_spec k x) as [->|_]; [now elim Hne | reflexivity].
  - destruct (String.eqb k x); [reflexivity | apply IH].
Qed.

Lemma map_fst_combine {X Y : Type} (l : list X) (l' : list Y) :
  List.length l = List.length l' -> map fst (combine l l') = l.
Proof.
  revert l'. induction l as [|x l IH]; intros [|y l'] H; simpl in *; try discriminate;
    [reflexivity|].
  f_equal. apply IH. now inversion H.
Qed.

(** [df[c] = col] leaves the other columns as they are. *)
Lemma col_values_setitem_other (df : DataFrame) (c k : string) (col : list cell) :
  k <> c -> List.length col = List.length (rows df) ->
  col_values (setitem df c col) k = col_values df k.
Proof.
  intros Hne Hlen. unfold col_values, setitem. cbn [columns rows]. rewrite map_map.
  rewrite <- (map_fst_combine (rows df) col) at 2 by (symmetry; exact Hlen).
  rewrite map_map. apply map_ext. intros [r v]. cbn [fst snd].
  now rewrite field_set_field_other.
Qed.

(** X5.  A frame that [query_dune_api_by_id] returns is the backend's with
    the same labels, as many rows, and every column other than [date] as
    it came.  When the backend's frame has no row or no [date] column, the
    frame is returned as it came. *)
Theorem by_id_keeps_labels_and_other_columns
    (w : World) (key : string) (query_id : Z) (results_df : DataFrame) :
  snd (query_dune_api_by_id w (Some key) query_id) = Returns results_df ->
  exists df, run_query_dataframe w query_id = Value df /\
             columns results_df = columns df /\
             List.length (rows results_df) = List.length (rows df) /\
             (forall c, c <> "date" -> col_values results_df c = col_values df c) /\
             (negb (empty df) && has_column "date" df = false -> results_df = df).
Proof.
  unfold query_dune_api_by_id. rewrite try_snd.
  destruct (snd _) as [df0|e| ] eqn:B; try discriminate.
  - intros H. inversion H. subst df0. clear H.
    rewrite seq_snd in B. cbn [snd emit bind] in B.
    rewrite seq_snd in B. cbn [snd lift] in B.
    destruct (run_query_dataframe w query_id) as [df|e]; try discriminate.
    cbn [of_answer bind snd lift] in B. exists df. split; [reflexivity|].
    unfold normalize_date in B.
    destruct (negb (empty df) && has_column "date" df).
    + destruct (getitem df "date") as [col| |] eqn:Hcol; try discriminate.
      cbn [bind] in B. destruct (to_datetime_date col) as [days| |] eqn:Hdays;
        try discriminate.
      cbn [bind] in B. inversion B. clear B.
      destruct (getitem_returns _ _ _ Hcol) as [Hhas ->].
      destruct (to_datetime_date_returns _ _ Hdays) as [Hlen _].
      assert (Hrows : List.length days = List.length (rows df)).
      { rewrite Hlen. unfold col_values. apply length_map. }
      split; [reflexivity|]. split; [now apply setitem_rows|].
      split; [|discriminate].
      intros c Hc. now apply col_values_setitem_other.
    + inversion B. repeat split.
  - rewrite isinstance_Exception. discriminate.
Qed.

Lemma by_id_keeps_labels_and_other_columns_witness :
  snd (query_dune_api_by_id scenario_world (Some "key") 12345) = Returns scenario_dune_df /\
  col_values scenario_dune_df "transaction_count"
  = col_values scenario_analytics "transaction_count" /\
  snd (query_dune_api_by_id dateless_world (Some "key") 12345) = Returns dateless_df.
Proof.
  split; [reflexivity|]. split; [|reflexivity].
  destruct (by_id_keeps_labels_and_other_columns scenario_world "key" 12345 scenario_dune_df eq_refl)
    as [df [Hrun [_ [_ [Hother _]]]]].
  inversion Hrun. subst df. apply Hother. discriminate.
Defined.

(** ** The order of the merged dates *)

Lemma dates_row_dates (df : DataFrame) : dates df = row_dates (columns df) (rows df).
Proof. reflexivity. Qed.

Lemma row_dates_app (cols : list string) (r1 r2 : list (list cell)) :
  row_dates cols (r1 ++ r2) = (row_dates cols r1 ++ row_dates cols r2)%list.
Proof. unfold row_dates. apply flat_map_app. Qed.

Lemma join_dates (A B : DataFrame) :
  In "date" (columns A) ->
  (forall l, In l (rows A) -> List.length l = List.length (columns A)) ->
  row_dates (columns A ++ drop_name "date" (columns B)) (join_rows "date" A B)
  = flat_map (fun l => match date_of (columns A) l "date" with
                       | Some d => repeat d (matches "date" A B l)
                       | None => []
                       end) (rows A).
Proof.
  intros Hdate Hlen. unfold join_rows, matches.
  induction (rows A) as [|l ls IH]; [reflexivity|].
  cbn [flat_map]. rewrite row_dates_app, IH by (intros; apply Hlen; now right).
  f_equal.
  assert (Hl : List.length l = List.length (columns A)) by (apply Hlen; now left).
  induction (filter _ (rows B)) as [|r rs IHr]; cbn [map List.length repeat].
  - now destruct (date_of (columns A) l "date").
  - unfold row_dates in *. cbn [flat_map]. rewrite IHr. unfold date_of at 1.
    rewrite field_joined_left by assumption. fold (date_of (columns A) l "date").
    now destruct (date_of (columns A) l "date").
Qed.

Lemma thinned_sorted (dt : list cell -> option Z) (m : list cell -> nat) (ls : list (list cell)) :
  (forall l, (m l <= 1)%nat) ->
  StronglySorted Z.lt (flat_map (fun l => match dt l with Some d => [d] | None => [] end) ls) ->
  StronglySorted Z.lt
    (flat_map (fun l => match dt l with Some d => repeat d (m l) | None => [] end) ls) /\
  incl (flat_map (fun l => match dt l with Some d => repeat d (m l) | None => [] end) ls)
       (flat_map (fun l => match dt l with Some d => [d] | None => [] end) ls).
Proof.
  intros Hm. induction ls as [|l ls IH]; cbn [flat_map]; intros Hs.
  - split; [constructor | intros x Hx; exact Hx].
  - destruct (dt l) as [d|]; [|now apply IH].
    cbn [app] in Hs. inversion Hs as [|x xs Hs' Hall]; subst.
    destruct (IH Hs') as [IHs IHi].
    specialize (Hm l). destruct (m l) as [|[|n]]; [| |lia]; cbn [repeat app].
    + split; [assumption | intros x Hx; right; now apply IHi].
    + split.
      * constructor; [assumption|]. rewrite Forall_forall in *.
        intros x Hx. apply Hall. now apply IHi.
      * intros x [<- | Hx]; [now left | right; now apply IHi].
Qed.

(** X14.  Merging keeps the TVL frame's order.  When the dates of the TVL
    frame are ascending and the analytics frame has one row per date, the
    dates of the merged frame are ascending too, each is a date of the TVL
    frame, and the merged frame has no more rows than the TVL frame. *)
Theorem merge_data_keeps_ascending_dates (A B : DataFrame) :
  series A = true -> series B = true -> disjoint_fields A B = true ->
  NoDup (map (fun r => date_of (columns B) r "date") (rows B)) ->
  StronglySorted Z.lt (dates A) ->
  exists M, merge_data A B = Returns M /\
            StronglySorted Z.lt (dates M) /\
            incl (dates M) (dates A) /\
            (List.length (rows M) <= List.length (rows A))%nat.
Proof.
  intros HA HB HD HND Hs.
  destruct (merge_data_series A B HA HB HD) as [M [HM [Hrows Hcols]]].
  destruct (series_parts A HA) as [InA [_ [LenA _]]].
  exists M. split; [exact HM|].
  assert (Hlen : (List.length (rows M) <= List.length (rows A))%nat).
  { rewrite Hrows, <- (length_map (firstn (List.length (columns A)))).
    rewrite (join_rows_order "date" A B LenA), (survivors_filter A B HND).
    apply filter_length_le. }
  assert (Hd : StronglySorted Z.lt (dates M) /\ incl (dates M) (dates A)).
  { rewrite (dates_row_dates M). destruct (rows M) as [|m ms] eqn:E.
    - split; [constructor | intros x []].
    - rewrite Hcols by discriminate. rewrite Hrows.
      rewrite (join_dates A B InA LenA).
      apply (thinned_sorted (fun l => date_of (columns A) l "date") (matches "date" A B)
               (rows A)); [|exact Hs].
      intros l. unfold matches. apply filter_same_date_unique. exact HND. }
  destruct Hd as [Hsorted Hincl].
  split; [exact Hsorted | split; [exact Hincl | exact Hlen]].
Qed.

Lemma merge_data_keeps_ascending_dates_witness :
  StronglySorted Z.lt (dates two_day_tvl_df) /\
  exists M, merge_data two_day_tvl_df two_day_dune_df = Returns M /\
            StronglySorted Z.lt (dates M) /\ dates M = [19675; 19676].
Proof.
  assert (Hs : StronglySorted Z.lt (dates two_day_tvl_df)).
  { repeat constructor. }
  assert (HND : NoDup (map (fun r => date_of (columns two_day_dune_df) r "date")
                           (rows two_day_dune_df))).
  { constructor; [intros [H|[]]; discriminate|]. constructor; [intros []|constructor]. }
  split; [exact Hs|].
  destruct (merge_data_keeps_ascending_dates two_day_tvl_df two_day_dune_df
              eq_refl eq_refl eq_refl HND Hs) as [M [HM [HsM _]]].
  exists M. split; [exact HM|]. split; [exact HsM|].
  assert (EM : Returns M = merge_data two_day_tvl_df two_day_dune_df) by (symmetry; exact HM).
  vm_compute in EM. inversion EM. reflexivity.
Defined.

(** ** The sections of the dashboard *)

(** X11.  The four tiles come from the last row of each frame, whatever
    rows come before: the TVL over 1e9 with two decimals between "$" and
    "B", the users with commas. *)
Theorem key_metrics_shows_last_rows
    (arbitrum_full_df optimism_full_df : DataFrame)
    (arb_rows op_rows : list (list cell)) (arb_latest op_latest : list cell)
    (arb_date op_date arb_users op_users : Z) (arb_tvl op_tvl : cell)
    (arb_b op_b : float) :
  rows arbitrum_full_df = (arb_rows ++ [arb_latest])%list ->
  rows optimism_full_df = (op_rows ++ [op_latest])%list ->
  field (columns arbitrum_full_df) arb_latest "date" = Some (CDate arb_date) ->
  field (columns optimism_full_df) op_latest "date" = Some (CDate op_date) ->
  field (columns arbitrum_full_df) arb_latest "tvl_usd" = Some arb_tvl ->
  field (columns optimism_full_df) op_latest "tvl_usd" = Some op_tvl ->
  div_1e9 arb_tvl = Returns arb_b -> div_1e9 op_tvl = Returns op_b ->
  field (columns arbitrum_full_df) arb_latest "daily_active_users" = Some (CInt arb_users) ->
  field (columns optimism_full_df) op_latest "daily_active_users" = Some (CInt op_users) ->
  key_metrics arbitrum_full_df optimism_full_df
  = ([st_header "At-a-Glance (Latest Data)";
      st_metric "Arbitrum TVL" ("$" ++ format_2f arb_b ++ "B");
      st_metric "Optimism TVL" ("$" ++ format_2f op_b ++ "B");
      st_metric "Arbitrum Daily Users" (format_thousands arb_users);
      st_metric "Optimism Daily Users" (format_thousands op_users)], Returns tt).
Proof.
  intros Ha Ho Hda Hdo Hta Hto Hba Hbo Hua Huo.
  unfold key_metrics, tvl_text, users_text, row_getitem.
  rewrite (iloc_last_dated _ _ _ _ Ha Hda), (iloc_last_dated _ _ _ _ Ho Hdo).
  rewrite seq_emit, !seq_returns, Hta, Hto, Hua, Huo. cbn [bind].
  rewrite Hba, Hbo. reflexivity.
Qed.

Lemma key_metrics_shows_last_rows_witness :
  key_metrics two_day_tvl_merged two_day_tvl_merged
  = ([st_header "At-a-Glance (Latest Data)";
      st_metric "Arbitrum TVL" "$2.50B";
      st_metric "Optimism TVL" "$2.50B";
      st_metric "Arbitrum Daily Users" "51,000";
      st_metric "Optimism Daily Users" "51,000"], Returns tt).
Proof.
  exact (key_metrics_shows_last_rows two_day_tvl_merged two_day_tvl_merged
           [[CDate 19675; CInt 1000000000; CInt 50000; CInt 200000; CFloat 0.25%float]]
           [[CDate 19675; CInt 1000000000; CInt 50000; CInt 200000; CFloat 0.25%float]]
           _ _ 19676 19676 51000 51000 (CInt 2500000000) (CInt 2500000000)
           2.5%float 2.5%float
           eq_refl eq_refl eq_refl eq_refl eq_refl eq_refl eq_refl eq_refl eq_refl eq_refl).
Defined.

(** X12.  A merged frame that has rows but no [daily_active_users] column
    passes the gate and stops the script in the middle of the tiles: the
    success banner, the header and the two TVL tiles are on the page, then
    [KeyError] ends the run; no chart, correlation or table follows. *)
Theorem missing_users_column_stops_after_tvl_tiles
    (w : World) (arbitrum_full_df optimism_full_df : DataFrame)
    (arb_rows op_rows : list (list cell)) (arb_latest op_latest : list cell)
    (arb_date op_date : Z) (arb_tvl op_tvl : cell) (arb_b op_b : float) :
  rows arbitrum_full_df = (arb_rows ++ [arb_latest])%list ->
  rows optimism_full_df = (op_rows ++ [op_latest])%list ->
  field (columns arbitrum_full_df) arb_latest "date" = Some (CDate arb_date) ->
  field (columns optimism_full_df) op_latest "date" = Some (CDate op_date) ->
  field (columns arbitrum_full_df) arb_latest "tvl_usd" = Some arb_tvl ->
  field (columns optimism_full_df) op_latest "tvl_usd" = Some op_tvl ->
  div_1e9 arb_tvl = Returns arb_b -> div_1e9 op_tvl = Returns op_b ->
  field (columns arbitrum_full_df) arb_latest "daily_active_users" = None ->
  dashboard w arbitrum_full_df optimism_full_df
  = ([st_success "All data loaded and merged successfully!";
      st_header "At-a-Glance (Latest Data)";
      st_metric "Arbitrum TVL" ("$" ++ format_2f arb_b ++ "B");
      st_metric "Optimism TVL" ("$" ++ format_2f op_b ++ "B")],
     Raises (mk_exn KeyError "'daily_active_users'")).
Proof.
  intros Ha Ho Hda Hdo Hta Hto Hba Hbo Hua.
  assert (Hne : forall df rs r d, rows df = (rs ++ [r])%list ->
                  field (columns df) r "date" = Some (CDate d) -> empty df = false).
  { intros [cs rws] rs r d Hr Hf. cbn [rows columns] in *. subst rws. unfold empty.
    cbn [rows columns]. destruct cs as [|k cs]; [discriminate|]. now destruct rs. }
  unfold dashboard. rewrite (Hne _ _ _ _ Ha Hda), (Hne _ _ _ _ Ho Hdo). cbn [orb].
  unfold key_metrics, tvl_text, users_text, row_getitem.
  rewrite (iloc_last_dated _ _ _ _ Ha Hda), (iloc_last_dated _ _ _ _ Ho Hdo).
  rewrite !seq_emit, !seq_returns, Hta, Hto, Hua. cbn [bind].
  rewrite Hba, Hbo. reflexivity.
Qed.

Lemma missing_users_column_stops_after_tvl_tiles_witness :
  field (columns no_users_df) [CDate 19675; CInt 1000000000; CInt 200000; CFloat 0.5%float]
        "daily_active_users" = None /\
  dashboard scenario_world no_users_df no_users_df
  = ([st_success "All data loaded and merged successfully!";
      st_header "At-a-Glance (Latest Data)";
      st_metric "Arbitrum TVL" "$1.00B";
      st_metric "Optimism TVL" "$1.00B"],
     Raises (mk_exn KeyError "'daily_active_users'")).
Proof.
  split; [reflexivity|].
  exact (missing_users_column_stops_after_tvl_tiles scenario_world no_users_df no_users_df
           [] [] _ _ 19675 19675 (CInt 1000000000) (CInt 1000000000) 1%float 1%float
           eq_refl eq_refl eq_refl eq_refl eq_refl eq_refl eq_refl eq_refl eq_refl).
Defined.

Lemma getitem_has (df : DataFrame) (c : string) :
  has_column c df = true -> getitem df c = Returns (col_values df c).
Proof. unfold getitem, col_values. now intros ->. Qed.

(** X15.  On two frames that have the [date] column and the four metric
    columns, the charts are four, in the order TVL, users, transactions,
    gas fee; each has a trace named Arbitrum and one named Optimism, with
    every row's date as x and the metric as y. *)
Theorem visualizations_show_four_charts (arbitrum_full_df optimism_full_df : DataFrame) :
  forallb (fun c => has_column c arbitrum_full_df && has_column c optimism_full_df)
          ["date"; "tvl_usd"; "daily_active_users"; "transaction_count"; "avg_gas_fee_usd"]
  = true ->
  let traces c :=
    [("Arbitrum", col_values arbitrum_full_df "date", col_values arbitrum_full_df c);
     ("Optimism", col_values optimism_full_df "date", col_values optimism_full_df c)] in
  visualizations arbitrum_full_df optimism_full_df
  = ([st_header "Comparative Analysis";
      st_subheader "Total Value Locked (TVL)";
      st_plotly_chart "TVL (USD) Over Time" (traces "tvl_usd");
      st_subheader "Daily Active Users (DAU)";
      st_plotly_chart "Daily Active Users Over Time" (traces "daily_active_users");
      st_subheader "Transaction Count";
      st_plotly_chart "Daily Transactions Over Time" (traces "transaction_count");
      st_subheader "Average Gas Fee (USD)";
      st_plotly_chart "Average Gas Fee (USD) Over Time" (traces "avg_gas_fee_usd")],
     Returns tt) /\
  (forall df c, List.length (col_values df c) = List.length (rows df)).
Proof.
  intros H traces. split; [|intros; apply length_map].
  cbn [forallb] in H.
  repeat (apply andb_prop in H; destruct H as [? H]).
  repeat match goal with
         | Hc : has_column _ _ && has_column _ _ = true |- _ =>
             apply andb_prop in Hc; destruct Hc
         end.
  unfold visualizations, chart.
  repeat match goal with
         | Hc : has_column ?c ?df = true |- _ =>
             rewrite !(getitem_has df c Hc); clear Hc
         end.
  reflexivity.
Qed.

Lemma visualizations_show_four_charts_witness :
  snd (visualizations scenario_full_df scenario_full_df) = Returns tt /\
  List.length (fst (visualizations scenario_full_df scenario_full_df)) = 9%nat.
Proof.
  rewrite (proj1 (visualizations_show_four_charts scenario_full_df scenario_full_df eq_refl)).
  split; reflexivity.
Defined.

(** X17.  The raw view shows, for each chain, the last five rows of the
    merged frame under the same labels (all the rows when there are
    fewer), and raises nothing, whatever the frames hold. *)
Theorem raw_data_shows_last_five_rows (arbitrum_full_df optimism_full_df : DataFrame) :
  raw_data arbitrum_full_df optimism_full_df
  = ([st_expander "Show Raw Merged Dataframes";
      st_subheader "Arbitrum Raw Data"; st_dataframe (tail arbitrum_full_df);
      st_subheader "Optimism Raw Data"; st_dataframe (tail optimism_full_df)], Returns tt) /\
  (forall df,
     columns (tail df) = columns df /\
     List.length (rows (tail df)) = Nat.min 5 (List.length (rows df)) /\
     exists before, rows df = (before ++ rows (tail df))%list).
Proof.
  split; [reflexivity|]. intros df. unfold tail. cbn [columns rows].
  split; [reflexivity|]. split.
  - rewrite length_skipn. lia.
  - exists (firstn (List.length (rows df) - 5) (rows df)). symmetry. apply firstn_skipn.
Qed.

(** ** What an empty frame means *)

Lemma DataFrame_of_records_rows (data : list record) (df : DataFrame) :
  DataFrame_of_records data = Returns df -> List.length (rows df) = List.length data.
Proof.
  unfold DataFrame_of_records.
  destruct (traverse _ (labels data)) as [types| |]; try discriminate.
  cbn [bind]. intros H. inversion H. cbn [rows]. apply length_map.
Qed.

Lemma traverse_raises {X Y : Type} (f : X -> outcome Y) (l : list X) (e : exn) :
  traverse f l = Raises e -> exists x, In x l /\ f x = Raises e.
Proof.
  induction l as [|x l IH]; simpl; [discriminate|].
  destruct (f x) as [y|e0|] eqn:Ex; simpl.
  - destruct (traverse f l) as [ys|e1|]; simpl; try discriminate.
    intros H. destruct (IH H) as [x' [Hin Hx']]. exists x'. auto.
  - intros H. inversion H. subst e0. exists x. auto.
  - discriminate.
Qed.

Lemma infer_dtype_never_raises (col : list (option cell)) (e : exn) :
  infer_dtype col <> Raises e.
Proof.
  unfold infer_dtype.
  repeat match goal with |- context [if ?b then _ else _] => destruct b end; discriminate.
Qed.

Lemma DataFrame_of_records_never_raises (data : list record) (e : exn) :
  DataFrame_of_records data <> Raises e.
Proof.
  unfold DataFrame_of_records. intros H.
  destruct (traverse _ (labels data)) as [types|e0|] eqn:T; try discriminate.
  cbn [bind] in H. inversion H. subst e0.
  destruct (traverse_raises _ _ _ T) as [c [_ Hc]]. now apply infer_dtype_never_raises in Hc.
Qed.

Lemma to_numeric_never_raises (c : cell) (e : exn) : to_numeric c <> Raises e.
Proof.
  destruct c as [z| |s| |]; simpl; try discriminate.
  - destruct (int64 z); discriminate.
  - destruct (int_literal s) as [z|]; [|discriminate].
    destruct (String.eqb (str_int z) s && int64 z); discriminate.
Qed.

Lemma to_datetime_s_date_raises (c : cell) (e : exn) :
  to_datetime_s_date c = Raises e -> isinstance e RequestException = false.
Proof.
  destruct c as [z| | | |]; simpl; try discriminate.
  destruct ((-9223372036 <=? z) && (z <=? 9223372036)); [discriminate|].
  intros H. inversion H. reflexivity.
Qed.

Lemma DataFrame_of_records_nil : DataFrame_of_records [] = Returns pd_DataFrame.
Proof. reflexivity. Qed.

Lemma raise_for_status_returns (url : string) (status_code : Z) (reason : string) (u : unit) :
  raise_for_status url status_code reason = Returns u ->
  (400 <=? status_code) && (status_code <? 600) = false.
Proof.
  unfold raise_for_status.
  destruct ((400 <=? status_code) && (status_code <? 500)) eqn:E4; [discriminate|].
  destruct ((500 <=? status_code) && (status_code <? 600)) eqn:E5; [discriminate|].
  intros _. destruct (400 <=? status_code) eqn:A; [|reflexivity]. simpl in *.
  destruct (500 <=? status_code) eqn:B; simpl in *; [assumption|].
  apply Z.ltb_ge in E4. apply Z.leb_gt in B. lia.
Qed.

Lemma raise_for_status_raises (url : string) (status_code : Z) (reason : string) (e : exn) :
  raise_for_status url status_code reason = Raises e ->
  (400 <=? status_code) && (status_code <? 600) = true.
Proof.
  unfold raise_for_status.
  destruct ((400 <=? status_code) && (status_code <? 500)) eqn:E4.
  - intros _. apply andb_prop in E4. destruct E4 as [A B]. rewrite A. simpl.
    apply Z.ltb_lt in B. apply Z.ltb_lt. lia.
  - destruct ((500 <=? status_code) && (status_code <? 600)) eqn:E5; [|discriminate].
    intros _. apply andb_prop in E5. destruct E5 as [A B]. rewrite B.
    apply Z.leb_le in A. rewrite andb_true_r. apply Z.leb_le. lia.
Qed.

(** X18.  When the provider answers with a JSON array of flat objects, a
    frame that [fetch_defi_llama_tvl] returns is either the frame without
    rows of an error status, or a frame with one row for each object of
    the array, which then has objects: for such an answer an empty frame
    means that the request failed. *)
Theorem tvl_array_gives_row_per_record
    (w : World) (chain_slug : string) (status_code : Z) (reason : string)
    (data : list record) (df : DataFrame) :
  http_get w ("https://api.llama.fi/charts/" ++ chain_slug)
  = Response status_code reason (JsonRecords data) ->
  snd (fetch_defi_llama_tvl w chain_slug) = Returns df ->
  ((400 <=? status_code) && (status_code <? 600) = true /\
   df = mk_frame ["date"; "tvl_usd"] [] /\ empty df = true) \/
  ((400 <=? status_code) && (status_code <? 600) = false /\
   data <> [] /\ List.length (rows df) = List.length data /\ empty df = false).
Proof.
  intros Hget Hret.
  destruct ((400 <=? status_code) && (status_code <? 600)) eqn:Fs.
  - left. split; [reflexivity|].
    assert (F : request_failure
                  (http_get w ("https://api.llama.fi/charts/" ++ chain_slug)) = true).
    { rewrite Hget. unfold request_failure. now rewrite Fs. }
    rewrite (fetch_request_failure w chain_slug F) in Hret. cbn [snd] in Hret.
    inversion Hret. split; reflexivity.
  - right. split; [reflexivity|].
    unfold fetch_defi_llama_tvl in Hret. rewrite try_snd in Hret.
    rewrite seq_snd in Hret. cbn [snd emit bind] in Hret.
    rewrite seq_snd in Hret. cbn [snd lift] in Hret. rewrite Hget in Hret.
    cbn [bind fst snd] in Hret. rewrite seq_snd in Hret. cbn [snd lift] in Hret.
    destruct (raise_for_status _ status_code reason) as [[]|e|] eqn:R; try discriminate.
    2:{ apply raise_for_status_raises in R. congruence. }
    cbn [bind] in Hret. rewrite seq_snd in Hret. cbn [snd lift response_json bind] in Hret.
    rewrite seq_snd in Hret. cbn [snd lift] in Hret.
    destruct (DataFrame_of_records data) as [df0|e|] eqn:Hframe; try discriminate.
    2:{ now apply DataFrame_of_records_never_raises in Hframe. }
    cbn [bind] in Hret. rewrite seq_snd in Hret. cbn [snd lift] in Hret.
    destruct (getitem df0 "date") as [col| |] eqn:Hcol.
    2:{ cbn [bind] in Hret. unfold getitem in Hcol.
        destruct (has_column "date" df0); [discriminate|]. inversion Hcol. subst e.
        discriminate. }
    2:{ discriminate. }
    cbn [bind] in Hret. rewrite seq_snd in Hret. cbn [snd lift] in Hret.
    destruct (traverse to_numeric col) as [seconds| |] eqn:Hnum.
    2:{ destruct (traverse_raises _ _ _ Hnum) as [c [_ Hc]].
        now apply to_numeric_never_raises in Hc. }
    2:{ discriminate. }
    cbn [bind] in Hret. rewrite seq_snd in Hret. cbn [snd lift] in Hret.
    destruct (traverse to_datetime_s_date seconds) as [days| |] eqn:Hdays.
    2:{ cbn [bind] in Hret. destruct (traverse_raises _ _ _ Hdays) as [c [_ Hc]].
        rewrite (to_datetime_s_date_raises _ _ Hc) in Hret. discriminate. }
    2:{ discriminate. }
    cbn [bind snd ret] in Hret. inversion Hret. clear Hret.
    destruct (getitem_returns _ _ _ Hcol) as [Hhas ->].
    assert (Hlen : List.length (rows (setitem df0 "date" days)) = List.length data).
    { rewrite setitem_rows; [apply (DataFrame_of_records_rows _ _ Hframe)|].
      rewrite (traverse_length _ _ _ Hdays), (traverse_length _ _ _ Hnum).
      unfold col_values. apply length_map. }
    assert (Hdata : data <> []).
    { intros ->. rewrite DataFrame_of_records_nil in Hframe. inversion Hframe. subst df0.
      discriminate. }
    split; [exact Hdata|]. split; [exact Hlen|].
    unfold empty, rename. cbn [columns rows].
    destruct data as [|r data']; [now elim Hdata|].
    destruct (rows (setitem df0 "date" days)) as [|x xs]; [discriminate|].
    unfold has_column in Hhas. cbn [setitem columns].
    destruct (columns df0); [discriminate | reflexivity].
Qed.

Lemma tvl_array_gives_row_per_record_witness :
  snd (fetch_defi_llama_tvl scenario_world "arbitrum") = Returns scenario_tvl_df /\
  ((400 <=? 200) && (200 <? 600) = true /\
   scenario_tvl_df = mk_frame ["date"; "tvl_usd"] [] /\ empty scenario_tvl_df = true \/
   (400 <=? 200) && (200 <? 600) = false /\
   scenario_tvl <> [] /\
   List.length (rows scenario_tvl_df) = List.length scenario_tvl /\
   empty scenario_tvl_df = false).
Proof.
  split; [reflexivity|].
  exact (tvl_array_gives_row_per_record scenario_world "arbitrum" 200 "OK" scenario_tvl
           scenario_tvl_df eq_refl eq_refl).
Defined.

(** ** The merged frame is a series again *)

Lemma NoDup_unique (l : list string) : NoDup l -> unique l = true.
Proof.
  induction 1 as [|k l Hk _ IH]; simpl; [reflexivity|].
  rewrite IH, andb_true_r. apply negb_true_iff. now apply existsb_eqb_notin.
Qed.

Lemma drop_name_NoDup (on : string) (cols : list string) :
  NoDup cols -> NoDup (drop_name on cols) /\ ~ In on (drop_name on cols).
Proof.
  induction 1 as [|k cols Hk ND IH]; simpl.
  - split; [constructor | tauto].
  - destruct (String.eqb_spec on k) as [->|Hne].
    + split; assumption.
    + destruct IH as [IH1 IH2]. split.
      * constructor; [|assumption]. intros Hin. apply Hk. now apply drop_name_incl in Hin.
      * simpl. intros [E|Hin]; [now apply Hne | now apply IH2].
Qed.

Lemma In_drop_name (on c : string) (cols : list string) :
  In c cols -> c <> on -> In c (drop_name on cols).
Proof.
  induction cols as [|k cols IH]; simpl; [tauto|]. intros [->|Hin] Hne.
  - destruct (String.eqb_spec on c) as [E|_]; [now elim Hne | now left].
  - destruct (String.eqb on k); [assumption | right; now apply IH].
Qed.

Lemma drop_field_length (on : string) (cols : list string) (row : list cell) :
  List.length row = List.length cols ->
  List.length (drop_field on cols row) = List.length (drop_name on cols).
Proof.
  revert row. induction cols as [|k cols IH]; intros [|v row] Hlen; simpl in *;
    try discriminate; [reflexivity|].
  destruct (String.eqb on k); simpl; [lia|]. rewrite IH; lia.
Qed.

(** X19.  A merged frame that has rows is a series again: its labels are
    the TVL frame's followed by the analytics frame's other than [date],
    all distinct; every row is as long as the labels and holds a date
    under [date]; and every column of either input is a column of it, so
    the dashboard's column reads find their columns. *)
Theorem merge_data_gives_series (A B M : DataFrame) :
  series A = true -> series B = true -> disjoint_fields A B = true ->
  merge_data A B = Returns M -> empty M = false ->
  columns M = (columns A ++ drop_name "date" (columns B))%list /\
  series M = true /\
  forall c, In c (columns A) \/ In c (columns B) -> has_column c M = true.
Proof.
  intros HA HB HD HM HE.
  destruct (merge_data_series A B HA HB HD) as [M' [HM' [Hrows Hcols]]].
  rewrite HM in HM'. inversion HM'. subst M'. clear HM'.
  assert (Hne : rows M <> []).
  { unfold empty in HE. destruct (columns M); [discriminate|].
    destruct (rows M); [discriminate | discriminate]. }
  specialize (Hcols Hne).
  destruct (series_parts A HA) as [InA [NDA [LenA DatA]]].
  destruct (series_parts B HB) as [InB [NDB [LenB DatB]]].
  destruct (drop_name_NoDup "date" (columns B) NDB) as [NDd Hnd].
  assert (Hall : forall c, In c (columns A) \/ In c (columns B) -> In c (columns M)).
  { intros c [Hc|Hc]; rewrite Hcols; apply in_or_app; [now left|].
    destruct (String.eqb_spec c "date") as [->|Hne']; [now left|].
    right. now apply In_drop_name. }
  split; [exact Hcols|]. split.
  - unfold series, has_column, wf, dated. rewrite Hcols, Hrows.
    repeat (apply andb_true_intro; split).
    + apply existsb_eqb_In. apply in_or_app. now left.
    + apply NoDup_unique. apply NoDup_app; [assumption | assumption |].
      intros c Hc Hc'. pose proof (drop_name_incl _ _ _ Hc') as HcB.
      pose proof (disjoint_fields_spec A B HD c Hc HcB) as ->. now apply Hnd.
    + apply forallb_forall. intros m Hm. apply in_join_rows in Hm.
      destruct Hm as [l [r [Hl [Hr [_ ->]]]]]. apply Nat.eqb_eq.
      rewrite !length_app. rewrite (LenA l Hl).
      now rewrite (drop_field_length _ _ _ (LenB r Hr)).
    + apply forallb_forall. intros m Hm. apply in_join_rows in Hm.
      destruct Hm as [l [r [Hl [Hr [_ ->]]]]]. unfold date_of.
      rewrite field_joined_left by (auto using LenA).
      destruct (DatA l Hl) as [d ->]. reflexivity.
  - intros c Hc. apply existsb_eqb_In. now apply Hall.
Qed.

Lemma merge_data_gives_series_witness :
  columns two_day_tvl_merged
  = ["date"; "tvl_usd"; "daily_active_users"; "transaction_count"; "avg_gas_fee_usd"] /\
  series two_day_tvl_merged = true /\
  forall c, In c (columns two_day_tvl_df) \/ In c (columns two_day_dune_df) ->
            has_column c two_day_tvl_merged = true.
Proof.
  exact (merge_data_gives_series two_day_tvl_df two_day_dune_df two_day_tvl_merged
           eq_refl eq_refl eq_refl eq_refl eq_refl).
Defined.

(** ** An empty analytics frame is announced *)

Lemma by_id_events (w : World) (client : option string) (query_id : Z) :
  fst (query_dune_api_by_id w client query_id)
  = match client with Some _ => [RunQuery query_id] | None => [] end.
Proof.
  unfold query_dune_api_by_id. destruct client as [key|]; [|reflexivity].
  rewrite try_fst, seq_fst, seq_snd. cbn [fst snd emit bind].
  rewrite seq_fst. cbn [fst snd lift].
  destruct (of_answer (run_query_dataframe w query_id)) as [d|e|]; cbn [bind app].
  - destruct (snd (seq _ _)) as [x|e|]; try reflexivity.
    destruct (isinstance e Exception); reflexivity.
  - rewrite seq_snd. cbn [snd lift bind]. destruct (isinstance e Exception); reflexivity.
  - rewrite seq_snd. reflexivity.
Qed.

Lemma by_sql_events (w : World) (client : option string) (query_name sql_query : string) :
  fst (query_dune_api_by_sql w client query_name sql_query)
  = match client with Some _ => [RunSql sql_query query_name] | None => [] end.
Proof.
  unfold query_dune_api_by_sql. destruct client as [key|]; [|reflexivity].
  rewrite try_fst, seq_fst, seq_snd. cbn [fst snd emit bind].
  assert (Hin : fst (result <- lift (of_answer (run_sql w sql_query query_name)) ;;
                     rows <- lift (extract_rows result) ;;
                     match rows with
                     | Some (r :: rs) =>
                         results_df <- lift (DataFrame_of_records (r :: rs)) ;;
                         lift (normalize_date results_df)
                     | _ => ret pd_DataFrame
                     end) = []).
  { rewrite seq_fst. cbn [fst snd lift app].
    destruct (of_answer _) as [result| |]; try reflexivity.
    rewrite seq_fst. cbn [fst snd lift app].
    destruct (extract_rows result) as [[[|r rs]|]| |]; try reflexivity.
    rewrite seq_fst. cbn [fst snd lift app].
    destruct (DataFrame_of_records (r :: rs)); reflexivity. }
  rewrite Hin. cbn [app].
  destruct (snd _) as [x|e|]; try reflexivity.
  destruct (isinstance e Exception); [|reflexivity].
  destruct (contains "paid plan" (lower (exn_str e)) || contains "upgrade" (lower (exn_str e)));
    reflexivity.
Qed.

(** X20.  The block that loads a chain's Dune data never hands on an empty
    frame in silence, and never a frame with rows after an error: with an
    empty frame the page shows the warning that the query returned no
    data, or the error of the block's own handler; with a frame that is
    not empty the page shows no error at all. *)
Theorem load_dune_announces_empty_frame
    (w : World) (client : option string) (slug Name VAR : string)
    (QUERY_ID : option string) (SQL : string) (evs : list event) (dune_df : DataFrame) :
  load_dune w client slug Name VAR QUERY_ID SQL = (evs, Returns dune_df) ->
  if empty dune_df
  then In (st_warning (Name ++ " Dune query returned no data. This may be normal if the query is still executing.")) evs \/
       exists e, In (st_error ("Error querying Dune API for " ++ slug ++ ": " ++ exn_str e)) evs
  else existsb is_error evs = false.
Proof.
  unfold load_dune. intros H.
  match type of H with
  | context [if truthy QUERY_ID then ?a else ?b] =>
      set (INNER := if truthy QUERY_ID then a else b) in H
  end.
  assert (Hinner : forall d, snd INNER = Returns d -> empty d = false ->
                             existsb is_error (fst INNER) = false).
  { intros d Hd He. unfold INNER in *. clear INNER H. destruct (truthy QUERY_ID).
    - cbv zeta in *. rewrite try_snd, seq_snd in Hd. rewrite try_fst, seq_fst, seq_snd.
      cbn [fst snd lift app] in *.
      destruct (int_of_str _) as [q|e|]; cbn [bind] in *; [| |discriminate].
      + rewrite by_id_events.
        destruct (snd (query_dune_api_by_id w client q)) as [d'|e|]; [| |discriminate].
        * destruct client; reflexivity.
        * destruct (isinstance e ValueError); [|discriminate].
          rewrite seq_snd in Hd. cbn in Hd. inversion Hd. subst d. discriminate.
      + destruct (isinstance e ValueError); [|discriminate].
        rewrite seq_snd in Hd. cbn in Hd. inversion Hd. subst d. discriminate.
    - rewrite seq_snd in Hd. cbn [snd emit bind] in Hd. rewrite try_snd in Hd.
      rewrite seq_fst. cbn [fst snd emit]. rewrite try_fst, by_sql_events.
      destruct (snd (query_dune_api_by_sql w client slug SQL)) as [d'|e|]; [| |discriminate].
      + destruct client; reflexivity.
      + rewrite isinstance_Exception in *.
        destruct (contains "paid plan" (lower (exn_str e))); [|discriminate].
        rewrite seq_snd in Hd. cbn in Hd. inversion Hd. subst d. discriminate. }
  destruct INNER as [ievs [d|e|]]; cbn [fst snd] in Hinner.
  - specialize (Hinner d eq_refl). unfold seq, emit, ret, try_except in H.
    destruct (empty d) eqn:E; cbn in H; inversion H; subst evs dune_df; rewrite E.
    + left. right. apply in_or_app. right. now left.
    + specialize (Hinner eq_refl). cbn [existsb is_error orb].
      rewrite app_nil_r. exact Hinner.
  - unfold seq, emit, ret, try_except in H. cbn in H.
    rewrite isinstance_Exception in H. cbn in H. inversion H. subst evs dune_df.
    cbn [empty pd_DataFrame columns]. right. exists e. right. apply in_or_app. right. now left.
  - unfold seq, emit, ret, try_except in H. cbn in H. discriminate.
Qed.

Lemma load_dune_announces_empty_frame_witness :
  (let evs := [st_toast "Executing Dune query for arbitrum..."; RunQuery 12345] in
   existsb is_error evs = false) /\
  (let evs := [st_toast "Executing Dune query for arbitrum...";
               st_warning "⚠️ ARBITRUM_QUERY_ID not set. Attempting to use raw SQL (requires paid Dune plan)...";
               RunSql "SELECT 1" "arbitrum";
               st_error "Error querying Dune API for arbitrum: Dune API error for arbitrum: timeout"] in
   In (st_warning "Arbitrum Dune query returned no data. This may be normal if the query is still executing.") evs \/
   exists e, In (st_error ("Error querying Dune API for arbitrum: " ++ exn_str e)) evs).
Proof.
  split.
  - exact (load_dune_announces_empty_frame scenario_world (Some "key") "arbitrum" "Arbitrum"
             "ARBITRUM_QUERY_ID" (Some "12345") "SELECT 1" _ scenario_dune_df eq_refl).
  - exact (load_dune_announces_empty_frame timeout_world (Some "key") "arbitrum" "Arbitrum"
             "ARBITRUM_QUERY_ID" None "SELECT 1" _ pd_DataFrame eq_refl).
Defined.

(** ** The order of the calls *)















(** ** What the caches keep *)



